(** * Teleprompter: the script editor and the teleprompter session

    A shallow embedding of the script editor screen
    ([src/app/(tabs)/index.tsx], component [ScriptsScreen]) and of the
    teleprompter / recorder screen (the later of the two [TeleprompterScreen]
    components, the one with [cameraReady], [recordingStatus] and
    [cameraKey]), of the recordings browser ([RecordingsScreen]) and of the
    [startRecording] of the earlier [TeleprompterScreen], followed by the
    properties of the specification that concern them and by further
    properties of the code.

    Conventions of the embedding.
    - A JavaScript string is the list of its UTF-16 code units.
    - A component's [useState] cells and [useRef] cells are the fields of a
      record; an event handler is a function on that record which reads the
      cells as they are when the handler runs.
    - [setInterval] and [setTimeout] live in a table of timers addressed by
      handles; a ref that stores a timer stores its handle.
    - An [async] handler is cut at each [await]: every piece is a function
      that returns the state reached and what the handler waits for next.
    - [Alert.alert] appends to a log of alerts.
    - The clock is ideal: it counts milliseconds and a timer fires in the
      millisecond in which it is due.
    - A closure handed to an alert button keeps the cells it read when it
      was created, wherever the embedding lets them change before the
      button is pressed.
    - The handlers of the script editor are given twice: run to their end,
      with the write to the store settled at once ([ScriptsScreen]), and
      cut at the [await] of [saveScripts], with presses and other writes
      in between ([ScriptsScreenAsync]).

    Left out: styles and layout, [console.log], [formatDuration] and
    [formatDate] of the recordings browser (floating point and locale),
    [selectScript], the cleanup run when the teleprompter screen is unmounted
    (no state is left to observe), and scrolling of the script by hand. *)

From Stdlib Require Import List NArith ZArith Bool Ascii String Lia DecimalN.
From Stdlib Require QArith_base.
Import ListNotations.

(* ================================================================== *)
(** ** JavaScript strings *)

Module JS.

(** A string value: its UTF-16 code units. *)
Definition jsstring := list N.

Definition jsstring_eqb (a b : jsstring) : bool :=
  if list_eq_dec N.eq_dec a b then true else false.

(** [!s] is true exactly for the empty string. *)
Definition truthy (s : jsstring) : bool :=
  match s with [] => false | _ :: _ => true end.

(** White space and line terminators of ECMAScript: what [String.prototype.trim]
    strips and what the regular expression class [\s] matches. *)
Definition isWhiteSpace (c : N) : bool :=
  ((c =? 0x09) || (c =? 0x0A) || (c =? 0x0B) || (c =? 0x0C) || (c =? 0x0D)
   || (c =? 0x20) || (c =? 0xA0) || (c =? 0x1680)
   || ((0x2000 <=? c) && (c <=? 0x200A))
   || (c =? 0x2028) || (c =? 0x2029) || (c =? 0x202F) || (c =? 0x205F)
   || (c =? 0x3000) || (c =? 0xFEFF))%N.

Fixpoint trimStart (s : jsstring) : jsstring :=
  match s with
  | [] => []
  | c :: rest => if isWhiteSpace c then trimStart rest else s
  end.

Definition trimEnd (s : jsstring) : jsstring := rev (trimStart (rev s)).

(** [s.trim()] *)
Definition trim (s : jsstring) : jsstring := trimEnd (trimStart s).

(** [s.split(/\s+/)]: the scan of [String.prototype.split] for the separator
    [\s+].  [piece] holds, reversed, the code units read since the last
    separator; [inSep] tells that the previous code unit belonged to a
    separator, which the greedy [+] extends.  The piece left at the end of
    the string is always pushed, so the empty string splits into one
    (empty) piece. *)
Fixpoint split_from (piece : jsstring) (inSep : bool) (s : jsstring)
  : list jsstring :=
  match s with
  | [] => [rev piece]
  | c :: rest =>
      if isWhiteSpace c
      then if inSep
           then split_from piece true rest
           else rev piece :: split_from [] true rest
      else split_from (c :: piece) false rest
  end.

Definition split_ws (s : jsstring) : list jsstring := split_from [] false s.

(** [n.toString()] for a non-negative integer: its decimal digits. *)
Fixpoint digits (d : Decimal.uint) : jsstring :=
  match d with
  | Decimal.Nil => []
  | Decimal.D0 d => 48%N :: digits d
  | Decimal.D1 d => 49%N :: digits d
  | Decimal.D2 d => 50%N :: digits d
  | Decimal.D3 d => 51%N :: digits d
  | Decimal.D4 d => 52%N :: digits d
  | Decimal.D5 d => 53%N :: digits d
  | Decimal.D6 d => 54%N :: digits d
  | Decimal.D7 d => 55%N :: digits d
  | Decimal.D8 d => 56%N :: digits d
  | Decimal.D9 d => 57%N :: digits d
  end.

Definition toString (n : N) : jsstring := digits (N.to_uint n).

(** The words of a text, counted directly: the maximal runs of code units
    that are not white space.  [prevSpace] tells that the position before
    the current one is the start of the text or white space. *)
Fixpoint count_words_from (prevSpace : bool) (s : jsstring) : nat :=
  match s with
  | [] => 0
  | c :: rest =>
      if isWhiteSpace c
      then count_words_from true rest
      else (if prevSpace then 1 else 0) + count_words_from false rest
  end.

Definition count_words (s : jsstring) : nat := count_words_from true s.

(** Code units of an ASCII literal, for examples. *)
Fixpoint lit (s : string) : jsstring :=
  match s with
  | EmptyString => []
  | String a rest => N_of_ascii a :: lit rest
  end.

End JS.

(* ================================================================== *)
(** ** Scripts *)

Module Script.

(** [interface Script] *)
Record t := mk {
  id : JS.jsstring;
  title : JS.jsstring;
  content : JS.jsstring;
  createdAt : JS.jsstring;
  wordCount : Z
}.

End Script.

(** An alert shown to the user: [Alert.alert(title, message)]. *)
Definition Alert := (string * string)%type.

(* ================================================================== *)
(** ** The script editor screen, [ScriptsScreen] *)

Module ScriptsScreen.

(** The state cells of the component, the entry [teleprompter_scripts] of
    the persistent store (its JSON text is identified with the list it
    encodes) and the alerts shown so far. *)
Record State := mkState {
  scripts : list Script.t;
  modalVisible : bool;
  editingScript : option Script.t;
  title : JS.jsstring;
  content : JS.jsstring;
  teleprompter_scripts : option (list Script.t);
  alerts : list Alert
}.

Definition initialState : State :=
  mkState [] false None [] [] None [].

(** [saveScripts], run to its end: [setItemOk] tells whether
    [AsyncStorage.setItem] succeeded; when it throws, the error is logged
    and [setScripts] is not reached.  In this module the write has settled
    before anything else happens; [ScriptsScreenAsync] cuts the function at
    its [await]. *)
Definition saveScripts (setItemOk : bool) (updatedScripts : list Script.t)
    (s : State) : State :=
  if setItemOk
  then mkState updatedScripts (modalVisible s) (editingScript s) (title s)
         (content s) (Some updatedScripts) (alerts s)
  else s.

Definition createScript (s : State) : State :=
  mkState (scripts s) true None [] [] (teleprompter_scripts s) (alerts s).

Definition editScript (script : Script.t) (s : State) : State :=
  mkState (scripts s) true (Some script) (Script.title script)
    (Script.content script) (teleprompter_scripts s) (alerts s).

(** [onChangeText={setTitle}] and [onChangeText={setContent}] *)
Definition setTitle (v : JS.jsstring) (s : State) : State :=
  mkState (scripts s) (modalVisible s) (editingScript s) v (content s)
    (teleprompter_scripts s) (alerts s).

Definition setContent (v : JS.jsstring) (s : State) : State :=
  mkState (scripts s) (modalVisible s) (editingScript s) (title s) v
    (teleprompter_scripts s) (alerts s).

(** The object spread [{ ...script, title, content, wordCount }]. *)
Definition withEdits (script : Script.t) (title content : JS.jsstring)
    (wordCount : Z) : Script.t :=
  Script.mk (Script.id script) title content (Script.createdAt script)
    wordCount.

(** The modal is closed and its fields cleared (the last four lines of
    [saveScript]). *)
Definition closeModal (s : State) : State :=
  mkState (scripts s) false None [] [] (teleprompter_scripts s) (alerts s).

(** [saveScript].  [nowISO] is [new Date().toISOString()] and [nowMs] is
    [Date.now()], the two readings of the clock that the handler takes. *)
Definition saveScript (nowISO : JS.jsstring) (nowMs : N) (setItemOk : bool)
    (s : State) : State :=
  if negb (JS.truthy (JS.trim (title s)))
     || negb (JS.truthy (JS.trim (content s)))
  then mkState (scripts s) (modalVisible s) (editingScript s) (title s)
         (content s) (teleprompter_scripts s)
         (alerts s ++ [("Error", "Please enter both title and content")%string])
  else
    let wordCount :=
      Z.of_nat (List.length (JS.split_ws (JS.trim (content s)))) in
    let now := nowISO in
    let s' :=
      match editingScript s with
      | Some editing =>
          let updatedScripts :=
            map (fun script =>
                   if JS.jsstring_eqb (Script.id script) (Script.id editing)
                   then withEdits script (title s) (content s) wordCount
                   else script)
                (scripts s) in
          saveScripts setItemOk updatedScripts s
      | None =>
          let newScript :=
            Script.mk (JS.toString nowMs) (title s) (content s) now
              wordCount in
          saveScripts setItemOk (scripts s ++ [newScript]) s
      end in
    closeModal s'.

(** The confirmed branch of [deleteScript]. *)
Definition deleteScript (setItemOk : bool) (scriptId : JS.jsstring)
    (s : State) : State :=
  saveScripts setItemOk
    (filter (fun script => negb (JS.jsstring_eqb (Script.id script) scriptId))
       (scripts s))
    s.

(** *** The other handlers of the screen *)

(** [loadScripts], once [AsyncStorage.getItem] has answered: [getItemOk]
    tells that neither the read nor [JSON.parse] threw. *)
Definition loadScripts_done (getItemOk : bool) (s : State) : State :=
  if getItemOk
  then match teleprompter_scripts s with
       | Some storedScripts =>
           mkState storedScripts (modalVisible s) (editingScript s) (title s)
             (content s) (teleprompter_scripts s) (alerts s)
       | None => s
       end
  else s.

(** [onPress={() => setModalVisible(false)}], the Cancel button. *)
Definition cancel (s : State) : State :=
  mkState (scripts s) false (editingScript s) (title s) (content s)
    (teleprompter_scripts s) (alerts s).

(** The component at mount, over a store whose entry is [stored]. *)
Definition mount (stored : option (list Script.t)) : State :=
  mkState [] false None [] [] stored [].

(** *** Notions used to state the properties *)

(** A text of white space only, the empty text included. *)
Definition blank (s : JS.jsstring) : Prop :=
  Forall (fun c => JS.isWhiteSpace c = true) s.

(** The list on screen is the list in the store (an absent entry standing
    for the empty list). *)
Definition synced (s : State) : Prop :=
  match teleprompter_scripts s with
  | Some stored => scripts s = stored
  | None => scripts s = []
  end.

(** A script whose title and content are not blank and whose word count is
    the number of words of its content. *)
Definition counted (script : Script.t) : Prop :=
  JS.truthy (JS.trim (Script.title script)) = true
  /\ JS.truthy (JS.trim (Script.content script)) = true
  /\ Script.wordCount script = Z.of_nat (JS.count_words (Script.content script)).

(** The scripts on screen and those in the store are all counted. *)
Definition allCounted (s : State) : Prop :=
  Forall counted (scripts s)
  /\ forall stored, teleprompter_scripts s = Some stored -> Forall counted stored.

End ScriptsScreen.

(* ================================================================== *)
(** ** The teleprompter screen, [TeleprompterScreen] *)

Module Teleprompter.

Local Open Scope Z_scope.

(** The values that [recordingStatus] takes. *)
Inductive RecordingStatus := idle | recording | saving | saved | error.

(** The mounted [CameraView], told apart by the [key] it was created
    with, and the mounted [ScrollView] with the offset last requested
    through [scrollTo]. *)
Record CameraView := mkCameraView { instanceKey : Z }.
Record ScrollView := mkScrollView { y : Z }.

(** The three closures that the component hands to [setInterval] and
    [setTimeout]:
    - the scroll tick of [startAutoScroll], with its local variable
      [scrollPosition] and the [scrollSpeed] it captured;
    - the tick of [startRecordingTimer];
    - [() => setRecordingStatus('idle')]. *)
Inductive Callback :=
| ScrollTick (scrollPosition scrollSpeed : Z)
| RecordingTick
| ResetStatus.

(** An entry of the timer table: [period] is the interval of a
    [setInterval], and [None] for a [setTimeout]. *)
Record Timer := mkTimer {
  handle : N;
  due : Z;
  period : option Z;
  callback : Callback
}.

(** The [useState] cells, the [useRef] cells, and the surroundings: the
    clock in milliseconds ([Date.now()]), the timer table, the next free
    timer handle, the alerts shown. *)
Record State := mkState {
  selectedScript : option Script.t;
  isRecording : bool;
  hasCameraPermission : option bool;
  hasAudioPermission : option bool;
  hasMediaLibraryPermission : option bool;
  scrollSpeed : Z;
  fontSize : Z;
  isScrolling : bool;
  cameraReady : bool;
  recordingStatus : RecordingStatus;
  recordingDuration : Z;
  cameraKey : Z;
  cameraRef : option CameraView;
  scrollViewRef : option ScrollView;
  scrollIntervalRef : option N;
  recordingTimerRef : option N;
  recordingStartTime : Z;
  now : Z;
  timers : list Timer;
  nextHandle : N;
  alerts : list Alert
}.

(** The state of a freshly mounted component at clock reading [t0].  Timer
    handles are positive numbers, so a ref that holds one is truthy. *)
Definition initialState (t0 : Z) : State :=
  mkState None false None None None 2 24 false false idle 0 0
    None None None None 0 t0 [] 1%N [].

Definition set_selectedScript (v : option Script.t) (s : State) : State :=
  mkState v (isRecording s) (hasCameraPermission s) (hasAudioPermission s)
    (hasMediaLibraryPermission s) (scrollSpeed s) (fontSize s)
    (isScrolling s) (cameraReady s) (recordingStatus s)
    (recordingDuration s) (cameraKey s) (cameraRef s) (scrollViewRef s)
    (scrollIntervalRef s) (recordingTimerRef s) (recordingStartTime s)
    (now s) (timers s) (nextHandle s) (alerts s).

Definition set_isRecording (v : bool) (s : State) : State :=
  mkState (selectedScript s) v (hasCameraPermission s)
    (hasAudioPermission s) (hasMediaLibraryPermission s) (scrollSpeed s)
    (fontSize s) (isScrolling s) (cameraReady s) (recordingStatus s)
    (recordingDuration s) (cameraKey s) (cameraRef s) (scrollViewRef s)
    (scrollIntervalRef s) (recordingTimerRef s) (recordingStartTime s)
    (now s) (timers s) (nextHandle s) (alerts s).

Definition set_hasCameraPermission (v : option bool) (s : State) : State :=
  mkState (selectedScript s) (isRecording s) v (hasAudioPermission s)
    (hasMediaLibraryPermission s) (scrollSpeed s) (fontSize s)
    (isScrolling s) (cameraReady s) (recordingStatus s)
    (recordingDuration s) (cameraKey s) (cameraRef s) (scrollViewRef s)
    (scrollIntervalRef s) (recordingTimerRef s) (recordingStartTime s)
    (now s) (timers s) (nextHandle s) (alerts s).

Definition set_hasAudioPermission (v : option bool) (s : State) : State :=
  mkState (selectedScript s) (isRecording s) (hasCameraPermission s) v
    (hasMediaLibraryPermission s) (scrollSpeed s) (fontSize s)
    (isScrolling s) (cameraReady s) (recordingStatus s)
    (recordingDuration s) (cameraKey s) (cameraRef s) (scrollViewRef s)
    (scrollIntervalRef s) (recordingTimerRef s) (recordingStartTime s)
    (now s) (timers s) (nextHandle s) (alerts s).

Definition set_hasMediaLibraryPermission (v : option bool) (s : State) : State :=
  mkState (selectedScript s) (isRecording s) (hasCameraPermission s)
    (hasAudioPermission s) v (scrollSpeed s) (fontSize s) (isScrolling s)
    (cameraReady s) (recordingStatus s) (recordingDuration s) (cameraKey s)
    (cameraRef s) (scrollViewRef s) (scrollIntervalRef s)
    (recordingTimerRef s) (recordingStartTime s) (now s) (timers s)
    (nextHandle s) (alerts s).

Definition set_scrollSpeed (v : Z) (s : State) : State :=
  mkState (selectedScript s) (isRecording s) (hasCameraPermission s)
    (hasAudioPermission s) (hasMediaLibraryPermission s) v (fontSize s)
    (isScrolling s) (cameraReady s) (recordingStatus s)
    (recordingDuration s) (cameraKey s) (cameraRef s) (scrollViewRef s)
    (scrollIntervalRef s) (recordingTimerRef s) (recordingStartTime s)
    (now s) (timers s) (nextHandle s) (alerts s).

Definition set_fontSize (v : Z) (s : State) : State :=
  mkState (selectedScript s) (isRecording s) (hasCameraPermission s)
    (hasAudioPermission s) (hasMediaLibraryPermission s) (scrollSpeed s) v
    (isScrolling s) (cameraReady s) (recordingStatus s)
    (recordingDuration s) (cameraKey s) (cameraRef s) (scrollViewRef s)
    (scrollIntervalRef s) (recordingTimerRef s) (recordingStartTime s)
    (now s) (timers s) (nextHandle s) (alerts s).

Definition set_isScrolling (v : bool) (s : State) : State :=
  mkState (selectedScript s) (isRecording s) (hasCameraPermission s)
    (hasAudioPermission s) (hasMediaLibraryPermission s) (scrollSpeed s)
    (fontSize s) v (cameraReady s) (recordingStatus s) (recordingDuration s)
    (cameraKey s) (cameraRef s) (scrollViewRef s) (scrollIntervalRef s)
    (recordingTimerRef s) (recordingStartTime s) (now s) (timers s)
    (nextHandle s) (alerts s).

Definition set_cameraReady (v : bool) (s : State) : State :=
  mkState (selectedScript s) (isRecording s) (hasCameraPermission s)
    (hasAudioPermission s) (hasMediaLibraryPermission s) (scrollSpeed s)
    (fontSize s) (isScrolling s) v (recordingStatus s) (recordingDuration s)
    (cameraKey s) (cameraRef s) (scrollViewRef s) (scrollIntervalRef s)
    (recordingTimerRef s) (recordingStartTime s) (now s) (timers s)
    (nextHandle s) (alerts s).

Definition set_recordingStatus (v : RecordingStatus) (s : State) : State :=
  mkState (selectedScript s) (isRecording s) (hasCameraPermission s)
    (hasAudioPermission s) (hasMediaLibraryPermission s) (scrollSpeed s)
    (fontSize s) (isScrolling s) (cameraReady s) v (recordingDuration s)
    (cameraKey s) (cameraRef s) (scrollViewRef s) (scrollIntervalRef s)
    (recordingTimerRef s) (recordingStartTime s) (now s) (timers s)
    (nextHandle s) (alerts s).

Definition set_recordingDuration (v : Z) (s : State) : State :=
  mkState (selectedScript s) (isRecording s) (hasCameraPermission s)
    (hasAudioPermission s) (hasMediaLibraryPermission s) (scrollSpeed s)
    (fontSize s) (isScrolling s) (cameraReady s) (recordingStatus s) v
    (cameraKey s) (cameraRef s) (scrollViewRef s) (scrollIntervalRef s)
    (recordingTimerRef s) (recordingStartTime s) (now s) (timers s)
    (nextHandle s) (alerts s).

Definition set_cameraKey (v : Z) (s : State) : State :=
  mkState (selectedScript s) (isRecording s) (hasCameraPermission s)
    (hasAudioPermission s) (hasMediaLibraryPermission s) (scrollSpeed s)
    (fontSize s) (isScrolling s) (cameraReady s) (recordingStatus s)
    (recordingDuration s) v (cameraRef s) (scrollViewRef s)
    (scrollIntervalRef s) (recordingTimerRef s) (recordingStartTime s)
    (now s) (timers s) (nextHandle s) (alerts s).

Definition set_cameraRef (v : option CameraView) (s : State) : State :=
  mkState (selectedScript s) (isRecording s) (hasCameraPermission s)
    (hasAudioPermission s) (hasMediaLibraryPermission s) (scrollSpeed s)
    (fontSize s) (isScrolling s) (cameraReady s) (recordingStatus s)
    (recordingDuration s) (cameraKey s) v (scrollViewRef s)
    (scrollIntervalRef s) (recordingTimerRef s) (recordingStartTime s)
    (now s) (timers s) (nextHandle s) (alerts s).

Definition set_scrollViewRef (v : option ScrollView) (s : State) : State :=
  mkState (selectedScript s) (isRecording s) (hasCameraPermission s)
    (hasAudioPermission s) (hasMediaLibraryPermission s) (scrollSpeed s)
    (fontSize s) (isScrolling s) (cameraReady s) (recordingStatus s)
    (recordingDuration s) (cameraKey s) (cameraRef s) v
    (scrollIntervalRef s) (recordingTimerRef s) (recordingStartTime s)
    (now s) (timers s) (nextHandle s) (alerts s).

Definition set_scrollIntervalRef (v : option N) (s : State) : State :=
  mkState (selectedScript s) (isRecording s) (hasCameraPermission s)
    (hasAudioPermission s) (hasMediaLibraryPermission s) (scrollSpeed s)
    (fontSize s) (isScrolling s) (cameraReady s) (recordingStatus s)
    (recordingDuration s) (cameraKey s) (cameraRef s) (scrollViewRef s) v
    (recordingTimerRef s) (recordingStartTime s) (now s) (timers s)
    (nextHandle s) (alerts s).

Definition set_recordingTimerRef (v : option N) (s : State) : State :=
  mkState (selectedScript s) (isRecording s) (hasCameraPermission s)
    (hasAudioPermission s) (hasMediaLibraryPermission s) (scrollSpeed s)
    (fontSize s) (isScrolling s) (cameraReady s) (recordingStatus s)
    (recordingDuration s) (cameraKey s) (cameraRef s) (scrollViewRef s)
    (scrollIntervalRef s) v (recordingStartTime s) (now s) (timers s)
    (nextHandle s) (alerts s).

Definition set_recordingStartTime (v : Z) (s : State) : State :=
  mkState (selectedScript s) (isRecording s) (hasCameraPermission s)
    (hasAudioPermission s) (hasMediaLibraryPermission s) (scrollSpeed s)
    (fontSize s) (isScrolling s) (cameraReady s) (recordingStatus s)
    (recordingDuration s) (cameraKey s) (cameraRef s) (scrollViewRef s)
    (scrollIntervalRef s) (recordingTimerRef s) v (now s) (timers s)
    (nextHandle s) (alerts s).

Definition set_now (v : Z) (s : State) : State :=
  mkState (selectedScript s) (isRecording s) (hasCameraPermission s)
    (hasAudioPermission s) (hasMediaLibraryPermission s) (scrollSpeed s)
    (fontSize s) (isScrolling s) (cameraReady s) (recordingStatus s)
    (recordingDuration s) (cameraKey s) (cameraRef s) (scrollViewRef s)
    (scrollIntervalRef s) (recordingTimerRef s) (recordingStartTime s) v
    (timers s) (nextHandle s) (alerts s).

Definition set_timers (v : list Timer) (s : State) : State :=
  mkState (selectedScript s) (isRecording s) (hasCameraPermission s)
    (hasAudioPermission s) (hasMediaLibraryPermission s) (scrollSpeed s)
    (fontSize s) (isScrolling s) (cameraReady s) (recordingStatus s)
    (recordingDuration s) (cameraKey s) (cameraRef s) (scrollViewRef s)
    (scrollIntervalRef s) (recordingTimerRef s) (recordingStartTime s)
    (now s) v (nextHandle s) (alerts s).

Definition set_nextHandle (v : N) (s : State) : State :=
  mkState (selectedScript s) (isRecording s) (hasCameraPermission s)
    (hasAudioPermission s) (hasMediaLibraryPermission s) (scrollSpeed s)
    (fontSize s) (isScrolling s) (cameraReady s) (recordingStatus s)
    (recordingDuration s) (cameraKey s) (cameraRef s) (scrollViewRef s)
    (scrollIntervalRef s) (recordingTimerRef s) (recordingStartTime s)
    (now s) (timers s) v (alerts s).

Definition set_alerts (v : list Alert) (s : State) : State :=
  mkState (selectedScript s) (isRecording s) (hasCameraPermission s)
    (hasAudioPermission s) (hasMediaLibraryPermission s) (scrollSpeed s)
    (fontSize s) (isScrolling s) (cameraReady s) (recordingStatus s)
    (recordingDuration s) (cameraKey s) (cameraRef s) (scrollViewRef s)
    (scrollIntervalRef s) (recordingTimerRef s) (recordingStartTime s)
    (now s) (timers s) (nextHandle s) v.


(** *** Truthiness *)

(** A permission cell [p : boolean | null] is truthy only when it holds
    [true]: [!p] is [negb (granted p)]. *)
Definition granted (p : option bool) : bool :=
  match p with Some true => true | _ => false end.

Definition attached {A : Type} (r : option A) : bool :=
  match r with Some _ => true | None => false end.

(** *** Alerts and timers *)

Definition alert (title message : string) (s : State) : State :=
  set_alerts (alerts s ++ [(title, message)]) s.

(** [setInterval(cb, ms)] and [setTimeout(cb, ms)]: the new entry and its
    handle. *)
Definition setInterval (cb : Callback) (ms : Z) (s : State) : State * N :=
  let h := nextHandle s in
  (set_nextHandle (h + 1)%N
     (set_timers (timers s ++ [mkTimer h (now s + ms) (Some ms) cb]) s),
   h).

Definition setTimeout (cb : Callback) (ms : Z) (s : State) : State :=
  let h := nextHandle s in
  set_nextHandle (h + 1)%N
    (set_timers (timers s ++ [mkTimer h (now s + ms) None cb]) s).

(** [clearInterval(h)] *)
Definition clearInterval (h : N) (s : State) : State :=
  set_timers (filter (fun t => negb (handle t =? h)%N) (timers s)) s.

(** [scrollViewRef.current?.scrollTo({ y, animated: true })] *)
Definition scrollTo (y : Z) (s : State) : State :=
  match scrollViewRef s with
  | Some _ => set_scrollViewRef (Some (mkScrollView y)) s
  | None => s
  end.

(** What a callback does when its timer fires. *)
Definition runCallback (cb : Callback) (s : State) : State :=
  match cb with
  | ScrollTick scrollPosition scrollSpeed =>
      scrollTo (scrollPosition + scrollSpeed) s
  | RecordingTick =>
      let elapsed := now s - recordingStartTime s in
      set_recordingDuration elapsed s
  | ResetStatus => set_recordingStatus idle s
  end.

(** The entry of a timer after it fired: a timeout is gone, an interval is
    due one period later, and the scroll tick keeps the value it gave to
    its variable [scrollPosition]. *)
Definition afterFiring (t : Timer) : option Timer :=
  match period t with
  | None => None
  | Some ms =>
      Some (mkTimer (handle t) (due t + ms) (Some ms)
              (match callback t with
               | ScrollTick scrollPosition scrollSpeed =>
                   ScrollTick (scrollPosition + scrollSpeed) scrollSpeed
               | cb => cb
               end))
  end.

Definition isDue (clock : Z) (t : Timer) : bool := due t <=? clock.

Fixpoint fireDue (clock : Z) (ts : list Timer) (s : State) : State :=
  match ts with
  | [] => s
  | t :: rest =>
      fireDue clock rest
        (if isDue clock t then runCallback (callback t) s else s)
  end.

Fixpoint reschedule (clock : Z) (ts : list Timer) : list Timer :=
  match ts with
  | [] => []
  | t :: rest =>
      if isDue clock t
      then match afterFiring t with
           | Some t' => t' :: reschedule clock rest
           | None => reschedule clock rest
           end
      else t :: reschedule clock rest
  end.

(** One millisecond passes: the timers that are due fire, in the order in
    which they were created. *)
Definition step_ms (s : State) : State :=
  let s1 := set_now (now s + 1) s in
  let s2 := fireDue (now s1) (timers s1) s1 in
  set_timers (reschedule (now s1) (timers s1)) s2.

Fixpoint advance (ms : nat) (s : State) : State :=
  match ms with
  | O => s
  | S n => advance n (step_ms s)
  end.

(** *** Asynchronous calls *)

(** A value caught by [catch]: an [Error] with its message, or anything
    else. *)
Inductive Thrown := ErrorObject (message : string) | OtherValue.

Inductive Settled (A : Type) :=
| Resolved (a : A)
| Rejected (e : Thrown).
Arguments Resolved {A} a.
Arguments Rejected {A} e.

Record CameraRecordingOptions := mkOptions {
  codec : string;
  maxDuration : Z;
  maxFileSize : Z
}.

(** The result of [recordAsync]. *)
Record Video := mkVideo { uri : JS.jsstring }.

(** What an [async] handler is waiting for when it yields. *)
Inductive Await :=
| Done
| AwaitRecordAsync (options : CameraRecordingOptions)
| AwaitSaveToLibrary (uri : JS.jsstring)
| AwaitStopRecording.

(** [s.includes(pattern)] on messages *)
Definition includes (pattern s : string) : bool :=
  match String.index 0 pattern s with Some _ => true | None => false end.

(** *** The handlers *)

(** The callback of [useFocusEffect], run when the screen gains focus.
    It also starts [loadSelectedScript], whose result arrives later. *)
Definition onFocus (s : State) : State :=
  let s := set_cameraReady false s in
  let s := set_recordingStatus idle s in
  let s := set_isRecording false s in
  let s := set_recordingDuration 0 s in
  let s := set_cameraKey (cameraKey s + 1) s in
  match recordingTimerRef s with
  | Some h => set_recordingTimerRef None (clearInterval h s)
  | None => s
  end.

(** The cleanup that the focus callback returns, run when the screen loses
    focus. *)
Definition onBlur (s : State) : State :=
  match recordingTimerRef s with
  | Some h => set_recordingTimerRef None (clearInterval h s)
  | None => s
  end.

(** [requestPermissions], once its three requests have been answered. *)
Definition requestPermissions_done (camera microphone mediaLibrary : bool)
    (s : State) : State :=
  let s := set_hasCameraPermission (Some camera) s in
  let s := set_hasAudioPermission (Some microphone) s in
  set_hasMediaLibraryPermission (Some mediaLibrary) s.

(** [loadSelectedScript], once [AsyncStorage.getItem] has answered with
    the entry [selected_script], if there is one. *)
Definition loadSelectedScript_done (script : option Script.t) (s : State)
  : State :=
  match script with
  | Some sc => set_selectedScript (Some sc) s
  | None => s
  end.

Definition onCameraReady (s : State) : State := set_cameraReady true s.

Definition startRecordingTimer (s : State) : State :=
  let s := set_recordingStartTime (now s) s in
  let s := set_recordingDuration 0 s in
  let (s, h) := setInterval RecordingTick 100 s in
  set_recordingTimerRef (Some h) s.

Definition stopRecordingTimer (s : State) : State :=
  match recordingTimerRef s with
  | Some h => set_recordingTimerRef None (clearInterval h s)
  | None => s
  end.

(** [startRecording], up to its first [await]. *)
Definition startRecording (s : State) : State * Await :=
  if negb (attached (cameraRef s))
  then (alert "Error" "Camera not ready" s, Done)
  else if negb (granted (hasCameraPermission s))
          || negb (granted (hasAudioPermission s))
  then (alert "Error" "Camera and microphone permissions required" s, Done)
  else if negb (granted (hasMediaLibraryPermission s))
  then (alert "Error" "Media library permission required" s, Done)
  else if negb (cameraReady s)
  then (alert "Error"
          "Camera is not ready. Please wait a moment and try again." s,
        Done)
  else
    let s := set_isRecording true s in
    let s := set_recordingStatus recording s in
    let s := startRecordingTimer s in
    (s, AwaitRecordAsync (mkOptions "avc1" 60 (100 * 1024 * 1024))).

(** The end of the [try] block of [startRecording], after the inner
    [try]/[catch] and the [else] branch. *)
Definition startRecording_finish (s : State) : State :=
  let s := set_isRecording false s in
  let s := set_recordingDuration 0 s in
  setTimeout ResetStatus 2000 s.

(** The outer [catch] block of [startRecording]. *)
Definition startRecording_catch (e : Thrown) (s : State) : State :=
  let s := stopRecordingTimer s in
  let errorMessage :=
    match e with
    | ErrorObject message => message
    | OtherValue => "Unknown error occurred"%string
    end in
  let userMessage :=
    if includes "stopped before any data" errorMessage
    then "Recording failed - this may be a simulator limitation. Try on a real device."%string
    else "Failed to record video"%string in
  let s := alert "Recording Error" userMessage s in
  let s := set_isRecording false s in
  let s := set_recordingDuration 0 s in
  let s := set_recordingStatus error s in
  setTimeout ResetStatus 2000 s.

(** [startRecording], resumed when [recordAsync] settles. *)
Definition startRecording_recorded (r : Settled (option Video)) (s : State)
  : State * Await :=
  match r with
  | Rejected e => (startRecording_catch e s, Done)
  | Resolved video =>
      let s := stopRecordingTimer s in
      let s := set_recordingStatus saving s in
      match video with
      | Some v =>
          if JS.truthy (uri v)
          then (s, AwaitSaveToLibrary (uri v))
          else
            let s := alert "Error" "No video data was recorded" s in
            let s := set_recordingStatus error s in
            (startRecording_finish s, Done)
      | None =>
          let s := alert "Error" "No video data was recorded" s in
          let s := set_recordingStatus error s in
          (startRecording_finish s, Done)
      end
  end.

(** [startRecording], resumed when [MediaLibrary.saveToLibraryAsync]
    settles. *)
Definition startRecording_saved (r : Settled unit) (s : State)
  : State * Await :=
  match r with
  | Resolved _ =>
      let s := alert "Success" "Video saved to gallery!" s in
      let s := set_recordingStatus saved s in
      (startRecording_finish s, Done)
  | Rejected _ =>
      let s := alert "Error" "Failed to save video to gallery" s in
      let s := set_recordingStatus error s in
      (startRecording_finish s, Done)
  end.

(** [stopRecording], up to its [await]. *)
Definition stopRecording (s : State) : State * Await :=
  if attached (cameraRef s) && isRecording s
  then (s, AwaitStopRecording)
  else (s, Done).

(** [stopRecording], resumed when the camera's [stopRecording] settles. *)
Definition stopRecording_stopped (r : Settled unit) (s : State) : State :=
  match r with
  | Resolved _ => s
  | Rejected _ =>
      let s := stopRecordingTimer s in
      let s := set_isRecording false s in
      let s := set_recordingDuration 0 s in
      let s := set_recordingStatus error s in
      setTimeout ResetStatus 2000 s
  end.

Definition startAutoScroll (s : State) : State :=
  if negb (attached (selectedScript s)) || isScrolling s
  then s
  else
    let speed := scrollSpeed s in
    let s := set_isScrolling true s in
    let scrollPosition := 0 in
    let (s, h) := setInterval (ScrollTick scrollPosition speed) 50 s in
    set_scrollIntervalRef (Some h) s.

Definition stopAutoScroll (s : State) : State :=
  let s := set_isScrolling false s in
  match scrollIntervalRef s with
  | Some h => set_scrollIntervalRef None (clearInterval h s)
  | None => s
  end.

Definition resetScroll (s : State) : State :=
  let s := stopAutoScroll s in
  scrollTo 0 s.

(** The four setting buttons. *)
Definition decreaseSpeed (s : State) : State :=
  set_scrollSpeed (Z.max 1 (scrollSpeed s - 1)) s.

Definition increaseSpeed (s : State) : State :=
  set_scrollSpeed (Z.min 10 (scrollSpeed s + 1)) s.

Definition decreaseFont (s : State) : State :=
  set_fontSize (Z.max 16 (fontSize s - 2)) s.

Definition increaseFont (s : State) : State :=
  set_fontSize (Z.min 36 (fontSize s + 2)) s.

(** *** Rendering *)

(** The four things the component can return. *)
Inductive Screen :=
| RequestingPermissions
| PermissionsRequired
| NoScriptSelected
| MainView.

Definition render (s : State) : Screen :=
  match hasCameraPermission s, hasAudioPermission s with
  | None, _ | _, None => RequestingPermissions
  | Some false, _ | _, Some false => PermissionsRequired
  | Some true, Some true =>
      match selectedScript s with
      | None => NoScriptSelected
      | Some _ => MainView
      end
  end.

(** After a render the refs follow what is mounted: the main view holds
    the [ScrollView] (a new one starts at offset zero) and the
    [CameraView] keyed by [cameraKey]; the other screens hold neither. *)
Definition commit (s : State) : State :=
  match render s with
  | MainView =>
      let s := set_cameraRef (Some (mkCameraView (cameraKey s))) s in
      match scrollViewRef s with
      | Some _ => s
      | None => set_scrollViewRef (Some (mkScrollView 0)) s
      end
  | _ => set_scrollViewRef None (set_cameraRef None s)
  end.

(** *** Events *)

Inductive Event :=
| FocusGained
| FocusLost
| PermissionsAnswered (camera microphone mediaLibrary : bool)
| SelectedScriptRead (script : option Script.t)
| CameraReady
| PressRecord
| RecordSettled (r : Settled (option Video))
| SaveSettled (r : Settled unit)
| PressStop
| StopSettled (r : Settled unit)
| PressPlay
| PressPause
| PressReset
| PressSpeedDown
| PressSpeedUp
| PressFontDown
| PressFontUp
| Elapse (ms : nat).

Definition react (e : Event) (s : State) : State :=
  match e with
  | FocusGained => onFocus s
  | FocusLost => onBlur s
  | PermissionsAnswered c m l => requestPermissions_done c m l s
  | SelectedScriptRead sc => loadSelectedScript_done sc s
  | CameraReady => onCameraReady s
  | PressRecord => fst (startRecording s)
  | RecordSettled r => fst (startRecording_recorded r s)
  | SaveSettled r => fst (startRecording_saved r s)
  | PressStop => fst (stopRecording s)
  | StopSettled r => stopRecording_stopped r s
  | PressPlay => startAutoScroll s
  | PressPause => stopAutoScroll s
  | PressReset => resetScroll s
  | PressSpeedDown => decreaseSpeed s
  | PressSpeedUp => increaseSpeed s
  | PressFontDown => decreaseFont s
  | PressFontUp => increaseFont s
  | Elapse ms => advance ms s
  end.

(** An event is handled, then the component renders again. *)
Definition handle_event (e : Event) (s : State) : State :=
  commit (react e s).

Fixpoint run (es : list Event) (s : State) : State :=
  match es with
  | [] => s
  | e :: rest => run rest (handle_event e s)
  end.

(** The offset of the script on screen, when the script is on screen. *)
Definition scrollOffset (s : State) : option Z :=
  option_map y (scrollViewRef s).

(** *** Notions used to state the properties *)

(** The cells that a timer callback can write, overwritten together. *)
Definition display (sv : option ScrollView) (d : Z) (st : RecordingStatus)
    (s : State) : State :=
  set_scrollViewRef sv (set_recordingDuration d (set_recordingStatus st s)).

(** All that the passing of time can change. *)
Definition timed (ts : list Timer) (clock : Z) (sv : option ScrollView)
    (d : Z) (st : RecordingStatus) (s : State) : State :=
  set_timers ts (set_now clock (display sv d st s)).

Definition isScrollTick (cb : Callback) : bool :=
  match cb with ScrollTick _ _ => true | _ => false end.

Definition isResetStatus (cb : Callback) : bool :=
  match cb with ResetStatus => true | _ => false end.

(** The scroll ticks of a timer table. *)
Definition scrollTimers (ts : list Timer) : list Timer :=
  filter (fun t => isScrollTick (callback t)) ts.

(** The cool-down timers of a timer table. *)
Definition resetTimers (ts : list Timer) : list Timer :=
  filter (fun t => isResetStatus (callback t)) ts.

(** The timer of the scroll tick is the one that [scrollIntervalRef]
    holds: no scroll tick runs out of reach of [stopAutoScroll]. *)
Definition ownsScrollTimers (s : State) : bool :=
  forallb
    (fun t =>
       negb (isScrollTick (callback t))
       || match scrollIntervalRef s with
          | Some h => (handle t =? h)%N
          | None => false
          end)
    (timers s).

(** Well-formed states: the scroll ticks are owned, and a scroll interval
    is held only while [isScrolling] is set. *)
Definition wf (s : State) : bool :=
  ownsScrollTimers s
  && (isScrolling s || negb (attached (scrollIntervalRef s))).

(** The script is on screen. *)
Definition mounted (s : State) : bool :=
  match render s with
  | MainView => attached (scrollViewRef s)
  | _ => false
  end.

Definition settingsInBounds (s : State) : Prop :=
  (1 <= scrollSpeed s <= 10) /\ (16 <= fontSize s <= 36).

(** The presses of the four setting buttons, and the passing of time. *)
Definition isSettingOrElapse (e : Event) : bool :=
  match e with
  | PressSpeedDown | PressSpeedUp | PressFontDown | PressFontUp
  | Elapse _ => true
  | _ => false
  end.

Definition isCameraReady (e : Event) : bool :=
  match e with CameraReady => true | _ => false end.

(** The milliseconds that pass during a sequence of events. *)
Fixpoint elapsed (es : list Event) : Z :=
  match es with
  | [] => 0
  | Elapse ms :: rest => Z.of_nat ms + elapsed rest
  | _ :: rest => elapsed rest
  end.

(** A running scroll interval, [T] milliseconds after [startAutoScroll]
    captured the speed [v] while the offset on screen was [y0]: its timer
    is the only scroll tick, the closure's [scrollPosition] holds [v] times
    the number of ticks so far, and the script on screen stands at that
    offset once a tick has fired. *)
Definition ScrollRun (v : Z) (y0 : option Z) (T : Z) (s : State) : Prop :=
  (exists h,
      scrollTimers (timers s)
      = [mkTimer h (now s + (50 - T mod 50)) (Some 50)
           (ScrollTick (T / 50 * v) v)])
  /\ attached (scrollViewRef s) = true
  /\ scrollOffset s = if T <? 50 then y0 else Some (T / 50 * v).

(** The two outcomes of a recording. *)
Definition isTerminal (st : RecordingStatus) : bool :=
  match st with saved | error => true | _ => false end.

(** [s'] comes from [s] by a step that ends a recording: the elapsed time
    is cleared, [isRecording] is false, and a timeout of 2000 ms that
    resets the status was added to timers that were there before. *)
Definition ArmsCoolDown (s s' : State) : Prop :=
  exists ts h,
    timers s' = ts ++ [mkTimer h (now s + 2000) None ResetStatus]
    /\ incl ts (timers s)
    /\ now s' = now s
    /\ recordingDuration s' = 0
    /\ isRecording s' = false.

(** *** The recording timer *)

Definition isRecordingTick (cb : Callback) : bool :=
  match cb with RecordingTick => true | _ => false end.

(** The recording ticks of a timer table. *)
Definition recordingTimers (ts : list Timer) : list Timer :=
  filter (fun t => isRecordingTick (callback t)) ts.

(** Every recording tick of the table is the one that [recordingTimerRef]
    holds: none runs out of reach of [stopRecordingTimer]. *)
Definition ownsRecordingTimers (s : State) : bool :=
  forallb
    (fun t =>
       negb (isRecordingTick (callback t))
       || match recordingTimerRef s with
          | Some h => (handle t =? h)%N
          | None => false
          end)
    (timers s).

(** The recording ticks of [s'] come from recording ticks of [s] with the
    same handles. *)
Definition ticksFrom (s s' : State) : Prop :=
  forall t', In t' (timers s') -> isRecordingTick (callback t') = true ->
             exists t, In t (timers s) /\ handle t = handle t'
                       /\ isRecordingTick (callback t) = true.

(** The guards of [startRecording] all pass. *)
Definition canRecord (s : State) : bool :=
  attached (cameraRef s)
  && granted (hasCameraPermission s)
  && granted (hasAudioPermission s)
  && granted (hasMediaLibraryPermission s)
  && cameraReady s.

(** The events whose handler assigns ['saved'] or ['error'] to the status:
    the rejection of [recordAsync], a recording without a file, the answer
    of the store, and the rejection of the camera's [stopRecording]. *)
Definition assignsOutcome (e : Event) : bool :=
  match e with
  | RecordSettled (Rejected _) => true
  | RecordSettled (Resolved None) => true
  | RecordSettled (Resolved (Some v)) => negb (JS.truthy (uri v))
  | SaveSettled _ => true
  | StopSettled (Rejected _) => true
  | _ => false
  end.

(** The events that leave a recording in progress alone: the presses of the
    scroll, setting and stop buttons, the answers that do not end the
    recording, and the passing of time. *)
Definition isBystander (e : Event) : bool :=
  match e with
  | FocusGained | FocusLost | PressRecord | RecordSettled _ | SaveSettled _
  | StopSettled (Rejected _) => false
  | _ => true
  end.

(** *** The handle discipline *)

(** The discipline that the handlers keep on the timer table: handles are
    fresh and distinct, the handle in [scrollIntervalRef] is that of a
    running scroll tick of 50 ms, the handle in [recordingTimerRef] is not
    that of any other kind of timer, scroll ticks are owned, and
    [isScrolling] is set exactly while a scroll interval is held. *)
Definition Disciplined (s : State) : Prop :=
  (forall t, In t (timers s) -> (handle t < nextHandle s)%N)
  /\ NoDup (map handle (timers s))
  /\ (forall h, scrollIntervalRef s = Some h ->
                exists due p v,
                  In (mkTimer h due (Some 50) (ScrollTick p v)) (timers s))
  /\ (forall h, recordingTimerRef s = Some h ->
                (h < nextHandle s)%N
                /\ forall t, In t (timers s) -> handle t = h ->
                             callback t = RecordingTick)
  /\ wf s = true
  /\ isScrolling s = attached (scrollIntervalRef s).

Definition isElapse (e : Event) : bool :=
  match e with Elapse _ => true | _ => false end.

(** The number of times the screen gains focus in a sequence of events. *)
Fixpoint focusGains (es : list Event) : Z :=
  match es with
  | [] => 0
  | FocusGained :: rest => 1 + focusGains rest
  | _ :: rest => focusGains rest
  end.

(** A recording tick of 100 ms is in the table, due within the next 100 ms,
    and the elapsed time is between the time of its last firing and the
    time that has passed since [start]. *)
Definition Sampling (start : Z) (s : State) : Prop :=
  recordingStartTime s = start
  /\ exists h due,
       In (mkTimer h due (Some 100) RecordingTick) (timers s)
       /\ now s < due <= now s + 100
       /\ due - 100 - start <= recordingDuration s <= now s - start.

(** The scroll ticks of the table start from a position that is not
    negative and add a speed within the bounds, and the script on screen is
    not above its top. *)
Definition ScrollSane (s : State) : Prop :=
  (forall t p v, In t (timers s) -> callback t = ScrollTick p v ->
                 0 <= p /\ 1 <= v <= 10)
  /\ (forall sv, scrollViewRef s = Some sv -> 0 <= y sv).

End Teleprompter.

(* ================================================================== *)
(** ** Sample sessions *)

Module Examples.
Import Teleprompter.

Definition intro : Script.t :=
  Script.mk (JS.lit "1") (JS.lit "Intro") (JS.lit "Hello world")
    (JS.lit "2024-01-01T00:00:00.000Z") 2.

(** A script whose recorded word count is wrong. *)
Definition stale : Script.t :=
  Script.mk (JS.lit "17") (JS.lit "Draft") (JS.lit "one")
    (JS.lit "2024-02-02T00:00:00.000Z") 99.

(** The editor, with [stale] open and a new text typed in. *)
Definition editingStale : ScriptsScreen.State :=
  ScriptsScreen.setContent (JS.lit " Hello brave  new world ")
    (ScriptsScreen.editScript stale
       (ScriptsScreen.mkState [intro; stale] false None [] []
          (Some [intro; stale]) [])).

(** The teleprompter on screen: the screen was focused at mount, the
    permissions were granted, [intro] was read from the store, and the camera
    signalled ready. *)
Definition ready : State :=
  run [FocusGained; PermissionsAnswered true true true;
       SelectedScriptRead (Some intro); CameraReady]
    (initialState 0).

Definition cameraDenied : State := set_hasCameraPermission (Some false) ready.

Definition microphoneDenied : State :=
  set_hasAudioPermission (Some false) ready.

Definition clip : Video := mkVideo (JS.lit "file:///clip.mp4").

(** Recording while the script scrolls. *)
Definition recordingAndScrolling : State :=
  run [PressPlay; PressRecord; Elapse 120] ready.

(** A recording of a quarter of a second has just been handed over. *)
Definition enteringSaving : State :=
  run [PressRecord; Elapse 250; RecordSettled (Resolved (Some clip))] ready.

(** The script has scrolled for three ticks and was paused. *)
Definition paused : State := run [PressPlay; Elapse 150; PressPause] ready.


(** Two scripts created at the same reading of the clock. *)
Definition twinA : Script.t :=
  Script.mk (JS.lit "42") (JS.lit "A") (JS.lit "first")
    (JS.lit "2024-04-04T00:00:00.000Z") 1.

Definition twinB : Script.t :=
  Script.mk (JS.lit "42") (JS.lit "B") (JS.lit "second")
    (JS.lit "2024-04-04T00:00:00.000Z") 1.

Definition twins : ScriptsScreen.State :=
  ScriptsScreen.saveScript (JS.lit "2024-04-04T00:00:00.000Z") 42 true
    (ScriptsScreen.setContent (JS.lit "second")
       (ScriptsScreen.setTitle (JS.lit "B")
          (ScriptsScreen.createScript
             (ScriptsScreen.saveScript (JS.lit "2024-04-04T00:00:00.000Z")
                42 true
                (ScriptsScreen.setContent (JS.lit "first")
                   (ScriptsScreen.setTitle (JS.lit "A")
                      (ScriptsScreen.createScript
                         ScriptsScreen.initialState))))))).

(** The editor, with [twinB] open and a new title typed in. *)
Definition editingTwin : ScriptsScreen.State :=
  ScriptsScreen.setTitle (JS.lit "B2")
    (ScriptsScreen.editScript twinB twins).

(** A third recording started over the tick of the second: the user leaves
    and comes back while the first recording is being saved, records
    again, and records once more when the first save has answered; then
    the third recording is handed over.  Each record button is pressed
    while [isRecording] is false. *)
Definition overlapping : State :=
  run [PressRecord; Elapse 100; RecordSettled (Resolved (Some clip));
       FocusLost; FocusGained; CameraReady; PressRecord;
       SaveSettled (Resolved tt); PressRecord; Elapse 150;
       RecordSettled (Resolved (Some clip))]
    ready.

End Examples.

(* ================================================================== *)
(** ** The script editor with its writes in flight *)

(** [saveScripts] is [async] and no caller awaits it: the handler that
    called it returns at once, and [setScripts] runs when
    [AsyncStorage.setItem] settles, which can be after further presses.
    Here [saveScripts] is cut at its [await].  The state holds, beside the
    component, the arguments of the calls of [saveScripts] that have not
    settled and the delete alerts that are on screen.  The store takes the
    value of a write at the moment the write settles, and writes settle in
    any order. *)
Module ScriptsScreenAsync.

(** The "Delete" button of the alert that [deleteScript] raises: a closure
    over the id and over [scripts] as it was when the trash button was
    pressed. *)
Record DeleteConfirmation := mkConfirmation {
  scriptId : JS.jsstring;
  captured : list Script.t
}.

Record State := mkState {
  component : ScriptsScreen.State;
  writes : list (list Script.t);
  confirmations : list DeleteConfirmation
}.

(** The component at mount, over a store whose entry is [stored]. *)
Definition mount (stored : option (list Script.t)) : State :=
  mkState (ScriptsScreen.mount stored) [] [].

(** A state in which nothing is in flight. *)
Definition settled (s : ScriptsScreen.State) : State := mkState s [] [].

Definition remove_nth {A : Type} (i : nat) (l : list A) : list A :=
  firstn i l ++ skipn (S i) l.

(** [saveScripts], up to its [await]: the write is issued. *)
Definition saveScripts (updatedScripts : list Script.t) (a : State) : State :=
  mkState (component a) (writes a ++ [updatedScripts]) (confirmations a).

(** [saveScripts], resumed when the write at position [i] settles:
    [setItemOk] tells whether [AsyncStorage.setItem] succeeded. *)
Definition saveScripts_settled (i : nat) (setItemOk : bool) (a : State)
  : State :=
  match nth_error (writes a) i with
  | Some updatedScripts =>
      mkState
        (if setItemOk
         then ScriptsScreen.mkState updatedScripts
                (ScriptsScreen.modalVisible (component a))
                (ScriptsScreen.editingScript (component a))
                (ScriptsScreen.title (component a))
                (ScriptsScreen.content (component a))
                (Some updatedScripts)
                (ScriptsScreen.alerts (component a))
         else component a)
        (remove_nth i (writes a)) (confirmations a)
  | None => a
  end.

(** [saveScript]: the press of the Save button. *)
Definition saveScript (nowISO : JS.jsstring) (nowMs : N) (a : State) : State :=
  let s := component a in
  if negb (JS.truthy (JS.trim (ScriptsScreen.title s)))
     || negb (JS.truthy (JS.trim (ScriptsScreen.content s)))
  then mkState
         (ScriptsScreen.mkState (ScriptsScreen.scripts s)
            (ScriptsScreen.modalVisible s) (ScriptsScreen.editingScript s)
            (ScriptsScreen.title s) (ScriptsScreen.content s)
            (ScriptsScreen.teleprompter_scripts s)
            (ScriptsScreen.alerts s
             ++ [("Error", "Please enter both title and content")%string]))
         (writes a) (confirmations a)
  else
    let wordCount :=
      Z.of_nat
        (List.length (JS.split_ws (JS.trim (ScriptsScreen.content s)))) in
    let now := nowISO in
    let a' :=
      match ScriptsScreen.editingScript s with
      | Some editing =>
          let updatedScripts :=
            map (fun script =>
                   if JS.jsstring_eqb (Script.id script) (Script.id editing)
                   then ScriptsScreen.withEdits script (ScriptsScreen.title s)
                          (ScriptsScreen.content s) wordCount
                   else script)
                (ScriptsScreen.scripts s) in
          saveScripts updatedScripts a
      | None =>
          let newScript :=
            Script.mk (JS.toString nowMs) (ScriptsScreen.title s)
              (ScriptsScreen.content s) now wordCount in
          saveScripts (ScriptsScreen.scripts s ++ [newScript]) a
      end in
    mkState (ScriptsScreen.closeModal (component a')) (writes a')
      (confirmations a').

(** [deleteScript]: the press of the trash button raises the alert. *)
Definition deleteScript (scriptId : JS.jsstring) (a : State) : State :=
  mkState (component a) (writes a)
    (confirmations a
     ++ [mkConfirmation scriptId (ScriptsScreen.scripts (component a))]).

(** The "Delete" button of the alert at position [i] is pressed. *)
Definition deleteScript_confirmed (i : nat) (a : State) : State :=
  match nth_error (confirmations a) i with
  | Some c =>
      let updatedScripts :=
        filter (fun script =>
                  negb (JS.jsstring_eqb (Script.id script) (scriptId c)))
          (captured c) in
      saveScripts updatedScripts
        (mkState (component a) (writes a) (remove_nth i (confirmations a)))
  | None => a
  end.

(** The "Cancel" button of the alert at position [i] is pressed. *)
Definition deleteScript_cancelled (i : nat) (a : State) : State :=
  mkState (component a) (writes a) (remove_nth i (confirmations a)).

Inductive Event :=
| ScriptsRead (getItemOk : bool)
| PressAdd
| PressEdit (script : Script.t)
| TypeTitle (v : JS.jsstring)
| TypeContent (v : JS.jsstring)
| PressSave (nowISO : JS.jsstring) (nowMs : N)
| PressCancel
| PressTrash (scriptId : JS.jsstring)
| ConfirmDelete (i : nat)
| CancelDelete (i : nat)
| WriteSettled (i : nat) (setItemOk : bool).

Definition onComponent (f : ScriptsScreen.State -> ScriptsScreen.State)
    (a : State) : State :=
  mkState (f (component a)) (writes a) (confirmations a).

Definition react (e : Event) (a : State) : State :=
  match e with
  | ScriptsRead ok => onComponent (ScriptsScreen.loadScripts_done ok) a
  | PressAdd => onComponent ScriptsScreen.createScript a
  | PressEdit script => onComponent (ScriptsScreen.editScript script) a
  | TypeTitle v => onComponent (ScriptsScreen.setTitle v) a
  | TypeContent v => onComponent (ScriptsScreen.setContent v) a
  | PressSave nowISO nowMs => saveScript nowISO nowMs a
  | PressCancel => onComponent ScriptsScreen.cancel a
  | PressTrash scriptId => deleteScript scriptId a
  | ConfirmDelete i => deleteScript_confirmed i a
  | CancelDelete i => deleteScript_cancelled i a
  | WriteSettled i ok => saveScripts_settled i ok a
  end.

Fixpoint run (es : list Event) (a : State) : State :=
  match es with
  | [] => a
  | e :: rest => run rest (react e a)
  end.

(** The scripts on screen, in the store, in the writes in flight and in
    the lists that the delete alerts hold are all counted. *)
Definition allCounted (a : State) : Prop :=
  ScriptsScreen.allCounted (component a)
  /\ Forall (Forall ScriptsScreen.counted) (writes a)
  /\ Forall (fun c => Forall ScriptsScreen.counted (captured c))
       (confirmations a).

End ScriptsScreenAsync.

(* ================================================================== *)
(** ** The recordings browser, [RecordingsScreen] *)

Module RecordingsScreen.

(** A finite JavaScript number is a rational. *)
Definition number := QArith_base.Q.

(** [interface Recording] *)
Record Recording := mkRecording {
  id : JS.jsstring;
  uri : JS.jsstring;
  filename : JS.jsstring;
  creationTime : number;
  duration : number
}.

(** The state cells of the component that its handlers use, and the alerts
    shown. *)
Record State := mkState {
  recordings : list Recording;
  hasPermission : option bool;
  playingVideo : option JS.jsstring;
  alerts : list Alert
}.

Definition initialState : State := mkState [] None None [].

(** [requestPermissionAndLoadRecordings], once the permission request has
    answered; it goes on to [loadRecordings] when the permission is
    granted. *)
Definition requestPermission_done (granted : bool) (s : State) : State * bool :=
  (mkState (recordings s) (Some granted) (playingVideo s) (alerts s), granted).

(** [loadRecordings], once [MediaLibrary.getAssetsAsync] has settled: the
    assets it returned, each already holding the five fields that are kept,
    or [None] when it threw. *)
Definition loadRecordings_done (assets : option (list Recording)) (s : State)
  : State :=
  match assets with
  | Some media =>
      let videoRecordings :=
        map (fun asset =>
               mkRecording (id asset) (uri asset) (filename asset)
                 (creationTime asset) (duration asset))
            media in
      mkState videoRecordings (hasPermission s) (playingVideo s) (alerts s)
  | None => s
  end.

(** The "Delete" button of the alert that [deleteRecording] raises: a
    closure over the id and over [recordings] as it was when the trash
    button was pressed. *)
Record DeleteConfirmation := mkConfirmation {
  recordingId : JS.jsstring;
  captured : list Recording
}.

Definition deleteRecording (recordingId : JS.jsstring) (s : State)
  : DeleteConfirmation :=
  mkConfirmation recordingId (recordings s).

(** The confirmation is pressed and [MediaLibrary.deleteAssetsAsync] has
    settled; [deleted] tells that it resolved. *)
Definition deleteRecording_confirmed (c : DeleteConfirmation) (deleted : bool)
    (s : State) : State :=
  if deleted
  then mkState
         (filter (fun r => negb (JS.jsstring_eqb (id r) (recordingId c)))
            (captured c))
         (hasPermission s) (playingVideo s) (alerts s)
  else mkState (recordings s) (hasPermission s) (playingVideo s)
         (alerts s ++ [("Error", "Failed to delete recording")%string]).

Definition togglePlayback (recordingId : JS.jsstring) (s : State) : State :=
  match playingVideo s with
  | Some playing =>
      if JS.jsstring_eqb playing recordingId
      then mkState (recordings s) (hasPermission s) None (alerts s)
      else mkState (recordings s) (hasPermission s) (Some recordingId) (alerts s)
  | None => mkState (recordings s) (hasPermission s) (Some recordingId) (alerts s)
  end.

(** [onStop={() => setPlayingVideo(null)}], also run when a video ends. *)
Definition stopPlayback (s : State) : State :=
  mkState (recordings s) (hasPermission s) None (alerts s).

(** [isPlaying={playingVideo === item.id}] *)
Definition isPlaying (item : Recording) (s : State) : bool :=
  match playingVideo s with
  | Some playing => JS.jsstring_eqb playing (id item)
  | None => false
  end.

End RecordingsScreen.

(* ================================================================== *)
(** ** The earlier teleprompter screen *)

(** The first of the two [TeleprompterScreen] components has no
    [cameraReady], [recordingStatus], [recordingDuration] or [cameraKey]; its
    scroll handlers and setting buttons are those of the later one.  Its
    [startRecording] differs, and is embedded here on the cells that the two
    share. *)
Module TeleprompterV1.

Import Teleprompter.

(** What the handler waits for.  The continuation after [recordAsync] reads
    [hasMediaLibraryPermission] as it was when the handler was called. *)
Inductive Await :=
| Done
| AwaitRecordAsync (maxDuration : Z) (hasMediaLibraryPermission : option bool)
| AwaitSaveToLibrary (uri : JS.jsstring).

(** The [finally] block. *)
Definition startRecording_finally (s : State) : State :=
  set_isRecording false s.

(** [startRecording], up to its first [await]. *)
Definition startRecording (s : State) : State * Await :=
  if negb (attached (cameraRef s))
  then (s, Done)
  else (set_isRecording true s,
        AwaitRecordAsync 600 (hasMediaLibraryPermission s)).

(** The [catch] block followed by the [finally] block. *)
Definition startRecording_catch (s : State) : State :=
  startRecording_finally (alert "Error" "Failed to record video" s).

(** [startRecording], resumed when [recordAsync] settles. *)
Definition startRecording_recorded (hasMediaLibraryPermission : option bool)
    (r : Settled (option Video)) (s : State) : State * Await :=
  match r with
  | Rejected _ => (startRecording_catch s, Done)
  | Resolved video =>
      match video with
      | Some v =>
          if granted hasMediaLibraryPermission
          then (s, AwaitSaveToLibrary (uri v))
          else (startRecording_finally s, Done)
      | None => (startRecording_finally s, Done)
      end
  end.

(** [startRecording], resumed when the save settles. *)
Definition startRecording_saved (r : Settled unit) (s : State) : State :=
  match r with
  | Resolved _ =>
      startRecording_finally (alert "Success" "Video saved to gallery!" s)
  | Rejected _ => startRecording_catch s
  end.

(** A run of the handler to its end: what [recordAsync] and, when it is
    reached, the save answer. *)
Definition startRecording_run (recorded : Settled (option Video))
    (stored : Settled unit) (s : State) : State :=
  match startRecording s with
  | (s1, AwaitRecordAsync _ permission) =>
      match startRecording_recorded permission recorded s1 with
      | (s2, AwaitSaveToLibrary _) => startRecording_saved stored s2
      | (s2, _) => s2
      end
  | (s1, _) => s1
  end.

End TeleprompterV1.

(* ================================================================== *)
(** ** Further sample sessions *)

Module Samples.

(** A first take from a fresh mount: the recording of a quarter of a second
    is saved, which arms the cool-down. *)
Definition takeOne : list Teleprompter.Event :=
  [Teleprompter.FocusGained;
   Teleprompter.PermissionsAnswered true true true;
   Teleprompter.SelectedScriptRead (Some Examples.intro);
   Teleprompter.CameraReady;
   Teleprompter.PressRecord;
   Teleprompter.Elapse 250;
   Teleprompter.RecordSettled (Teleprompter.Resolved (Some Examples.clip));
   Teleprompter.SaveSettled (Teleprompter.Resolved tt)].

(** The cool-down that [takeOne] arms. *)
Definition coolDown : Teleprompter.Timer :=
  Teleprompter.mkTimer 2 2250 None Teleprompter.ResetStatus.

(** The user leaves and comes back, and records again at once. *)
Definition takeTwo : list Teleprompter.Event :=
  [Teleprompter.FocusLost; Teleprompter.FocusGained;
   Teleprompter.CameraReady; Teleprompter.PressRecord].

(** The script scrolls for three ticks from a fresh mount. *)
Definition scrolling : list Teleprompter.Event :=
  [Teleprompter.FocusGained;
   Teleprompter.PermissionsAnswered true true true;
   Teleprompter.SelectedScriptRead (Some Examples.intro);
   Teleprompter.CameraReady;
   Teleprompter.PressPlay;
   Teleprompter.Elapse 150].

(** What the camera of a simulator rejects with. *)
Definition simulatorError : Teleprompter.Thrown :=
  Teleprompter.ErrorObject
    "Recording was stopped before any data could be produced.".

(** The list of the scripts screen, with the editor closed. *)
Definition listed : ScriptsScreen.State :=
  ScriptsScreen.mkState [Examples.intro; Examples.stale] false None [] []
    (Some [Examples.intro; Examples.stale]) [].

(** A new script is typed in. *)
Definition typing : ScriptsScreen.State :=
  ScriptsScreen.setContent (JS.lit "Good evening")
    (ScriptsScreen.setTitle (JS.lit "Outro")
       (ScriptsScreen.createScript listed)).

(** A title of two spaces over a content. *)
Definition untitled : ScriptsScreen.State :=
  ScriptsScreen.setContent (JS.lit "Good evening")
    (ScriptsScreen.setTitle (JS.lit "  ")
       (ScriptsScreen.createScript listed)).

(** A session of the scripts screen over a store holding
    [Examples.intro]: a script is created, and the trash button of the
    first script is pressed and confirmed before the write of the creation
    settles. *)
Definition creating : list ScriptsScreenAsync.Event :=
  [ScriptsScreenAsync.ScriptsRead true;
   ScriptsScreenAsync.PressAdd;
   ScriptsScreenAsync.TypeTitle (JS.lit "Outro");
   ScriptsScreenAsync.TypeContent (JS.lit " Good  evening to all ");
   ScriptsScreenAsync.PressSave (JS.lit "2024-03-03T00:00:00.000Z")
     1709424000000;
   ScriptsScreenAsync.PressTrash (JS.lit "1");
   ScriptsScreenAsync.ConfirmDelete 0;
   ScriptsScreenAsync.WriteSettled 0 true].

(** A press during a write in flight: a script is created, and before the
    write settles [Examples.intro] is opened and saved as it is. *)
Definition overtaking : list ScriptsScreenAsync.Event :=
  [ScriptsScreenAsync.ScriptsRead true;
   ScriptsScreenAsync.PressAdd;
   ScriptsScreenAsync.TypeTitle (JS.lit "Outro");
   ScriptsScreenAsync.TypeContent (JS.lit "Good evening");
   ScriptsScreenAsync.PressSave (JS.lit "2024-03-03T00:00:00.000Z")
     1709424000000;
   ScriptsScreenAsync.PressEdit Examples.intro;
   ScriptsScreenAsync.PressSave (JS.lit "2024-03-03T00:00:01.000Z")
     1709424001000].

Definition outro : Script.t :=
  Script.mk (JS.lit "1709424000000") (JS.lit "Outro")
    (JS.lit " Good  evening to all ") (JS.lit "2024-03-03T00:00:00.000Z") 4.

Definition firstTake : RecordingsScreen.Recording :=
  RecordingsScreen.mkRecording (JS.lit "A1") (JS.lit "file:///a1.mp4")
    (JS.lit "a1.mp4") (QArith_base.Qmake 1709424000000 1)
    (QArith_base.Qmake 25 2).

Definition secondTake : RecordingsScreen.Recording :=
  RecordingsScreen.mkRecording (JS.lit "B2") (JS.lit "file:///b2.mp4")
    (JS.lit "b2.mp4") (QArith_base.Qmake 1709425000000 1)
    (QArith_base.Qmake 7 1).

(** Two recordings are listed and the first one plays. *)
Definition browsing : RecordingsScreen.State :=
  RecordingsScreen.mkState [firstTake; secondTake] (Some true)
    (Some (JS.lit "A1")) [].

End Samples.

(* ================================================================== *)
(** * Properties *)

(** ** Strings *)

Section StringFacts.
Import JS.

Lemma jsstring_eqb_eq (a b : jsstring) : jsstring_eqb a b = true <-> a = b.
Proof.
  unfold jsstring_eqb. destruct (list_eq_dec N.eq_dec a b); split; congruence.
Qed.

(** Every string is its end-trimmed part followed by white space only. *)
Lemma trimStart_split (s : jsstring) :
  exists ws, s = ws ++ trimStart s /\ Forall (fun c => isWhiteSpace c = true) ws.
Proof.
  induction s as [|c rest IH]; simpl.
  - exists []. split; [reflexivity | constructor].
  - destruct (isWhiteSpace c) eqn:Hc.
    + destruct IH as [ws [Heq Hws]]. exists (c :: ws). split.
      * simpl. congruence.
      * constructor; assumption.
    + exists []. split; [reflexivity | constructor].
Qed.

Lemma trimStart_head (s : jsstring) (c : N) (rest : jsstring) :
  trimStart s = c :: rest -> isWhiteSpace c = false.
Proof.
  induction s as [|d s' IH]; simpl; [discriminate|].
  destruct (isWhiteSpace d) eqn:Hd; [exact IH|].
  intros H. injection H as <- _. exact Hd.
Qed.

Lemma trimEnd_split (s : jsstring) :
  exists ws, s = trimEnd s ++ ws /\ Forall (fun c => isWhiteSpace c = true) ws.
Proof.
  unfold trimEnd. destruct (trimStart_split (rev s)) as [ws [Heq Hws]].
  exists (rev ws). split.
  - rewrite <- rev_app_distr, <- Heq, rev_involutive. reflexivity.
  - apply Forall_rev. exact Hws.
Qed.

Lemma trimEnd_last (s init : jsstring) (c : N) :
  trimEnd s = init ++ [c] -> isWhiteSpace c = false.
Proof.
  unfold trimEnd. intros H.
  apply (f_equal (@rev N)) in H.
  rewrite rev_involutive, rev_app_distr in H. simpl in H.
  exact (trimStart_head _ _ _ H).
Qed.

Lemma count_words_trimStart (s : jsstring) :
  count_words_from true (trimStart s) = count_words_from true s.
Proof.
  induction s as [|c rest IH]; simpl; [reflexivity|].
  destruct (isWhiteSpace c) eqn:Hc; [exact IH|].
  simpl. rewrite Hc. reflexivity.
Qed.

Lemma count_words_from_trailing (b : bool) (s ws : jsstring) :
  Forall (fun c => isWhiteSpace c = true) ws ->
  count_words_from b (s ++ ws) = count_words_from b s.
Proof.
  intros Hws. revert b. induction s as [|c rest IH]; intros b; simpl.
  - induction Hws as [|d ws Hd Hws IHws]; simpl; [reflexivity|].
    rewrite Hd.
    clear IHws. induction Hws as [|e ws He Hws IHws]; simpl; [reflexivity|].
    rewrite He. exact IHws.
  - destruct (isWhiteSpace c); rewrite IH; reflexivity.
Qed.

Lemma count_words_trim (s : jsstring) :
  count_words (trim s) = count_words s.
Proof.
  unfold count_words, trim.
  destruct (trimEnd_split (trimStart s)) as [ws [Heq Hws]].
  rewrite <- (count_words_trimStart s).
  rewrite Heq at 2.
  rewrite count_words_from_trailing by exact Hws. reflexivity.
Qed.

(** On a text that ends with a word, the pieces of the split are its words,
    plus the piece under construction when the scan is inside a word. *)
Lemma split_from_count (init : jsstring) (c : N) :
  isWhiteSpace c = false ->
  forall piece,
    List.length (split_from piece false (init ++ [c]))
    = count_words_from false (init ++ [c]) + 1
    /\ List.length (split_from piece true (init ++ [c]))
       = count_words_from true (init ++ [c]).
Proof.
  intros Hc. induction init as [|d init IH]; intros piece; simpl.
  - rewrite Hc. simpl. split; reflexivity.
  - destruct (isWhiteSpace d) eqn:Hd; simpl.
    + destruct (IH piece) as [_ Ht]. destruct (IH []) as [_ Ht0].
      split; [rewrite Ht0; lia | exact Ht].
    + destruct (IH (d :: piece)) as [Hf _]. split; lia.
Qed.

(** The split of a trimmed, non-empty text has one piece per word. *)
Lemma split_trim_count_words (s : jsstring) :
  truthy (trim s) = true ->
  List.length (split_ws (trim s)) = count_words s.
Proof.
  intros Hne. rewrite <- (count_words_trim s).
  destruct (trim s) as [|c0 rest0] eqn:Ht; [discriminate|].
  assert (Hhead : isWhiteSpace c0 = false).
  { unfold trim in Ht.
    destruct (trimEnd_split (trimStart s)) as [ws [Heq _]].
    rewrite Ht in Heq. simpl in Heq.
    exact (trimStart_head _ _ _ Heq). }
  destruct (exists_last (l := c0 :: rest0)) as [init [c Hlast]]; [discriminate|].
  assert (Hc : isWhiteSpace c = false).
  { apply (trimEnd_last (trimStart s) init). unfold trim in Ht.
    rewrite Ht. exact Hlast. }
  unfold split_ws, count_words.
  destruct (split_from_count init c Hc []) as [Hf _].
  rewrite Hlast, Hf, <- Hlast. simpl. rewrite Hhead. lia.
Qed.

(** The split on three small texts: words apart, blanks around, nothing. *)
Example split_ws_samples :
  split_ws (lit "Hello   world") = [lit "Hello"; lit "world"]
  /\ split_ws (lit " a ") = [[]; lit "a"; []]
  /\ split_ws [] = [[]]
  /\ trim (lit "  Hello   world  ") = lit "Hello   world".
Proof. vm_compute. repeat split. Qed.

End StringFacts.

(** ** The script editor *)

Section ScriptsScreenFacts.
Import ScriptsScreen.

(** What [saveScript] leaves in [scripts] once its guard is passed and the
    store has accepted the write. *)
Lemma saveScript_scripts (nowISO : JS.jsstring) (nowMs : N) (s : State) :
  JS.truthy (JS.trim (title s)) = true ->
  JS.truthy (JS.trim (content s)) = true ->
  let wc := Z.of_nat (List.length (JS.split_ws (JS.trim (content s)))) in
  scripts (saveScript nowISO nowMs true s)
  = match editingScript s with
    | Some editing =>
        map (fun script =>
               if JS.jsstring_eqb (Script.id script) (Script.id editing)
               then withEdits script (title s) (content s) wc
               else script)
            (scripts s)
    | None =>
        scripts s
        ++ [Script.mk (JS.toString nowMs) (title s) (content s) nowISO wc]
    end.
Proof.
  intros Ht Hc. unfold saveScript. rewrite Ht, Hc. simpl.
  destruct (editingScript s); reflexivity.
Qed.

(** The persistent entry and the list on screen agree after a save that
    the store accepted. *)
Lemma saveScript_stored (nowISO : JS.jsstring) (nowMs : N) (s : State) :
  JS.truthy (JS.trim (title s)) = true ->
  JS.truthy (JS.trim (content s)) = true ->
  teleprompter_scripts (saveScript nowISO nowMs true s)
  = Some (scripts (saveScript nowISO nowMs true s)).
Proof.
  intros Ht Hc. unfold saveScript. rewrite Ht, Hc. simpl.
  destruct (editingScript s); reflexivity.
Qed.

(** Whatever the guard and the store decide, an edit maps the list
    position by position. *)
Lemma saveScript_edit_pointwise (nowISO : JS.jsstring) (nowMs : N)
    (setItemOk : bool) (s : State) (editing : Script.t) :
  editingScript s = Some editing ->
  exists f : Script.t -> Script.t,
    scripts (saveScript nowISO nowMs setItemOk s) = map f (scripts s)
    /\ forall script,
         Script.id (f script) = Script.id script
         /\ Script.createdAt (f script) = Script.createdAt script
         /\ (Script.id script <> Script.id editing -> f script = script).
Proof.
  intros He. unfold saveScript. rewrite He.
  destruct (negb (JS.truthy (JS.trim (title s)))
            || negb (JS.truthy (JS.trim (content s)))) eqn:Hg.
  - exists (fun script => script). simpl. rewrite map_id.
    split; [reflexivity | intros; split; [| split]; reflexivity].
  - destruct setItemOk; simpl.
    + eexists. split; [reflexivity|]. intros script. cbv beta.
      destruct (JS.jsstring_eqb (Script.id script) (Script.id editing)) eqn:E.
      * split; [reflexivity | split; [reflexivity |]].
        intros Hne. apply jsstring_eqb_eq in E. contradiction.
      * split; [reflexivity | split; reflexivity].
    + exists (fun script => script). rewrite map_id.
      split; [reflexivity | intros; split; [| split]; reflexivity].
Qed.

End ScriptsScreenFacts.

(** C8.  A save whose guard passes (title and content not blank) and that
    the store accepts records, for the script it creates and for every
    script it edits, the content of the form and a word count computed from
    that content: the number of pieces of the trimmed content split at runs
    of white space, which is the number of words of the content.  The count
    held before by the edited script or by [editingScript] plays no part. *)
Theorem C8_wordCount_recomputed_at_save :
  forall (nowISO : JS.jsstring) (nowMs : N) (s : ScriptsScreen.State),
    JS.truthy (JS.trim (ScriptsScreen.title s)) = true ->
    JS.truthy (JS.trim (ScriptsScreen.content s)) = true ->
    let s' := ScriptsScreen.saveScript nowISO nowMs true s in
    let pieces := JS.split_ws (JS.trim (ScriptsScreen.content s)) in
    Z.of_nat (List.length pieces)
    = Z.of_nat (JS.count_words (ScriptsScreen.content s))
    /\ ScriptsScreen.teleprompter_scripts s' = Some (ScriptsScreen.scripts s')
    /\ match ScriptsScreen.editingScript s with
       | None =>
           exists created,
             ScriptsScreen.scripts s' = ScriptsScreen.scripts s ++ [created]
             /\ Script.content created = ScriptsScreen.content s
             /\ Script.wordCount created = Z.of_nat (List.length pieces)
       | Some editing =>
           forall i old,
             nth_error (ScriptsScreen.scripts s) i = Some old ->
             Script.id old = Script.id editing ->
             exists new,
               nth_error (ScriptsScreen.scripts s') i = Some new
               /\ Script.content new = ScriptsScreen.content s
               /\ Script.wordCount new = Z.of_nat (List.length pieces)
       end.
Proof.
  intros nowISO nowMs s Ht Hc s' pieces. subst s' pieces.
  split; [| split].
  - f_equal. apply split_trim_count_words. exact Hc.
  - apply saveScript_stored; assumption.
  - rewrite (saveScript_scripts nowISO nowMs s Ht Hc).
    destruct (ScriptsScreen.editingScript s) as [editing|].
    + intros i old Hi Hid.
      eexists. split.
      * rewrite nth_error_map, Hi. simpl. reflexivity.
      * assert (E : JS.jsstring_eqb (Script.id old) (Script.id editing) = true)
          by (apply jsstring_eqb_eq; exact Hid).
        rewrite E. split; reflexivity.
    + eexists. split; [reflexivity|]. split; reflexivity.
Qed.

(** C10 (as the code has it).  When an existing script is being edited, [saveScript] keeps the
    length and the order of the list: at every position the script keeps
    its [id] and its [createdAt], and a script whose [id] differs from the
    one of the edited script is left as it was; when the ids of the list
    are distinct, that is every position but the one of the edited script.
    This holds whether or not the guard passes and whether or not the store
    accepts the write. *)
Theorem C10_edit_preserves_identity_and_others :
  forall (nowISO : JS.jsstring) (nowMs : N) (setItemOk : bool)
         (s : ScriptsScreen.State) (editing : Script.t),
    ScriptsScreen.editingScript s = Some editing ->
    let s' := ScriptsScreen.saveScript nowISO nowMs setItemOk s in
    List.length (ScriptsScreen.scripts s') = List.length (ScriptsScreen.scripts s)
    /\ map Script.id (ScriptsScreen.scripts s')
       = map Script.id (ScriptsScreen.scripts s)
    /\ map Script.createdAt (ScriptsScreen.scripts s')
       = map Script.createdAt (ScriptsScreen.scripts s)
    /\ (forall i old,
           nth_error (ScriptsScreen.scripts s) i = Some old ->
           exists new,
             nth_error (ScriptsScreen.scripts s') i = Some new
             /\ Script.id new = Script.id old
             /\ Script.createdAt new = Script.createdAt old
             /\ (Script.id old <> Script.id editing -> new = old))
    /\ (NoDup (map Script.id (ScriptsScreen.scripts s)) ->
        forall i j edited other,
          nth_error (ScriptsScreen.scripts s) i = Some edited ->
          Script.id edited = Script.id editing ->
          j <> i ->
          nth_error (ScriptsScreen.scripts s) j = Some other ->
          nth_error (ScriptsScreen.scripts s') j = Some other).
Proof.
  intros nowISO nowMs ok s editing He s'. subst s'.
  destruct (saveScript_edit_pointwise nowISO nowMs ok s editing He)
    as [f [Hmap Hf]].
  rewrite Hmap.
  split; [apply length_map|].
  split; [rewrite map_map; apply map_ext; intros a; apply (Hf a)|].
  split; [rewrite map_map; apply map_ext; intros a; apply (Hf a)|].
  split.
  - intros i old Hi. exists (f old). rewrite nth_error_map, Hi.
    split; [reflexivity|]. apply (Hf old).
  - intros Hnd i j edited other Hi Hid Hji Hj.
    rewrite nth_error_map, Hj. simpl. f_equal.
    apply (Hf other). intros Heq. apply Hji.
    assert (Hlt : (j < List.length (map Script.id (ScriptsScreen.scripts s)))%nat).
    { apply nth_error_Some. rewrite nth_error_map, Hj. discriminate. }
    apply (proj1 (NoDup_nth_error _) Hnd j i Hlt).
    rewrite !nth_error_map, Hi, Hj. simpl. congruence.
Qed.

(** ** The teleprompter: timers and frames *)

Section TeleprompterFrames.
Import Teleprompter.
Local Open Scope Z_scope.

Lemma state_eta (s : State) :
  s = mkState (selectedScript s) (isRecording s) (hasCameraPermission s)
        (hasAudioPermission s) (hasMediaLibraryPermission s) (scrollSpeed s)
        (fontSize s) (isScrolling s) (cameraReady s) (recordingStatus s)
        (recordingDuration s) (cameraKey s) (cameraRef s) (scrollViewRef s)
        (scrollIntervalRef s) (recordingTimerRef s) (recordingStartTime s)
        (now s) (timers s) (nextHandle s) (alerts s).
Proof. destruct s; reflexivity. Qed.

(** A callback writes nothing but the three display cells. *)
Lemma runCallback_display (cb : Callback) (s : State) :
  runCallback cb s
  = display (scrollViewRef (runCallback cb s))
      (recordingDuration (runCallback cb s))
      (recordingStatus (runCallback cb s)) s.
Proof.
  destruct cb; unfold runCallback, scrollTo, display.
  - destruct (scrollViewRef s) eqn:E; simpl.
    + reflexivity.
    + rewrite E. rewrite (state_eta s) at 1. rewrite E. reflexivity.
  - reflexivity.
  - rewrite (state_eta s) at 1. reflexivity.
Qed.

Lemma display_runCallback sv d st cb s :
  display sv d st (runCallback cb s) = display sv d st s.
Proof. rewrite (runCallback_display cb s). reflexivity. Qed.

Lemma fireDue_display (clock : Z) (ts : list Timer) (s : State) :
  fireDue clock ts s
  = display (scrollViewRef (fireDue clock ts s))
      (recordingDuration (fireDue clock ts s))
      (recordingStatus (fireDue clock ts s)) s.
Proof.
  revert s. induction ts as [|t rest IH]; intros s; simpl.
  - rewrite (state_eta s) at 1. reflexivity.
  - rewrite IH at 1. destruct (isDue clock t).
    + apply display_runCallback.
    + reflexivity.
Qed.

Lemma step_ms_timed (s : State) :
  step_ms s
  = timed (reschedule (now s + 1) (timers s)) (now s + 1)
      (scrollViewRef (step_ms s)) (recordingDuration (step_ms s))
      (recordingStatus (step_ms s)) s.
Proof.
  unfold step_ms at 1. simpl.
  rewrite fireDue_display at 1. reflexivity.
Qed.

(** Time changes the clock, the timer table and the display cells only. *)
Lemma advance_timed (n : nat) (s : State) :
  advance n s
  = timed (timers (advance n s)) (now (advance n s))
      (scrollViewRef (advance n s)) (recordingDuration (advance n s))
      (recordingStatus (advance n s)) s.
Proof.
  revert s. induction n as [|n IH]; intros s; simpl.
  - rewrite (state_eta s) at 1. reflexivity.
  - rewrite IH at 1. rewrite (step_ms_timed s) at 6. reflexivity.
Qed.

Lemma advance_plus (n m : nat) (s : State) :
  advance (n + m) s = advance m (advance n s).
Proof.
  revert s. induction n as [|n IH]; intros s; simpl; [reflexivity | apply IH].
Qed.

Lemma advance_S_last (n : nat) (s : State) :
  advance (S n) s = step_ms (advance n s).
Proof.
  replace (S n) with (n + 1)%nat by lia. rewrite advance_plus. reflexivity.
Qed.

Lemma step_ms_now (s : State) : now (step_ms s) = now s + 1.
Proof. rewrite step_ms_timed. reflexivity. Qed.

Lemma step_ms_timers (s : State) :
  timers (step_ms s) = reschedule (now s + 1) (timers s).
Proof. rewrite step_ms_timed. reflexivity. Qed.

Lemma advance_now (n : nat) (s : State) :
  now (advance n s) = now s + Z.of_nat n.
Proof.
  revert s. induction n as [|n IH]; intros s.
  - simpl. lia.
  - change (advance (S n) s) with (advance n (step_ms s)).
    rewrite IH, step_ms_now. lia.
Qed.

(** *** What a step does to the recording status *)

Lemma fireDue_status (clock : Z) (ts : list Timer) (s : State) :
  recordingStatus (fireDue clock ts s)
  = if existsb (fun t => isDue clock t && isResetStatus (callback t)) ts
    then idle
    else recordingStatus s.
Proof.
  revert s. induction ts as [|t rest IH]; intros s; simpl; [reflexivity|].
  rewrite IH. destruct (isDue clock t); simpl.
  - destruct (callback t); simpl.
    + unfold scrollTo. destruct (scrollViewRef s); reflexivity.
    + reflexivity.
    + destruct (existsb _ rest); reflexivity.
  - reflexivity.
Qed.

Lemma step_ms_status (s : State) :
  recordingStatus (step_ms s)
  = if existsb (fun t => isDue (now s + 1) t && isResetStatus (callback t))
         (timers s)
    then idle
    else recordingStatus s.
Proof. unfold step_ms. simpl. rewrite fireDue_status. reflexivity. Qed.

(** A timer that is not due stays in the table as it is. *)
Lemma reschedule_keeps (clock : Z) (ts : list Timer) (t : Timer) :
  In t ts -> isDue clock t = false -> In t (reschedule clock ts).
Proof.
  intros Hin Hnd. induction ts as [|u rest IH]; simpl; [contradiction|].
  destruct Hin as [-> | Hin].
  - rewrite Hnd. left. reflexivity.
  - destruct (isDue clock u); [destruct (afterFiring u)|];
      simpl; auto.
Qed.

(** A timer of the table after a step was there before, not due, or is
    what a due timer became. *)
Lemma reschedule_origin (clock : Z) (ts : list Timer) (t' : Timer) :
  In t' (reschedule clock ts) ->
  (In t' ts /\ isDue clock t' = false)
  \/ exists t, In t ts /\ isDue clock t = true /\ afterFiring t = Some t'.
Proof.
  induction ts as [|u rest IH]; simpl; [contradiction|].
  destruct (isDue clock u) eqn:Hu.
  - destruct (afterFiring u) as [u'|] eqn:Ha.
    + intros [<- | Hin].
      * right. exists u. auto.
      * destruct (IH Hin) as [[H1 H2] | [t [H1 H2]]]; [left | right]; eauto.
    + intros Hin.
      destruct (IH Hin) as [[H1 H2] | [t [H1 H2]]]; [left | right]; eauto.
  - intros [<- | Hin].
    + left. auto.
    + destruct (IH Hin) as [[H1 H2] | [t [H1 H2]]]; [left | right]; eauto.
Qed.

Lemma afterFiring_callback (t t' : Timer) :
  afterFiring t = Some t' ->
  handle t' = handle t
  /\ isScrollTick (callback t') = isScrollTick (callback t)
  /\ isResetStatus (callback t') = isResetStatus (callback t).
Proof.
  unfold afterFiring. destruct (period t); [|discriminate].
  intros H. injection H as <-. simpl. destruct (callback t); auto.
Qed.

(** A cool-down timer fires when its time has come. *)
Lemma reset_fires (n : nat) (s : State) (t : Timer) :
  In t (timers s) ->
  callback t = ResetStatus ->
  due t = now s + Z.of_nat (S n) ->
  recordingStatus (advance (S n) s) = idle.
Proof.
  revert s. induction n as [|n IH]; intros s Hin Hcb Hdue.
  - change (advance 1 s) with (step_ms s). rewrite step_ms_status.
    assert (E : existsb
                  (fun t => isDue (now s + 1) t && isResetStatus (callback t))
                  (timers s) = true).
    { apply existsb_exists. exists t. split; [exact Hin|].
      unfold isDue. rewrite Hcb. simpl.
      rewrite andb_true_r. apply Z.leb_le. lia. }
    rewrite E. reflexivity.
  - change (advance (S (S n)) s) with (advance (S n) (step_ms s)).
    apply (IH (step_ms s)).
    + rewrite step_ms_timers. apply reschedule_keeps; [exact Hin|].
      unfold isDue. apply Z.leb_gt. lia.
    + exact Hcb.
    + rewrite step_ms_now. lia.
Qed.

(** While no cool-down timer is due, the status stands. *)
Lemma no_reset_due (n : nat) (s : State) :
  (forall t, In t (timers s) -> isResetStatus (callback t) = true ->
             now s + Z.of_nat n < due t) ->
  recordingStatus (advance n s) = recordingStatus s.
Proof.
  revert s. induction n as [|n IH]; intros s Hall; [reflexivity|].
  change (advance (S n) s) with (advance n (step_ms s)).
  assert (Hstep : recordingStatus (step_ms s) = recordingStatus s).
  { rewrite step_ms_status.
    destruct (existsb _ (timers s)) eqn:E; [|reflexivity].
    apply existsb_exists in E. destruct E as [t [Hin Ht]].
    apply andb_true_iff in Ht. destruct Ht as [Hd Hr].
    specialize (Hall t Hin Hr). unfold isDue in Hd.
    apply Z.leb_le in Hd. lia. }
  rewrite IH; [exact Hstep|].
  intros t' Hin' Hr'. rewrite step_ms_now.
  rewrite step_ms_timers in Hin'.
  destruct (reschedule_origin _ _ _ Hin') as [[Hin _] | [t [Hin [Hd Ha]]]].
  - specialize (Hall t' Hin Hr'). lia.
  - destruct (afterFiring_callback _ _ Ha) as [_ [_ Hk]].
    rewrite Hr' in Hk. symmetry in Hk.
    specialize (Hall t Hin Hk). unfold isDue in Hd.
    apply Z.leb_le in Hd. lia.
Qed.

End TeleprompterFrames.

(** ** The teleprompter: the scroll interval *)

Section TeleprompterScroll.
Import Teleprompter.
Local Open Scope Z_scope.

Lemma scrollTimers_reschedule (clock : Z) (ts : list Timer) :
  scrollTimers (reschedule clock ts) = reschedule clock (scrollTimers ts).
Proof.
  unfold scrollTimers. induction ts as [|t rest IH]; simpl; [reflexivity|].
  destruct (isDue clock t) eqn:Hd.
  - destruct (afterFiring t) as [t'|] eqn:Ha.
    + destruct (afterFiring_callback _ _ Ha) as [_ [Hk _]].
      simpl. rewrite Hk.
      destruct (isScrollTick (callback t)); simpl; [rewrite Hd, Ha|];
        rewrite IH; reflexivity.
    + destruct (isScrollTick (callback t)); simpl; [rewrite Hd, Ha|];
        exact IH.
  - simpl. destruct (isScrollTick (callback t)); simpl; [rewrite Hd|];
      rewrite IH; reflexivity.
Qed.

(** The offset after the due timers fired depends on the offset before
    and on the scroll ticks alone. *)
Lemma fireDue_scrollViewRef_ext (clock : Z) (ts : list Timer) (s1 s2 : State) :
  scrollViewRef s1 = scrollViewRef s2 ->
  scrollViewRef (fireDue clock ts s1) = scrollViewRef (fireDue clock ts s2).
Proof.
  revert s1 s2. induction ts as [|t rest IH]; intros s1 s2 H; simpl; [exact H|].
  apply IH. destruct (isDue clock t); [|exact H].
  destruct (callback t); simpl; try exact H.
  unfold scrollTo. rewrite H. destruct (scrollViewRef s2) eqn:E; simpl; congruence.
Qed.

Lemma fireDue_scrollTimers (clock : Z) (ts : list Timer) (s : State) :
  scrollViewRef (fireDue clock ts s)
  = scrollViewRef (fireDue clock (scrollTimers ts) s).
Proof.
  revert s. unfold scrollTimers.
  induction ts as [|t rest IH]; intros s; simpl; [reflexivity|].
  destruct (isScrollTick (callback t)) eqn:Hk; simpl.
  - apply IH.
  - rewrite <- IH. apply fireDue_scrollViewRef_ext.
    destruct (isDue clock t); [|reflexivity].
    destruct (callback t); simpl; try reflexivity. discriminate.
Qed.

Lemma step_ms_scrollViewRef (s : State) :
  scrollViewRef (step_ms s)
  = scrollViewRef (fireDue (now s + 1) (scrollTimers (timers s)) s).
Proof.
  unfold step_ms. simpl. rewrite fireDue_scrollTimers.
  apply fireDue_scrollViewRef_ext. reflexivity.
Qed.

Lemma step_ms_scrollTimers (s : State) :
  scrollTimers (timers (step_ms s))
  = reschedule (now s + 1) (scrollTimers (timers s)).
Proof. rewrite step_ms_timers. apply scrollTimers_reschedule. Qed.

(** Without a scroll tick in the table, time leaves the script where it
    is. *)
Lemma advance_without_scrollTimers (n : nat) (s : State) :
  scrollTimers (timers s) = [] ->
  scrollTimers (timers (advance n s)) = []
  /\ scrollViewRef (advance n s) = scrollViewRef s.
Proof.
  revert s. induction n as [|n IH]; intros s H; [split; [exact H | reflexivity]|].
  change (advance (S n) s) with (advance n (step_ms s)).
  assert (H1 : scrollTimers (timers (step_ms s)) = [])
    by (rewrite step_ms_scrollTimers, H; reflexivity).
  destruct (IH (step_ms s) H1) as [Ha Hb]. split; [exact Ha|].
  rewrite Hb, step_ms_scrollViewRef, H. reflexivity.
Qed.

Lemma scrollOffset_scrollTo (p : Z) (s : State) :
  attached (scrollViewRef s) = true ->
  scrollOffset (scrollTo p s) = Some p
  /\ attached (scrollViewRef (scrollTo p s)) = true.
Proof.
  unfold scrollTo, scrollOffset. destruct (scrollViewRef s); simpl; auto.
  discriminate.
Qed.

(** One millisecond with a single scroll tick in the table: the tick fires
    when it is due, and waits otherwise. *)
Lemma step_ms_single_scroll (s : State) (h : N) (dueT p v : Z) :
  scrollTimers (timers s) = [mkTimer h dueT (Some 50) (ScrollTick p v)] ->
  attached (scrollViewRef s) = true ->
  (dueT <= now s + 1 ->
   scrollTimers (timers (step_ms s))
   = [mkTimer h (dueT + 50) (Some 50) (ScrollTick (p + v) v)]
   /\ scrollViewRef (step_ms s) = Some (mkScrollView (p + v)))
  /\ (now s + 1 < dueT ->
      scrollTimers (timers (step_ms s))
      = [mkTimer h dueT (Some 50) (ScrollTick p v)]
      /\ scrollViewRef (step_ms s) = scrollViewRef s).
Proof.
  intros Hts Hatt.
  rewrite step_ms_scrollTimers, step_ms_scrollViewRef, Hts.
  unfold reschedule, fireDue, isDue, afterFiring, runCallback, scrollTo.
  cbn [due period callback handle].
  split; intros Hd.
  - apply Z.leb_le in Hd. rewrite Hd.
    destruct (scrollViewRef s); [|discriminate]. split; reflexivity.
  - apply Z.leb_gt in Hd. rewrite Hd. split; reflexivity.
Qed.

(** One millisecond of a running scroll interval. *)
Lemma ScrollRun_step (v : Z) (y0 : option Z) (T : Z) (s : State) :
  0 <= T ->
  ScrollRun v y0 T s -> ScrollRun v y0 (T + 1) (step_ms s).
Proof.
  intros HT [[h Hts] [Hatt Hoff]].
  assert (Hm : 0 <= T mod 50 < 50) by (apply Z.mod_pos_bound; lia).
  assert (HT50 : T = 50 * (T / 50) + T mod 50) by (apply Z.div_mod; lia).
  destruct (step_ms_single_scroll s h _ _ _ Hts Hatt) as [Hfire Hwait].
  unfold ScrollRun, scrollOffset in *. rewrite step_ms_now.
  destruct (Z.eq_dec (T mod 50) 49) as [E49 | N49].
  - (* the tick fires *)
    assert (Hq : (T + 1) / 50 = T / 50 + 1).
    { symmetry. apply (Z.div_unique _ 50 _ 0); lia. }
    assert (Hr : (T + 1) mod 50 = 0).
    { symmetry. apply (Z.mod_unique _ 50 (T / 50 + 1) 0); lia. }
    destruct Hfire as [Ht' Hsv]; [lia|].
    rewrite Ht', Hsv, Hq, Hr.
    split; [| split].
    + exists h. f_equal. f_equal; [lia | f_equal; lia].
    + reflexivity.
    + assert (Hlt : (T + 1 <? 50) = false) by (apply Z.ltb_ge; lia).
      rewrite Hlt. cbn [option_map y]. f_equal. lia.
  - (* nothing is due *)
    assert (Hq : (T + 1) / 50 = T / 50).
    { symmetry. apply (Z.div_unique _ 50 _ (T mod 50 + 1)); lia. }
    assert (Hr : (T + 1) mod 50 = T mod 50 + 1).
    { symmetry. apply (Z.mod_unique _ 50 (T / 50) (T mod 50 + 1)); lia. }
    destruct Hwait as [Ht' Hsv]; [lia|].
    rewrite Ht', Hsv, Hatt, Hoff, Hq, Hr.
    split; [| split].
    + exists h. f_equal. f_equal. lia.
    + reflexivity.
    + destruct (T <? 50) eqn:E1; destruct (T + 1 <? 50) eqn:E2;
        try reflexivity.
      * apply Z.ltb_lt in E1. apply Z.ltb_ge in E2.
        assert (T / 50 = 0) by (apply Z.div_small; lia).
        assert (T mod 50 = T) by (apply Z.mod_small; lia). lia.
      * apply Z.ltb_ge in E1. apply Z.ltb_lt in E2. lia.
Qed.

Lemma ScrollRun_advance (v : Z) (y0 : option Z) (n : nat) (T : Z) (s : State) :
  0 <= T ->
  ScrollRun v y0 T s -> ScrollRun v y0 (T + Z.of_nat n) (advance n s).
Proof.
  revert T s. induction n as [|n IH]; intros T s HT H.
  - simpl. rewrite Z.add_0_r. exact H.
  - change (advance (S n) s) with (advance n (step_ms s)).
    replace (T + Z.of_nat (S n)) with ((T + 1) + Z.of_nat n) by lia.
    apply IH; [lia|]. apply ScrollRun_step; assumption.
Qed.

(** *** Well-formed states *)

Lemma wf_no_scrollTimers (s : State) :
  wf s = true -> scrollIntervalRef s = None -> scrollTimers (timers s) = [].
Proof.
  unfold wf, ownsScrollTimers, scrollTimers. intros Hwf Href.
  apply andb_true_iff in Hwf. destruct Hwf as [Hown _]. rewrite Href in Hown.
  induction (timers s) as [|t rest IH]; simpl in *; [reflexivity|].
  apply andb_true_iff in Hown. destruct Hown as [Ht Hrest].
  rewrite orb_false_r in Ht. apply negb_true_iff in Ht. rewrite Ht.
  apply IH. exact Hrest.
Qed.

Lemma wf_idle_ref (s : State) :
  wf s = true -> isScrolling s = false -> scrollIntervalRef s = None.
Proof.
  unfold wf. intros Hwf Hs. apply andb_true_iff in Hwf.
  destruct Hwf as [_ H]. rewrite Hs in H. simpl in H.
  destruct (scrollIntervalRef s); [discriminate | reflexivity].
Qed.

Lemma scrollTimers_app (a b : list Timer) :
  scrollTimers (a ++ b) = scrollTimers a ++ scrollTimers b.
Proof. unfold scrollTimers. apply filter_app. Qed.

(** After [stopAutoScroll] no scroll tick is left. *)
Lemma stopAutoScroll_no_scrollTimers (s : State) :
  wf s = true -> scrollTimers (timers (stopAutoScroll s)) = [].
Proof.
  intros Hwf. unfold stopAutoScroll. simpl.
  destruct (scrollIntervalRef s) as [h|] eqn:Href.
  - simpl. unfold wf, ownsScrollTimers in Hwf.
    apply andb_true_iff in Hwf. destruct Hwf as [Hown _].
    rewrite Href in Hown. unfold scrollTimers.
    induction (timers s) as [|t rest IH]; simpl in *; [reflexivity|].
    apply andb_true_iff in Hown. destruct Hown as [Ht Hrest].
    destruct (handle t =? h)%N eqn:Hh; simpl.
    + apply IH. exact Hrest.
    + rewrite orb_false_r in Ht. apply negb_true_iff in Ht. rewrite Ht.
      apply IH. exact Hrest.
  - simpl. apply wf_no_scrollTimers; assumption.
Qed.

(** [startAutoScroll] on a well-formed, idle session with a script starts
    a run at time zero with the current speed. *)
Lemma startAutoScroll_ScrollRun (s : State) :
  wf s = true ->
  isScrolling s = false ->
  attached (selectedScript s) = true ->
  attached (scrollViewRef s) = true ->
  ScrollRun (scrollSpeed s) (scrollOffset s) 0 (startAutoScroll s).
Proof.
  intros Hwf Hidle Hsel Hatt.
  pose proof (wf_no_scrollTimers s Hwf (wf_idle_ref s Hwf Hidle)) as Hnone.
  unfold startAutoScroll. rewrite Hsel, Hidle. simpl.
  unfold ScrollRun. simpl. rewrite scrollTimers_app, Hnone. simpl.
  split; [| split].
  - exists (nextHandle s). reflexivity.
  - exact Hatt.
  - reflexivity.
Qed.

End TeleprompterScroll.

(** Unfolding of the handlers down to the record, and case analysis on what
    they inspect. *)
Ltac unfold_handlers :=
  unfold Teleprompter.react, Teleprompter.onFocus, Teleprompter.onBlur,
    Teleprompter.requestPermissions_done,
    Teleprompter.loadSelectedScript_done, Teleprompter.onCameraReady,
    Teleprompter.startRecording, Teleprompter.startRecording_recorded,
    Teleprompter.startRecording_saved, Teleprompter.startRecording_catch,
    Teleprompter.startRecording_finish, Teleprompter.stopRecording,
    Teleprompter.stopRecording_stopped, Teleprompter.startRecordingTimer,
    Teleprompter.stopRecordingTimer, Teleprompter.startAutoScroll,
    Teleprompter.resetScroll, Teleprompter.stopAutoScroll,
    Teleprompter.decreaseSpeed, Teleprompter.increaseSpeed,
    Teleprompter.decreaseFont, Teleprompter.increaseFont,
    Teleprompter.alert, Teleprompter.setInterval, Teleprompter.setTimeout,
    Teleprompter.clearInterval, Teleprompter.scrollTo in *.

Ltac break_match :=
  repeat match goal with
         | |- context [match ?x with _ => _ end] => destruct x eqn:?; simpl
         end.

(** ** The teleprompter: invariants of the reachable states *)

Section TeleprompterInvariants.
Import Teleprompter.
Local Open Scope Z_scope.

Lemma wf_spec (s : State) :
  wf s = true
  <-> (forall t, In t (timers s) -> isScrollTick (callback t) = true ->
                 scrollIntervalRef s = Some (handle t))
      /\ (isScrolling s = false -> scrollIntervalRef s = None).
Proof.
  unfold wf, ownsScrollTimers. rewrite andb_true_iff, forallb_forall.
  split; intros [Hown Hidle]; split.
  - intros t Hin Hk. specialize (Hown t Hin). rewrite Hk in Hown.
    simpl in Hown. destruct (scrollIntervalRef s) as [h|]; [|discriminate].
    apply N.eqb_eq in Hown. congruence.
  - intros Hs. rewrite Hs in Hidle. simpl in Hidle.
    destruct (scrollIntervalRef s); [discriminate | reflexivity].
  - intros t Hin. destruct (isScrollTick (callback t)) eqn:Hk; [|reflexivity].
    simpl. rewrite (Hown t Hin Hk). apply N.eqb_refl.
  - destruct (isScrolling s); [reflexivity|]. rewrite Hidle; reflexivity.
Qed.

(** A handler that neither adds a scroll tick nor touches the scroll cells
    keeps a state well-formed. *)
Lemma wf_monotone (s s' : State) :
  wf s = true ->
  (forall t, In t (timers s') ->
             In t (timers s) \/ isScrollTick (callback t) = false) ->
  scrollIntervalRef s' = scrollIntervalRef s ->
  isScrolling s' = isScrolling s ->
  wf s' = true.
Proof.
  intros Hwf Hsub Href Hscr. apply wf_spec in Hwf. destruct Hwf as [Hown Hidle].
  apply wf_spec. rewrite Href, Hscr. split; [|exact Hidle].
  intros t Hin Hk. destruct (Hsub t Hin) as [H | H]; [auto | congruence].
Qed.

Lemma wf_step_ms (s : State) : wf s = true -> wf (step_ms s) = true.
Proof.
  intros Hwf. apply wf_spec in Hwf. destruct Hwf as [Hown Hidle].
  apply wf_spec. rewrite step_ms_timed. simpl. split; [|exact Hidle].
  intros t' Hin Hk.
  destruct (reschedule_origin _ _ _ Hin) as [[H _] | [t [H [_ Ha]]]].
  - auto.
  - destruct (afterFiring_callback _ _ Ha) as [Hh [Hs _]].
    rewrite Hh. apply Hown; congruence.
Qed.

Lemma wf_advance (n : nat) (s : State) :
  wf s = true -> wf (advance n s) = true.
Proof.
  revert s. induction n as [|n IH]; intros s H; [exact H|].
  apply IH, wf_step_ms, H.
Qed.

Lemma wf_startAutoScroll (s : State) :
  wf s = true -> wf (startAutoScroll s) = true.
Proof.
  intros Hwf. unfold startAutoScroll.
  destruct (negb (attached (selectedScript s)) || isScrolling s) eqn:G;
    [exact Hwf|].
  apply orb_false_iff in G. destruct G as [_ Hidle].
  pose proof (wf_no_scrollTimers s Hwf (wf_idle_ref s Hwf Hidle)) as Hnone.
  apply wf_spec. simpl. split; [|discriminate].
  intros t Hin Hk. apply in_app_or in Hin. destruct Hin as [Hin | [<- | []]].
  - exfalso. assert (Hf : In t (scrollTimers (timers s)))
      by (apply filter_In; auto).
    rewrite Hnone in Hf. exact Hf.
  - reflexivity.
Qed.

Lemma wf_stopAutoScroll (s : State) :
  wf s = true -> wf (stopAutoScroll s) = true.
Proof.
  intros Hwf. pose proof (stopAutoScroll_no_scrollTimers s Hwf) as Hnone.
  apply wf_spec. split.
  - intros t Hin Hk. exfalso.
    assert (Hf : In t (scrollTimers (timers (stopAutoScroll s))))
      by (apply filter_In; auto).
    rewrite Hnone in Hf. exact Hf.
  - intros _. unfold stopAutoScroll. simpl.
    destruct (scrollIntervalRef s) eqn:E; simpl; [reflexivity | exact E].
Qed.

Lemma wf_scrollTo (p : Z) (s : State) : wf (scrollTo p s) = wf s.
Proof. unfold scrollTo. destruct (scrollViewRef s); reflexivity. Qed.

(** Every handler keeps a state well-formed. *)
Lemma wf_react (e : Event) (s : State) :
  wf s = true -> wf (react e s) = true.
Proof.
  intros Hwf.
  destruct e; simpl react;
    try (apply wf_advance; exact Hwf);
    try (apply wf_startAutoScroll; exact Hwf);
    try (apply wf_stopAutoScroll; exact Hwf);
    try (unfold resetScroll; rewrite wf_scrollTo;
         apply wf_stopAutoScroll; exact Hwf);
    try (apply (wf_monotone s _ Hwf);
         [ unfold_handlers; simpl; break_match;
           intros tm Hin; simpl in Hin;
           repeat (apply in_app_or in Hin; destruct Hin as [Hin | Hin]);
           try (apply filter_In in Hin; destruct Hin as [Hin _]);
           try (left; exact Hin);
           try (destruct Hin as [<- | []]; right; reflexivity)
         | unfold_handlers; simpl; break_match; reflexivity
         | unfold_handlers; simpl; break_match; reflexivity ]).
Qed.

Lemma wf_commit (s : State) : wf (commit s) = wf s.
Proof.
  unfold commit. destruct (render s); try reflexivity.
  simpl. destruct (scrollViewRef s); reflexivity.
Qed.

Lemma wf_run (es : list Event) (s : State) :
  wf s = true -> wf (run es s) = true.
Proof.
  revert s. induction es as [|e rest IH]; intros s H; [exact H|].
  simpl. apply IH. unfold handle_event. rewrite wf_commit.
  apply wf_react, H.
Qed.

(** The states reached from a fresh mount are well-formed. *)
Lemma wf_reachable (t0 : Z) (es : list Event) :
  wf (run es (initialState t0)) = true.
Proof. apply wf_run. reflexivity. Qed.

End TeleprompterInvariants.

(** ** The teleprompter: the claims *)

Section TeleprompterRuns.
Import Teleprompter.
Local Open Scope Z_scope.

Lemma settingsInBounds_initial (t0 : Z) : settingsInBounds (initialState t0).
Proof. unfold settingsInBounds. simpl. lia. Qed.

Lemma settingsInBounds_react (e : Event) (s : State) :
  settingsInBounds s -> settingsInBounds (react e s).
Proof.
  unfold settingsInBounds. intros H.
  destruct e; simpl react;
    try (rewrite advance_timed; exact H);
    try (unfold_handlers; simpl; break_match; solve [exact H | simpl; lia]).
Qed.

Lemma settingsInBounds_commit (s : State) :
  settingsInBounds s -> settingsInBounds (commit s).
Proof.
  unfold settingsInBounds, commit. intros H.
  destruct (render s); simpl; try exact H.
  destruct (scrollViewRef s); exact H.
Qed.

Lemma settingsInBounds_run (es : list Event) (s : State) :
  settingsInBounds s -> settingsInBounds (run es s).
Proof.
  revert s. induction es as [|e rest IH]; intros s H; [exact H|].
  simpl. apply IH, settingsInBounds_commit, settingsInBounds_react, H.
Qed.

(** Only [onCameraReady] sets [cameraReady]. *)
Lemma cameraReady_react (e : Event) (s : State) :
  isCameraReady e = false ->
  cameraReady s = false -> cameraReady (react e s) = false.
Proof.
  intros He H.
  destruct e; try discriminate; simpl react;
    try (rewrite advance_timed; exact H);
    unfold_handlers; simpl; break_match; auto.
Qed.

Lemma cameraReady_commit (s : State) : cameraReady (commit s) = cameraReady s.
Proof.
  unfold commit. destruct (render s); try reflexivity.
  simpl. destruct (scrollViewRef s); reflexivity.
Qed.

Lemma cameraReady_run (es : list Event) (s : State) :
  forallb (fun e => negb (isCameraReady e)) es = true ->
  cameraReady s = false -> cameraReady (run es s) = false.
Proof.
  revert s. induction es as [|e rest IH]; intros s Hes H; [exact H|].
  simpl in Hes. apply andb_true_iff in Hes. destruct Hes as [He Hrest].
  apply negb_true_iff in He. simpl. apply IH; [exact Hrest|].
  unfold handle_event. rewrite cameraReady_commit.
  apply cameraReady_react; assumption.
Qed.

(** The setting buttons and the passing of time carry a running scroll
    interval along. *)
Lemma render_react_setting (e : Event) (s : State) :
  isSettingOrElapse e = true -> render (react e s) = render s.
Proof.
  intros He. destruct e; try discriminate; simpl react;
    try reflexivity.
  rewrite advance_timed. reflexivity.
Qed.

Lemma commit_mounted (s : State) :
  mounted s = true -> commit s = set_cameraRef (Some (mkCameraView (cameraKey s))) s.
Proof.
  unfold mounted, commit. destruct (render s); try discriminate.
  simpl. intros H. destruct (scrollViewRef s); [reflexivity | discriminate].
Qed.

Lemma mounted_set_cameraRef (c : option CameraView) (s : State) :
  mounted (set_cameraRef c s) = mounted s.
Proof. reflexivity. Qed.

Lemma ScrollRun_set_cameraRef v y0 T c s :
  ScrollRun v y0 T s -> ScrollRun v y0 T (set_cameraRef c s).
Proof. intros H. exact H. Qed.

Lemma ScrollRun_handle_setting (v : Z) (y0 : option Z) (T : Z)
    (e : Event) (s : State) :
  0 <= T ->
  isSettingOrElapse e = true ->
  render s = MainView ->
  ScrollRun v y0 T s ->
  render (handle_event e s) = MainView
  /\ ScrollRun v y0 (T + elapsed [e]) (handle_event e s).
Proof.
  intros HT He Hr Hrun.
  assert (Hreact : render (react e s) = MainView
                   /\ ScrollRun v y0 (T + elapsed [e]) (react e s)).
  { split; [rewrite render_react_setting; assumption|].
    destruct e; try discriminate; simpl react; simpl elapsed;
      try (rewrite Z.add_0_r; exact Hrun).
    rewrite Z.add_0_r. apply ScrollRun_advance; assumption. }
  destruct Hreact as [Hr' Hrun'].
  assert (Hm : mounted (react e s) = true).
  { unfold mounted. rewrite Hr'. apply Hrun'. }
  unfold handle_event. rewrite (commit_mounted _ Hm). split.
  - exact Hr'.
  - apply ScrollRun_set_cameraRef. exact Hrun'.
Qed.

Lemma elapsed_nonneg (es : list Event) : 0 <= elapsed es.
Proof.
  induction es as [|e rest IH]; simpl; [lia|]. destruct e; lia.
Qed.

Lemma elapsed_cons (e : Event) (es : list Event) :
  elapsed (e :: es) = elapsed [e] + elapsed es.
Proof. simpl. destruct e; lia. Qed.

Lemma ScrollRun_run (v : Z) (y0 : option Z) (es : list Event) (T : Z)
    (s : State) :
  0 <= T ->
  forallb isSettingOrElapse es = true ->
  render s = MainView ->
  ScrollRun v y0 T s ->
  ScrollRun v y0 (T + elapsed es) (run es s).
Proof.
  revert T s. induction es as [|e rest IH]; intros T s HT Hes Hr Hrun.
  - simpl. rewrite Z.add_0_r. exact Hrun.
  - simpl in Hes. apply andb_true_iff in Hes. destruct Hes as [He Hrest].
    destruct (ScrollRun_handle_setting v y0 T e s HT He Hr Hrun) as [Hr' Hrun'].
    rewrite elapsed_cons, Z.add_assoc.
    change (run (e :: rest) s) with (run rest (handle_event e s)).
    apply IH; try assumption.
    pose proof (elapsed_nonneg [e]). lia.
Qed.

(** The cells after the focus callback. *)
Lemma onFocus_cells (s : State) :
  recordingStatus (onFocus s) = idle
  /\ isRecording (onFocus s) = false
  /\ recordingDuration (onFocus s) = 0
  /\ cameraKey (onFocus s) = cameraKey s + 1
  /\ cameraReady (onFocus s) = false
  /\ recordingTimerRef (onFocus s) = None
  /\ render (onFocus s) = render s.
Proof.
  unfold onFocus. cbn [recordingTimerRef set_cameraKey set_recordingDuration
    set_isRecording set_recordingStatus set_cameraReady].
  destruct (recordingTimerRef s) eqn:E.
  - repeat split; reflexivity.
  - repeat split; try reflexivity. exact E.
Qed.

Lemma commit_cameraRef (s : State) :
  render s = MainView ->
  cameraRef (commit s) = Some (mkCameraView (cameraKey s)).
Proof.
  intros Hr. unfold commit. rewrite Hr.
  cbn [scrollViewRef set_cameraRef].
  destruct (scrollViewRef s); reflexivity.
Qed.

Lemma run_cons (e : Event) (es : list Event) (s : State) :
  run (e :: es) s = run es (handle_event e s).
Proof. reflexivity. Qed.

End TeleprompterRuns.

(** ** The teleprompter: the end of a recording *)

Section TeleprompterCoolDown.
Import Teleprompter.
Local Open Scope Z_scope.

Lemma commit_refs (s : State) :
  commit s
  = set_scrollViewRef (scrollViewRef (commit s))
      (set_cameraRef (cameraRef (commit s)) s).
Proof.
  destruct s. unfold commit, render. simpl.
  repeat match goal with
         | |- context [match ?x with _ => _ end] => destruct x
         end; reflexivity.
Qed.

Lemma advance_status_cases (n : nat) (s : State) :
  recordingStatus (advance n s) = recordingStatus s
  \/ recordingStatus (advance n s) = idle.
Proof.
  revert s. induction n as [|n IH]; intros s; [left; reflexivity|].
  change (advance (S n) s) with (advance n (step_ms s)).
  destruct (IH (step_ms s)) as [H | H]; [|right; exact H].
  rewrite H, step_ms_status.
  destruct (existsb _ (timers s)); [right | left]; reflexivity.
Qed.

(** What a handler can do to the status: leave it, move it to a status
    that is not an outcome, or end the recording and arm the cool-down. *)
Lemma react_status_cases (e : Event) (s : State) :
  recordingStatus (react e s) = recordingStatus s
  \/ isTerminal (recordingStatus (react e s)) = false
  \/ ArmsCoolDown s (react e s).
Proof.
  destruct e; simpl react;
    try (destruct (advance_status_cases ms s) as [H | H];
         [left; exact H | right; left; rewrite H; reflexivity]);
    unfold_handlers; simpl; break_match;
    first
      [ left; reflexivity
      | right; left; reflexivity
      | right; right; unfold ArmsCoolDown; simpl;
        eexists; eexists;
        (split; [reflexivity |
                 split; [| split; [reflexivity |
                                   split; reflexivity]]]);
        first [ apply incl_refl | apply incl_filter ] ].
Qed.

Lemma resetTimers_app (a b : list Timer) :
  resetTimers (a ++ b) = resetTimers a ++ resetTimers b.
Proof. unfold resetTimers. apply filter_app. Qed.

(** Two seconds after the cool-down was armed the status is idle, and not
    earlier when no other cool-down was pending. *)
Lemma ArmsCoolDown_idle (s s' : State) :
  ArmsCoolDown s s' ->
  recordingStatus (advance 2000 s') = idle
  /\ (resetTimers (timers s) = [] ->
      forall n, (n < 2000)%nat ->
                recordingStatus (advance n s') = recordingStatus s').
Proof.
  intros [ts [h [Hts [Hincl [Hnow _]]]]]. split.
  - apply (reset_fires 1999 s' (mkTimer h (now s + 2000) None ResetStatus)).
    + rewrite Hts. apply in_or_app. right. left. reflexivity.
    + reflexivity.
    + simpl due. rewrite Hnow. lia.
  - intros Hnone n Hn. apply no_reset_due.
    intros t Hin Hr. rewrite Hts in Hin. apply in_app_or in Hin.
    destruct Hin as [Hin | [<- | []]].
    + exfalso. assert (Hf : In t (resetTimers (timers s))).
      { apply filter_In. split; [apply Hincl; exact Hin | exact Hr]. }
      rewrite Hnone in Hf. exact Hf.
    + simpl due. rewrite Hnow. lia.
Qed.

Lemma ArmsCoolDown_commit (s s' : State) :
  ArmsCoolDown s s' -> ArmsCoolDown s (commit s').
Proof.
  unfold ArmsCoolDown. rewrite (commit_refs s'). simpl. auto.
Qed.

Lemma isScrolling_run_settings (es : list Event) (s : State) :
  forallb isSettingOrElapse es = true ->
  isScrolling (run es s) = isScrolling s.
Proof.
  revert s. induction es as [|e rest IH]; intros s Hes; [reflexivity|].
  simpl in Hes. apply andb_true_iff in Hes. destruct Hes as [He Hrest].
  simpl. rewrite (IH _ Hrest). unfold handle_event.
  rewrite commit_refs. simpl.
  destruct e; try discriminate; simpl react; try reflexivity.
  rewrite advance_timed. reflexivity.
Qed.

End TeleprompterCoolDown.


(** ** The teleprompter: the recording timer *)

Section TeleprompterRecordingTimer.
Import Teleprompter.
Local Open Scope Z_scope.

Lemma recordingTimers_nil (ts : list Timer) :
  recordingTimers ts = []
  <-> forall t, In t ts -> isRecordingTick (callback t) = false.
Proof.
  unfold recordingTimers. split.
  - intros H t Hin. destruct (isRecordingTick (callback t)) eqn:E; [|reflexivity].
    assert (Hf : In t (filter (fun t => isRecordingTick (callback t)) ts))
      by (apply filter_In; auto).
    rewrite H in Hf. contradiction.
  - intros H. induction ts as [|t rest IH]; [reflexivity|]. simpl.
    rewrite (H t (or_introl eq_refl)). apply IH.
    intros u Hu. apply H. right. exact Hu.
Qed.

Lemma ownsRecordingTimers_spec (s : State) :
  ownsRecordingTimers s = true
  <-> forall t, In t (timers s) -> isRecordingTick (callback t) = true ->
                recordingTimerRef s = Some (handle t).
Proof.
  unfold ownsRecordingTimers. rewrite forallb_forall. split.
  - intros H t Hin Hk. specialize (H t Hin). rewrite Hk in H. simpl in H.
    destruct (recordingTimerRef s) as [h|]; [|discriminate].
    apply N.eqb_eq in H. congruence.
  - intros H t Hin. destruct (isRecordingTick (callback t)) eqn:Hk;
      [|reflexivity].
    simpl. rewrite (H t Hin Hk). apply N.eqb_refl.
Qed.

Lemma ticksFrom_refl (s : State) : ticksFrom s s.
Proof. intros t Hin Hk. exists t. auto. Qed.

Lemma ticksFrom_trans (s1 s2 s3 : State) :
  ticksFrom s1 s2 -> ticksFrom s2 s3 -> ticksFrom s1 s3.
Proof.
  intros H12 H23 t3 Hin Hk.
  destruct (H23 t3 Hin Hk) as [t2 [Hin2 [Hh2 Hk2]]].
  destruct (H12 t2 Hin2 Hk2) as [t1 [Hin1 [Hh1 Hk1]]].
  exists t1. split; [exact Hin1 | split; [congruence | exact Hk1]].
Qed.

Lemma ticksFrom_none (s s' : State) :
  ticksFrom s s' ->
  recordingTimers (timers s) = [] -> recordingTimers (timers s') = [].
Proof.
  intros Hfrom Hnone. apply recordingTimers_nil. intros t' Hin.
  destruct (isRecordingTick (callback t')) eqn:Hk; [|reflexivity].
  destruct (Hfrom t' Hin Hk) as [t [Hin0 [_ Hk0]]].
  rewrite (proj1 (recordingTimers_nil _) Hnone t Hin0) in Hk0. discriminate.
Qed.

Lemma ticksFrom_owned (s s' : State) :
  ticksFrom s s' ->
  recordingTimerRef s' = recordingTimerRef s ->
  ownsRecordingTimers s = true -> ownsRecordingTimers s' = true.
Proof.
  intros Hfrom Href Hown. apply ownsRecordingTimers_spec. intros t' Hin Hk.
  destruct (Hfrom t' Hin Hk) as [t [Hin0 [Hh Hk0]]].
  rewrite Href, <- Hh.
  apply (proj1 (ownsRecordingTimers_spec s) Hown t Hin0 Hk0).
Qed.

Lemma afterFiring_tick (t t' : Timer) :
  afterFiring t = Some t' ->
  handle t' = handle t
  /\ isRecordingTick (callback t') = isRecordingTick (callback t).
Proof.
  unfold afterFiring. destruct (period t); [|discriminate].
  intros H. injection H as <-. simpl. destruct (callback t); auto.
Qed.

Lemma ticksFrom_step_ms (s : State) : ticksFrom s (step_ms s).
Proof.
  intros t' Hin Hk. rewrite step_ms_timers in Hin.
  destruct (reschedule_origin _ _ _ Hin) as [[Hin0 _] | [t [Hin0 [_ Ha]]]].
  - exists t'. auto.
  - destruct (afterFiring_tick _ _ Ha) as [Hh Hkind].
    exists t. split; [exact Hin0 | split; [congruence | congruence]].
Qed.

Lemma ticksFrom_advance (n : nat) (s : State) : ticksFrom s (advance n s).
Proof.
  revert s. induction n as [|n IH]; intros s; [apply ticksFrom_refl|].
  change (advance (S n) s) with (advance n (step_ms s)).
  apply (ticksFrom_trans _ (step_ms s)); [apply ticksFrom_step_ms | apply IH].
Qed.

Lemma runCallback_clock (cb : Callback) (s : State) :
  now (runCallback cb s) = now s
  /\ recordingStartTime (runCallback cb s) = recordingStartTime s.
Proof. rewrite runCallback_display. split; reflexivity. Qed.

(** The elapsed time after the due timers fired: the reading of the clock
    when a recording tick was among them. *)
Lemma fireDue_duration (clock : Z) (ts : list Timer) (s : State) :
  recordingDuration (fireDue clock ts s)
  = if existsb (fun t => isDue clock t && isRecordingTick (callback t)) ts
    then now s - recordingStartTime s
    else recordingDuration s.
Proof.
  revert s. induction ts as [|t rest IH]; intros s; simpl; [reflexivity|].
  rewrite IH. destruct (isDue clock t); simpl; [|reflexivity].
  destruct (runCallback_clock (callback t) s) as [Hn Hs]. rewrite Hn, Hs.
  destruct (callback t); simpl.
  - unfold scrollTo. destruct (scrollViewRef s); reflexivity.
  - destruct (existsb _ rest); reflexivity.
  - reflexivity.
Qed.

Lemma step_ms_duration (s : State) :
  recordingDuration (step_ms s)
  = if existsb (fun t => isDue (now s + 1) t && isRecordingTick (callback t))
         (timers s)
    then now s + 1 - recordingStartTime s
    else recordingDuration s.
Proof. unfold step_ms. simpl. rewrite fireDue_duration. reflexivity. Qed.

(** With no recording tick in the table, time leaves the elapsed time as
    it is. *)
Lemma advance_duration_kept (n : nat) (s : State) :
  recordingTimers (timers s) = [] ->
  recordingDuration (advance n s) = recordingDuration s.
Proof.
  revert s. induction n as [|n IH]; intros s Hnone; [reflexivity|].
  change (advance (S n) s) with (advance n (step_ms s)).
  rewrite IH by (apply (ticksFrom_none s); [apply ticksFrom_step_ms | exact Hnone]).
  rewrite step_ms_duration.
  destruct (existsb _ (timers s)) eqn:E; [|reflexivity].
  apply existsb_exists in E. destruct E as [t [Hin Ht]].
  apply andb_true_iff in Ht. destruct Ht as [_ Hk].
  rewrite (proj1 (recordingTimers_nil _) Hnone t Hin) in Hk. discriminate.
Qed.

(** A bystander event leaves [recordingTimerRef] alone and starts no
    recording tick. *)
Lemma bystander_react (e : Event) (s : State) :
  isBystander e = true ->
  recordingTimerRef (react e s) = recordingTimerRef s
  /\ ticksFrom s (react e s).
Proof.
  intros He.
  destruct e as [| | c m l | sc | | | r | r | | r | | | | | | | | ms];
    try discriminate; simpl react;
    try (split; [rewrite advance_timed; reflexivity | apply ticksFrom_advance]);
    try (destruct r; try discriminate);
    unfold_handlers; simpl; break_match;
    (split; [reflexivity|]);
    intros t' Hin Hk; simpl in Hin;
    try (apply in_app_or in Hin; destruct Hin as [Hin | [<- | []]];
         [| discriminate Hk]);
    try (apply filter_In in Hin; destruct Hin as [Hin _]);
    exists t'; auto.
Qed.

Lemma bystander_duration (e : Event) (s : State) :
  isBystander e = true ->
  recordingTimers (timers s) = [] ->
  recordingDuration (react e s) = recordingDuration s.
Proof.
  intros He Hnone.
  destruct e as [| | c m l | sc | | | r | r | | r | | | | | | | | ms];
    try discriminate; simpl react;
    try (apply advance_duration_kept, Hnone);
    try (destruct r; try discriminate);
    unfold_handlers; simpl; break_match; reflexivity.
Qed.

Lemma commit_recording (s : State) :
  recordingTimerRef (commit s) = recordingTimerRef s
  /\ timers (commit s) = timers s
  /\ recordingDuration (commit s) = recordingDuration s
  /\ recordingStatus (commit s) = recordingStatus s
  /\ isRecording (commit s) = isRecording s.
Proof. rewrite commit_refs. auto. Qed.

Lemma bystanders_owned (es : list Event) (s : State) :
  forallb isBystander es = true ->
  ownsRecordingTimers s = true -> ownsRecordingTimers (run es s) = true.
Proof.
  revert s. induction es as [|e rest IH]; intros s Hes Hown; [exact Hown|].
  simpl in Hes. apply andb_true_iff in Hes. destruct Hes as [He Hrest].
  rewrite run_cons. apply (IH _ Hrest).
  destruct (bystander_react e s He) as [Href Hfrom].
  destruct (commit_recording (react e s)) as [Hr [Ht _]].
  unfold handle_event. apply (ticksFrom_owned s); [| congruence | exact Hown].
  intros t' Hin Hk. rewrite Ht in Hin. apply (Hfrom t' Hin Hk).
Qed.

Lemma bystanders_idle_timer (es : list Event) (s : State) :
  forallb isBystander es = true ->
  recordingTimers (timers s) = [] ->
  recordingTimers (timers (run es s)) = []
  /\ recordingDuration (run es s) = recordingDuration s.
Proof.
  revert s. induction es as [|e rest IH]; intros s Hes Hnone; [auto|].
  simpl in Hes. apply andb_true_iff in Hes. destruct Hes as [He Hrest].
  rewrite run_cons.
  destruct (bystander_react e s He) as [_ Hfrom].
  destruct (commit_recording (react e s)) as [_ [Ht [Hd _]]].
  assert (Hnone' : recordingTimers (timers (handle_event e s)) = []).
  { unfold handle_event. rewrite Ht. apply (ticksFrom_none s); assumption. }
  destruct (IH _ Hrest Hnone') as [H1 H2]. split; [exact H1|].
  rewrite H2. unfold handle_event. rewrite Hd.
  apply bystander_duration; assumption.
Qed.

Lemma startRecording_starts (s : State) :
  canRecord s = true ->
  startRecording s
  = (startRecordingTimer (set_recordingStatus recording (set_isRecording true s)),
     AwaitRecordAsync (mkOptions "avc1" 60 (100 * 1024 * 1024))).
Proof.
  unfold canRecord, startRecording. intros H.
  repeat (apply andb_true_iff in H; destruct H as [H ?]).
  rewrite H, H0, H1, H2, H3. reflexivity.
Qed.

(** A recording started while no recording tick runs owns its tick. *)
Lemma startRecording_owned (s : State) :
  canRecord s = true ->
  recordingTimers (timers s) = [] ->
  ownsRecordingTimers (fst (startRecording s)) = true.
Proof.
  intros Hcan Hnone. rewrite (startRecording_starts s Hcan). simpl fst.
  apply ownsRecordingTimers_spec.
  unfold startRecordingTimer, setInterval. simpl.
  intros t Hin Hk. apply in_app_or in Hin. destruct Hin as [Hin | [<- | []]].
  - rewrite (proj1 (recordingTimers_nil _) Hnone t Hin) in Hk. discriminate.
  - reflexivity.
Qed.

(** [stopRecordingTimer] on a state that owns its recording ticks leaves
    none of them in the table. *)
Lemma stopRecordingTimer_stops (s : State) :
  ownsRecordingTimers s = true ->
  recordingTimers (timers (stopRecordingTimer s)) = []
  /\ recordingTimerRef (stopRecordingTimer s) = None.
Proof.
  intros Hown. unfold stopRecordingTimer.
  destruct (recordingTimerRef s) as [h|] eqn:E; simpl.
  - split; [|reflexivity]. apply recordingTimers_nil. intros t Hin.
    apply filter_In in Hin. destruct Hin as [Hin Hh].
    destruct (isRecordingTick (callback t)) eqn:Hk; [|reflexivity].
    pose proof (proj1 (ownsRecordingTimers_spec s) Hown t Hin Hk) as Href.
    rewrite E in Href. injection Href as ->.
    rewrite N.eqb_refl in Hh. discriminate.
  - split; [|exact E]. apply recordingTimers_nil. intros t Hin.
    destruct (isRecordingTick (callback t)) eqn:Hk; [|reflexivity].
    pose proof (proj1 (ownsRecordingTimers_spec s) Hown t Hin Hk) as Href.
    congruence.
Qed.

Lemma recordingTimers_app (a b : list Timer) :
  recordingTimers (a ++ b) = recordingTimers a ++ recordingTimers b.
Proof. unfold recordingTimers. apply filter_app. Qed.

(** The handlers that assign an outcome clear the cells of the recording
    and arm the cool-down, whatever the status was. *)
Lemma assignsOutcome_arms (e : Event) (s : State) :
  assignsOutcome e = true ->
  ArmsCoolDown s (react e s)
  /\ isTerminal (recordingStatus (react e s)) = true.
Proof.
  intros He.
  destruct e as [| | c m l | sc | | | r | r | | r | | | | | | | | ms];
    try discriminate; simpl react.
  - destruct r as [[v|]|x]; simpl in He.
    + apply negb_true_iff in He.
      unfold startRecording_recorded. rewrite He.
      unfold_handlers; simpl; break_match;
        (split; [|reflexivity]); unfold ArmsCoolDown; simpl;
        eexists; eexists;
        (split; [reflexivity |
                 split; [| split; [reflexivity | split; reflexivity]]]);
        first [ apply incl_refl | apply incl_filter ].
    + unfold_handlers; simpl; break_match;
        (split; [|reflexivity]); unfold ArmsCoolDown; simpl;
        eexists; eexists;
        (split; [reflexivity |
                 split; [| split; [reflexivity | split; reflexivity]]]);
        first [ apply incl_refl | apply incl_filter ].
    + unfold_handlers; simpl; break_match;
        (split; [|reflexivity]); unfold ArmsCoolDown; simpl;
        eexists; eexists;
        (split; [reflexivity |
                 split; [| split; [reflexivity | split; reflexivity]]]);
        first [ apply incl_refl | apply incl_filter ].
  - destruct r; unfold_handlers; simpl;
      (split; [|reflexivity]); unfold ArmsCoolDown; simpl;
      eexists; eexists;
      (split; [reflexivity |
               split; [| split; [reflexivity | split; reflexivity]]]);
      apply incl_refl.
  - destruct r; [discriminate|].
    unfold_handlers; simpl; break_match;
      (split; [|reflexivity]); unfold ArmsCoolDown; simpl;
      eexists; eexists;
      (split; [reflexivity |
               split; [| split; [reflexivity | split; reflexivity]]]);
      first [ apply incl_refl | apply incl_filter ].
Qed.

End TeleprompterRecordingTimer.

(** ** The claims about the teleprompter *)

(** C1 (as the code has it).  When the camera view is missing, a permission
    is not granted or the camera is not ready, [startRecording] returns at
    once: it shows one alert titled "Error" and changes nothing else, so an
    idle session stays idle.  The message is that of the first check that
    fails.  With the camera view mounted there are three messages for the
    four conditions: one for the camera and the microphone together, one for
    the media library, one for the camera that is not ready. *)
Theorem C1_startRecording_fails_fast :
  forall s : Teleprompter.State,
    let view := Teleprompter.attached (Teleprompter.cameraRef s) in
    let cam := Teleprompter.granted (Teleprompter.hasCameraPermission s) in
    let mic := Teleprompter.granted (Teleprompter.hasAudioPermission s) in
    let lib := Teleprompter.granted (Teleprompter.hasMediaLibraryPermission s) in
    let rdy := Teleprompter.cameraReady s in
    let msgNoView := "Camera not ready"%string in
    let msgPermissions := "Camera and microphone permissions required"%string in
    let msgLibrary := "Media library permission required"%string in
    let msgNotReady :=
      "Camera is not ready. Please wait a moment and try again."%string in
    let message :=
      if negb view then msgNoView
      else if negb (cam && mic) then msgPermissions
      else if negb lib then msgLibrary
      else msgNotReady in
    view && cam && mic && lib && rdy = false ->
    (Teleprompter.startRecording s
     = (Teleprompter.alert "Error" message s, Teleprompter.Done)
     /\ Teleprompter.recordingStatus (fst (Teleprompter.startRecording s))
        = Teleprompter.recordingStatus s)
    /\ (msgPermissions <> msgLibrary
        /\ msgPermissions <> msgNotReady
        /\ msgLibrary <> msgNotReady)
    /\ (msgNoView <> msgPermissions
        /\ msgNoView <> msgLibrary
        /\ msgNoView <> msgNotReady).
Proof.
  intros s view cam mic lib rdy msgNoView msgPermissions msgLibrary
    msgNotReady message Hfail.
  split; [| split; repeat split; discriminate].
  subst message view cam mic lib rdy.
  unfold Teleprompter.startRecording.
  destruct (Teleprompter.attached (Teleprompter.cameraRef s));
    destruct (Teleprompter.granted (Teleprompter.hasCameraPermission s));
    destruct (Teleprompter.granted (Teleprompter.hasAudioPermission s));
    destruct (Teleprompter.granted (Teleprompter.hasMediaLibraryPermission s));
    destruct (Teleprompter.cameraReady s);
    try discriminate Hfail; split; reflexivity.
Qed.

(** C2 (as the code has it).  The reset runs when the screen gains focus:
    [recordingStatus] becomes idle, [isRecording] false, the elapsed time
    zero, [cameraKey] one more, [cameraReady] false, and the timer held by
    [recordingTimerRef] is cleared; every other timer stays in the table.
    A main view that renders next mounts the camera under the new key, and
    [cameraReady] stays false through any events until [onCameraReady].
    When the screen loses focus, nothing but the recording timer is
    cleared. *)
Theorem C2_focus_resets_recording :
  forall (s : Teleprompter.State) (es : list Teleprompter.Event),
    let s' := Teleprompter.onFocus s in
    (Teleprompter.recordingStatus s' = Teleprompter.idle
     /\ Teleprompter.isRecording s' = false
     /\ Teleprompter.recordingDuration s' = 0%Z
     /\ Teleprompter.cameraKey s' = (Teleprompter.cameraKey s + 1)%Z
     /\ Teleprompter.cameraReady s' = false
     /\ Teleprompter.recordingTimerRef s' = None)
    /\ (forall t, In t (Teleprompter.timers s') <->
                  In t (Teleprompter.timers s)
                  /\ Teleprompter.recordingTimerRef s
                     <> Some (Teleprompter.handle t))
    /\ (Teleprompter.render s = Teleprompter.MainView ->
        Teleprompter.cameraRef
          (Teleprompter.handle_event Teleprompter.FocusGained s)
        = Some (Teleprompter.mkCameraView (Teleprompter.cameraKey s + 1)))
    /\ (forallb (fun e => negb (Teleprompter.isCameraReady e)) es = true ->
        Teleprompter.cameraReady
          (Teleprompter.run (Teleprompter.FocusGained :: es) s) = false)
    /\ (Teleprompter.onBlur s
        = match Teleprompter.recordingTimerRef s with
          | Some h =>
              Teleprompter.set_recordingTimerRef None
                (Teleprompter.clearInterval h s)
          | None => s
          end
        /\ Teleprompter.recordingStatus (Teleprompter.onBlur s)
           = Teleprompter.recordingStatus s
        /\ Teleprompter.cameraKey (Teleprompter.onBlur s)
           = Teleprompter.cameraKey s
        /\ Teleprompter.cameraReady (Teleprompter.onBlur s)
           = Teleprompter.cameraReady s).
Proof.
  intros s es s'. subst s'.
  destruct (onFocus_cells s) as [Hst [Hrec [Hdur [Hkey [Hrdy [Href Hrender]]]]]].
  split; [| split; [| split; [| split]]].
  - repeat split; assumption.
  - intros t. unfold Teleprompter.onFocus, Teleprompter.clearInterval.
    cbn [Teleprompter.recordingTimerRef Teleprompter.set_cameraKey
         Teleprompter.set_recordingDuration Teleprompter.set_isRecording
         Teleprompter.set_recordingStatus Teleprompter.set_cameraReady].
    destruct (Teleprompter.recordingTimerRef s) as [h|] eqn:E.
    + cbn [Teleprompter.timers Teleprompter.set_recordingTimerRef
           Teleprompter.set_timers Teleprompter.set_cameraKey
           Teleprompter.set_recordingDuration Teleprompter.set_isRecording
           Teleprompter.set_recordingStatus Teleprompter.set_cameraReady].
      rewrite filter_In, negb_true_iff, N.eqb_neq.
      split; intros [H1 H2]; (split; [exact H1 | congruence]).
    + cbn [Teleprompter.timers Teleprompter.set_cameraKey
           Teleprompter.set_recordingDuration Teleprompter.set_isRecording
           Teleprompter.set_recordingStatus Teleprompter.set_cameraReady].
      split; [intros H; split; [exact H | discriminate] | intros [H _]; exact H].
  - intros Hr. unfold Teleprompter.handle_event.
    change (Teleprompter.react Teleprompter.FocusGained s)
      with (Teleprompter.onFocus s).
    rewrite commit_cameraRef by (rewrite Hrender; exact Hr).
    rewrite Hkey. reflexivity.
  - intros Hes. rewrite run_cons.
    apply cameraReady_run; [exact Hes|].
    unfold Teleprompter.handle_event. rewrite cameraReady_commit.
    exact Hrdy.
  - unfold Teleprompter.onBlur.
    destruct (Teleprompter.recordingTimerRef s); repeat split; reflexivity.
Qed.

(** C4.  When [recordAsync] hands over a video with a file handle, the
    session enters saving and waits for the store; what the store answers
    decides alone: saved when it accepts, error when it rejects.  Without a
    video, or with an empty handle, the session goes to error without
    asking the store. *)
Theorem C4_saving_outcome :
  forall (s s' : Teleprompter.State) (video : option Teleprompter.Video)
         (r : Teleprompter.Settled unit),
    let hasFile :=
      match video with
      | Some v => JS.truthy (Teleprompter.uri v)
      | None => false
      end in
    let recorded :=
      Teleprompter.startRecording_recorded (Teleprompter.Resolved video) s in
    let stored := Teleprompter.startRecording_saved r s' in
    (if hasFile
     then Teleprompter.recordingStatus (fst recorded) = Teleprompter.saving
          /\ exists v, video = Some v
                       /\ snd recorded
                          = Teleprompter.AwaitSaveToLibrary (Teleprompter.uri v)
     else Teleprompter.recordingStatus (fst recorded) = Teleprompter.error
          /\ snd recorded = Teleprompter.Done
          /\ In ("Error", "No video data was recorded")%string
               (Teleprompter.alerts (fst recorded)))
    /\ Teleprompter.recordingStatus (fst stored)
       = match r with
         | Teleprompter.Resolved _ => Teleprompter.saved
         | Teleprompter.Rejected _ => Teleprompter.error
         end
    /\ snd stored = Teleprompter.Done
    /\ (Teleprompter.recordingStatus (fst stored) = Teleprompter.saved
        <-> exists x, r = Teleprompter.Resolved x).
Proof.
  intros s s' video r hasFile recorded stored. subst hasFile recorded stored.
  split; [| split; [| split]].
  - unfold Teleprompter.startRecording_recorded.
    destruct video as [v|]; [destruct (JS.truthy (Teleprompter.uri v)) eqn:E|];
      simpl.
    + split.
      * unfold Teleprompter.stopRecordingTimer.
        destruct (Teleprompter.recordingTimerRef s); reflexivity.
      * exists v. split; reflexivity.
    + split; [reflexivity | split; [reflexivity|]].
      apply in_or_app. right. left. reflexivity.
    + split; [reflexivity | split; [reflexivity|]].
      apply in_or_app. right. left. reflexivity.
  - destruct r; reflexivity.
  - destruct r; reflexivity.
  - destruct r as [x | e]; simpl; split.
    + intros _. exists x. reflexivity.
    + reflexivity.
    + discriminate.
    + intros [x Hx]. discriminate.
Qed.

(** C6.  [resetScroll] is [stopAutoScroll] followed by a scroll to offset
    zero.  From any state it leaves [isScrolling] false and no scroll
    interval held, and the script, when it is on screen, at offset zero;
    on a well-formed session both stay so as time passes. *)
Theorem C6_resetScroll :
  forall s : Teleprompter.State,
    let s' := Teleprompter.resetScroll s in
    s' = Teleprompter.scrollTo 0 (Teleprompter.stopAutoScroll s)
    /\ Teleprompter.isScrolling s' = false
    /\ Teleprompter.scrollIntervalRef s' = None
    /\ Teleprompter.scrollOffset s'
       = option_map (fun _ => 0%Z) (Teleprompter.scrollOffset s)
    /\ (Teleprompter.mounted s = true ->
        Teleprompter.scrollOffset s' = Some 0%Z)
    /\ (Teleprompter.wf s = true ->
        forall n,
          Teleprompter.isScrolling (Teleprompter.advance n s') = false
          /\ Teleprompter.scrollOffset (Teleprompter.advance n s')
             = Teleprompter.scrollOffset s').
Proof.
  intros s s'.
  assert (Hnow : s' = Teleprompter.scrollTo 0 (Teleprompter.stopAutoScroll s))
    by reflexivity.
  assert (Hscr : Teleprompter.isScrolling s' = false).
  { subst s'. unfold Teleprompter.resetScroll, Teleprompter.stopAutoScroll,
      Teleprompter.scrollTo. simpl.
    destruct (Teleprompter.scrollIntervalRef s); simpl;
      destruct (Teleprompter.scrollViewRef s); reflexivity. }
  split; [exact Hnow|]. split; [exact Hscr|].
  split; [| split; [| split]].
  - subst s'. unfold Teleprompter.resetScroll, Teleprompter.stopAutoScroll,
      Teleprompter.scrollTo. simpl.
    destruct (Teleprompter.scrollIntervalRef s) eqn:Hi; simpl;
      destruct (Teleprompter.scrollViewRef s); simpl;
      rewrite ?Hi; reflexivity.
  - subst s'. unfold Teleprompter.resetScroll, Teleprompter.stopAutoScroll,
      Teleprompter.scrollTo, Teleprompter.scrollOffset. simpl.
    destruct (Teleprompter.scrollIntervalRef s); simpl;
      destruct (Teleprompter.scrollViewRef s) eqn:Hv; simpl;
      rewrite ?Hv; reflexivity.
  - subst s'. unfold Teleprompter.resetScroll, Teleprompter.stopAutoScroll,
      Teleprompter.scrollTo, Teleprompter.scrollOffset, Teleprompter.mounted.
    simpl. destruct (Teleprompter.render s); try discriminate.
    destruct (Teleprompter.scrollIntervalRef s); simpl;
      destruct (Teleprompter.scrollViewRef s) eqn:Hv; simpl;
      rewrite ?Hv; try discriminate; reflexivity.
  - intros Hwf n.
    assert (Hnone : Teleprompter.scrollTimers (Teleprompter.timers s') = []).
    { pose proof (stopAutoScroll_no_scrollTimers s Hwf) as H.
      rewrite Hnow. unfold Teleprompter.scrollTo.
      destruct (Teleprompter.scrollViewRef (Teleprompter.stopAutoScroll s));
        exact H. }
    destruct (advance_without_scrollTimers n s' Hnone) as [_ Hkeep].
    split.
    + rewrite advance_timed. exact Hscr.
    + unfold Teleprompter.scrollOffset. rewrite Hkeep. reflexivity.
Qed.

(** C7.  From a session whose settings are within bounds, as they are at
    mount, no sequence of events takes [scrollSpeed] out of [1, 10] or
    [fontSize] out of [16, 36]; at a bound, the button that would cross it
    changes nothing. *)
Theorem C7_settings_stay_in_bounds :
  forall (s : Teleprompter.State) (es : list Teleprompter.Event),
    Teleprompter.settingsInBounds s ->
    Teleprompter.settingsInBounds (Teleprompter.run es s)
    /\ (Teleprompter.scrollSpeed s = 1%Z -> Teleprompter.decreaseSpeed s = s)
    /\ (Teleprompter.scrollSpeed s = 10%Z -> Teleprompter.increaseSpeed s = s)
    /\ (Teleprompter.fontSize s = 16%Z -> Teleprompter.decreaseFont s = s)
    /\ (Teleprompter.fontSize s = 36%Z -> Teleprompter.increaseFont s = s).
Proof.
  intros s es Hb. split; [apply settingsInBounds_run; exact Hb|].
  unfold Teleprompter.decreaseSpeed, Teleprompter.increaseSpeed,
    Teleprompter.decreaseFont, Teleprompter.increaseFont.
  destruct s; simpl.
  repeat split; intros H; rewrite H; reflexivity.
Qed.

(** C3 (as the code has it).  An event after which the status is saved or
    error, and which changed the status or is one of the events whose
    handler assigns an outcome, clears [isRecording] and the elapsed time
    and arms the cool-down: 2000 ms later, with no event in between, the
    status is idle, and it is not idle earlier unless an older cool-down
    was still pending.  When a recording with a file handle is handed over,
    the session enters saving with the timers of the handle in
    [recordingTimerRef] cleared and with the elapsed time as it was last
    sampled; the elapsed time is set to zero when the store has answered.
    In a successful run that starts while no recording tick is in the timer
    table, with bystander events and time in between its steps: no
    recording tick is left in the table when the session enters saving, none
    appears while the store is awaited, the elapsed time keeps through that
    wait the value it had when the recording ended, and it is zero, with the
    status saved, when the store has answered. *)
Theorem C3_cooldown_then_idle :
  (forall (s : Teleprompter.State) (e : Teleprompter.Event),
      let s' := Teleprompter.handle_event e s in
      (Teleprompter.isTerminal (Teleprompter.recordingStatus s') = true ->
       Teleprompter.recordingStatus s' <> Teleprompter.recordingStatus s
       \/ Teleprompter.assignsOutcome e = true ->
       Teleprompter.recordingDuration s' = 0%Z
       /\ Teleprompter.isRecording s' = false
       /\ Teleprompter.recordingStatus (Teleprompter.advance 2000 s')
          = Teleprompter.idle
       /\ (Teleprompter.resetTimers (Teleprompter.timers s) = [] ->
           forall n, (n < 2000)%nat ->
                     Teleprompter.recordingStatus (Teleprompter.advance n s')
                     = Teleprompter.recordingStatus s'))
      /\ (forall v,
             e = Teleprompter.RecordSettled
                   (Teleprompter.Resolved (Some v)) ->
             JS.truthy (Teleprompter.uri v) = true ->
             Teleprompter.recordingStatus s' = Teleprompter.saving
             /\ Teleprompter.recordingDuration s'
                = Teleprompter.recordingDuration s
             /\ Teleprompter.recordingTimerRef s' = None
             /\ forall t, In t (Teleprompter.timers s') ->
                          Teleprompter.recordingTimerRef s
                          <> Some (Teleprompter.handle t))
      /\ (forall r,
             e = Teleprompter.SaveSettled r ->
             Teleprompter.recordingDuration s' = 0%Z
             /\ Teleprompter.isRecording s' = false))
  /\ (forall (s : Teleprompter.State) (es1 es2 : list Teleprompter.Event)
             (v : Teleprompter.Video),
         Teleprompter.canRecord s = true ->
         Teleprompter.recordingTimers (Teleprompter.timers s) = [] ->
         forallb Teleprompter.isBystander es1 = true ->
         forallb Teleprompter.isBystander es2 = true ->
         JS.truthy (Teleprompter.uri v) = true ->
         let recorded :=
           Teleprompter.run es1
             (Teleprompter.handle_event Teleprompter.PressRecord s) in
         let entering :=
           Teleprompter.handle_event
             (Teleprompter.RecordSettled (Teleprompter.Resolved (Some v)))
             recorded in
         let waiting := Teleprompter.run es2 entering in
         let answered :=
           Teleprompter.handle_event
             (Teleprompter.SaveSettled (Teleprompter.Resolved tt)) waiting in
         Teleprompter.recordingStatus entering = Teleprompter.saving
         /\ Teleprompter.recordingTimerRef entering = None
         /\ Teleprompter.recordingTimers (Teleprompter.timers entering) = []
         /\ Teleprompter.recordingTimers (Teleprompter.timers waiting) = []
         /\ Teleprompter.recordingDuration waiting
            = Teleprompter.recordingDuration recorded
         /\ Teleprompter.recordingDuration answered = 0%Z
         /\ Teleprompter.recordingStatus answered = Teleprompter.saved
         /\ Teleprompter.isRecording answered = false).
Proof.
  split.
  - intros s e s'. subst s'. split; [| split].
    + intros Hterm Hinto.
      assert (Hst : Teleprompter.recordingStatus (Teleprompter.handle_event e s)
                    = Teleprompter.recordingStatus (Teleprompter.react e s)).
      { unfold Teleprompter.handle_event. rewrite commit_refs. reflexivity. }
      assert (Harms : Teleprompter.ArmsCoolDown s (Teleprompter.react e s)).
      { destruct Hinto as [Hchanged | Hassigns].
        - rewrite Hst in Hterm, Hchanged.
          destruct (react_status_cases e s) as [H | [H | H]];
            [contradiction | congruence | exact H].
        - apply (assignsOutcome_arms e s Hassigns). }
      apply ArmsCoolDown_commit in Harms.
      fold (Teleprompter.handle_event e s) in Harms.
      destruct (ArmsCoolDown_idle _ _ Harms) as [Hidle Hwait].
      destruct Harms as [ts [h [_ [_ [_ [Hd Hrec]]]]]].
      repeat split; assumption.
    + intros v -> Hv. unfold Teleprompter.handle_event.
      rewrite commit_refs. simpl.
      unfold Teleprompter.startRecording_recorded. rewrite Hv. simpl.
      unfold Teleprompter.stopRecordingTimer, Teleprompter.clearInterval.
      destruct (Teleprompter.recordingTimerRef s) as [h|] eqn:E; simpl;
        repeat split; try reflexivity; try exact E.
      * intros t Hin. apply filter_In in Hin. destruct Hin as [_ Hh].
        apply negb_true_iff, N.eqb_neq in Hh. congruence.
      * intros t _. discriminate.
    + intros r ->. unfold Teleprompter.handle_event.
      rewrite commit_refs. simpl. destruct r; split; reflexivity.
  - intros s es1 es2 v Hcan Hnone Hes1 Hes2 Hv recorded entering waiting answered.
    assert (Hown : Teleprompter.ownsRecordingTimers recorded = true).
    { subst recorded. apply bystanders_owned; [exact Hes1|].
      unfold Teleprompter.handle_event. simpl Teleprompter.react.
      apply (ticksFrom_owned (fst (Teleprompter.startRecording s)));
        [| apply commit_recording | apply startRecording_owned; assumption].
      intros t' Hin Hk.
      rewrite (proj1 (proj2 (commit_recording _))) in Hin. exists t'. auto. }
    assert (Hreact : Teleprompter.react
                       (Teleprompter.RecordSettled
                          (Teleprompter.Resolved (Some v))) recorded
                     = Teleprompter.set_recordingStatus Teleprompter.saving
                         (Teleprompter.stopRecordingTimer recorded)).
    { simpl. unfold Teleprompter.startRecording_recorded. rewrite Hv.
      reflexivity. }
    destruct (stopRecordingTimer_stops recorded Hown) as [Hstopped Href].
    assert (Hdur : Teleprompter.recordingDuration
                     (Teleprompter.stopRecordingTimer recorded)
                   = Teleprompter.recordingDuration recorded).
    { unfold Teleprompter.stopRecordingTimer.
      destruct (Teleprompter.recordingTimerRef recorded); reflexivity. }
    destruct (commit_recording
                (Teleprompter.react
                   (Teleprompter.RecordSettled
                      (Teleprompter.Resolved (Some v))) recorded))
      as [Hc1 [Hc2 [Hc3 [Hc4 _]]]].
    fold (Teleprompter.handle_event
            (Teleprompter.RecordSettled (Teleprompter.Resolved (Some v)))
            recorded) in Hc1, Hc2, Hc3, Hc4.
    fold entering in Hc1, Hc2, Hc3, Hc4.
    rewrite Hreact in Hc1, Hc2, Hc3, Hc4. simpl in Hc1, Hc2, Hc3, Hc4.
    assert (Hnone' : Teleprompter.recordingTimers
                       (Teleprompter.timers entering) = [])
      by (rewrite Hc2; exact Hstopped).
    destruct (bystanders_idle_timer es2 entering Hes2 Hnone') as [Hw1 Hw2].
    fold waiting in Hw1, Hw2.
    split; [exact Hc4|]. split; [congruence|]. split; [exact Hnone'|].
    split; [exact Hw1|]. split; [congruence|].
    subst answered. unfold Teleprompter.handle_event.
    rewrite commit_refs. simpl. repeat split; reflexivity.
Qed.

(** C5 (as the code has it).  Within one run of the auto-scroll, started on
    a well-formed session with the script on screen: the offset does not
    move before the first tick, stands at the number of elapsed 50 ms ticks
    times the speed that [scrollSpeed] had at the start from then on, and
    so does not decrease; after [stopAutoScroll] it does not move any more,
    and it never moves while [isScrolling] is false. *)
Theorem C5_scroll_within_one_run :
  forall s : Teleprompter.State,
    Teleprompter.wf s = true ->
    Teleprompter.mounted s = true ->
    Teleprompter.isScrolling s = false ->
    (0 <= Teleprompter.scrollSpeed s)%Z ->
    let s1 := Teleprompter.startAutoScroll s in
    Teleprompter.isScrolling s1 = true
    /\ (forall n, (n < 50)%nat ->
                  Teleprompter.scrollOffset (Teleprompter.advance n s1)
                  = Teleprompter.scrollOffset s)
    /\ (forall n, (50 <= n)%nat ->
                  Teleprompter.scrollOffset (Teleprompter.advance n s1)
                  = Some (Z.of_nat n / 50 * Teleprompter.scrollSpeed s)%Z)
    /\ (forall n m, (50 <= n <= m)%nat ->
                    exists a b,
                      Teleprompter.scrollOffset (Teleprompter.advance n s1)
                      = Some a
                      /\ Teleprompter.scrollOffset (Teleprompter.advance m s1)
                         = Some b
                      /\ (a <= b)%Z)
    /\ (forall n m,
           let stopped :=
             Teleprompter.stopAutoScroll (Teleprompter.advance n s1) in
           Teleprompter.isScrolling stopped = false
           /\ Teleprompter.scrollOffset (Teleprompter.advance m stopped)
              = Teleprompter.scrollOffset (Teleprompter.advance n s1))
    /\ (forall m, Teleprompter.scrollOffset (Teleprompter.advance m s)
                  = Teleprompter.scrollOffset s).
Proof.
  intros s Hwf Hm Hidle Hv s1.
  assert (Hatt : Teleprompter.attached (Teleprompter.scrollViewRef s) = true
                 /\ Teleprompter.attached (Teleprompter.selectedScript s) = true).
  { unfold Teleprompter.mounted, Teleprompter.render in Hm.
    destruct (Teleprompter.hasCameraPermission s) as [[|]|];
      destruct (Teleprompter.hasAudioPermission s) as [[|]|];
      try discriminate;
      destruct (Teleprompter.selectedScript s); try discriminate.
    split; [exact Hm | reflexivity]. }
  destruct Hatt as [Hsv Hsel].
  pose proof (startAutoScroll_ScrollRun s Hwf Hidle Hsel Hsv) as Hrun.
  fold s1 in Hrun.
  assert (Hat : forall n,
             Teleprompter.scrollOffset (Teleprompter.advance n s1)
             = if (Z.of_nat n <? 50)%Z then Teleprompter.scrollOffset s
               else Some (Z.of_nat n / 50 * Teleprompter.scrollSpeed s)%Z).
  { intros n.
    destruct (ScrollRun_advance _ _ n 0 s1 (Z.le_refl 0) Hrun) as [_ [_ H]].
    exact H. }
  split; [| split; [| split; [| split; [| split]]]].
  - subst s1. unfold Teleprompter.startAutoScroll. rewrite Hsel, Hidle.
    reflexivity.
  - intros n Hn. rewrite Hat.
    assert (E : (Z.of_nat n <? 50)%Z = true) by (apply Z.ltb_lt; lia).
    rewrite E. reflexivity.
  - intros n Hn. rewrite Hat.
    assert (E : (Z.of_nat n <? 50)%Z = false) by (apply Z.ltb_ge; lia).
    rewrite E. reflexivity.
  - intros n m [Hn Hnm]. rewrite !Hat.
    assert (E1 : (Z.of_nat n <? 50)%Z = false) by (apply Z.ltb_ge; lia).
    assert (E2 : (Z.of_nat m <? 50)%Z = false) by (apply Z.ltb_ge; lia).
    rewrite E1, E2. eexists. eexists. split; [reflexivity|].
    split; [reflexivity|].
    apply Z.mul_le_mono_nonneg_r; [exact Hv|].
    apply Z.div_le_mono; lia.
  - intros n m stopped.
    assert (Hwfn : Teleprompter.wf (Teleprompter.advance n s1) = true).
    { apply wf_advance. subst s1. apply wf_startAutoScroll. exact Hwf. }
    pose proof (stopAutoScroll_no_scrollTimers _ Hwfn) as Hnone.
    fold stopped in Hnone.
    destruct (advance_without_scrollTimers m stopped Hnone) as [_ Hkeep].
    split.
    + subst stopped. unfold Teleprompter.stopAutoScroll. simpl.
      destruct (Teleprompter.scrollIntervalRef (Teleprompter.advance n s1));
        reflexivity.
    + unfold Teleprompter.scrollOffset. rewrite Hkeep.
      subst stopped. unfold Teleprompter.stopAutoScroll. simpl.
      destruct (Teleprompter.scrollIntervalRef (Teleprompter.advance n s1));
        reflexivity.
  - intros m.
    pose proof (wf_no_scrollTimers s Hwf (wf_idle_ref s Hwf Hidle)) as Hnone.
    destruct (advance_without_scrollTimers m s Hnone) as [_ Hkeep].
    unfold Teleprompter.scrollOffset. rewrite Hkeep. reflexivity.
Qed.

(** C9.  [startAutoScroll] hands the interval a closure that starts from
    position zero and adds the speed that [scrollSpeed] had at that moment.
    Whatever presses of the setting buttons follow, and however the time
    that passes is divided among them, the script stays where it was until
    the first tick and then stands at the number of elapsed ticks times the
    captured speed, and the closure still adds the captured speed. *)
Theorem C9_speed_captured_at_start :
  forall (s : Teleprompter.State) (es : list Teleprompter.Event),
    Teleprompter.wf s = true ->
    Teleprompter.mounted s = true ->
    Teleprompter.isScrolling s = false ->
    forallb Teleprompter.isSettingOrElapse es = true ->
    let started := Teleprompter.handle_event Teleprompter.PressPlay s in
    let later := Teleprompter.run es started in
    let ticks := (Teleprompter.elapsed es / 50)%Z in
    (exists h,
        Teleprompter.scrollTimers (Teleprompter.timers started)
        = [Teleprompter.mkTimer h (Teleprompter.now s + 50)%Z (Some 50%Z)
             (Teleprompter.ScrollTick 0 (Teleprompter.scrollSpeed s))])
    /\ Teleprompter.isScrolling later = true
    /\ (exists h due,
           Teleprompter.scrollTimers (Teleprompter.timers later)
           = [Teleprompter.mkTimer h due (Some 50%Z)
                (Teleprompter.ScrollTick
                   (ticks * Teleprompter.scrollSpeed s)%Z
                   (Teleprompter.scrollSpeed s))])
    /\ Teleprompter.scrollOffset later
       = if (Teleprompter.elapsed es <? 50)%Z
         then Teleprompter.scrollOffset s
         else Some (ticks * Teleprompter.scrollSpeed s)%Z.
Proof.
  intros s es Hwf Hm Hidle Hes started later ticks.
  assert (Hatt : Teleprompter.attached (Teleprompter.scrollViewRef s) = true
                 /\ Teleprompter.attached (Teleprompter.selectedScript s) = true
                 /\ Teleprompter.render s = Teleprompter.MainView).
  { unfold Teleprompter.mounted in Hm.
    destruct (Teleprompter.render s) eqn:Hr; try discriminate.
    split; [exact Hm|]. split; [|reflexivity].
    unfold Teleprompter.render in Hr.
    destruct (Teleprompter.hasCameraPermission s) as [[|]|];
      destruct (Teleprompter.hasAudioPermission s) as [[|]|];
      try discriminate;
      destruct (Teleprompter.selectedScript s); try discriminate.
    reflexivity. }
  destruct Hatt as [Hsv [Hsel Hr]].
  pose proof (startAutoScroll_ScrollRun s Hwf Hidle Hsel Hsv) as Hrun.
  assert (Hstart : Teleprompter.startAutoScroll s
                   = Teleprompter.react Teleprompter.PressPlay s)
    by reflexivity.
  assert (Hr1 : Teleprompter.render (Teleprompter.startAutoScroll s)
                = Teleprompter.MainView).
  { unfold Teleprompter.startAutoScroll. rewrite Hsel, Hidle. exact Hr. }
  assert (Hm1 : Teleprompter.mounted (Teleprompter.startAutoScroll s) = true).
  { unfold Teleprompter.mounted. rewrite Hr1. apply Hrun. }
  assert (Hstarted : started
                     = Teleprompter.set_cameraRef
                         (Some (Teleprompter.mkCameraView
                                  (Teleprompter.cameraKey
                                     (Teleprompter.startAutoScroll s))))
                         (Teleprompter.startAutoScroll s)).
  { subst started. unfold Teleprompter.handle_event. rewrite <- Hstart.
    apply commit_mounted. exact Hm1. }
  assert (Hrun1 : Teleprompter.ScrollRun (Teleprompter.scrollSpeed s)
                    (Teleprompter.scrollOffset s) 0 started).
  { rewrite Hstarted. apply ScrollRun_set_cameraRef. exact Hrun. }
  assert (Hrs : Teleprompter.render started = Teleprompter.MainView).
  { rewrite Hstarted. exact Hr1. }
  pose proof (ScrollRun_run _ _ es 0 started (Z.le_refl 0) Hes Hrs Hrun1)
    as Hlater.
  fold later in Hlater. rewrite Z.add_0_l in Hlater.
  split; [| split; [| split]].
  - destruct Hrun1 as [[h Hh] _]. exists h. rewrite Hh.
    assert (Hnow : Teleprompter.now started = Teleprompter.now s).
    { rewrite Hstarted. unfold Teleprompter.startAutoScroll.
      rewrite Hsel, Hidle. reflexivity. }
    rewrite Hnow. reflexivity.
  - subst later. rewrite (isScrolling_run_settings es started Hes).
    rewrite Hstarted. unfold Teleprompter.startAutoScroll.
    rewrite Hsel, Hidle. reflexivity.
  - destruct Hlater as [[h Hh] _]. exists h. eexists. exact Hh.
  - apply Hlater.
Qed.

(** ** The claims on the sample sessions *)

(** A recording that the camera ends at its limit of sixty seconds: the
    session records, saves, shows saved, and is idle two seconds later. *)
Example recording_to_the_limit :
  let recorded :=
    Teleprompter.run [Teleprompter.PressRecord; Teleprompter.Elapse (60 * 1000)]
      Examples.ready in
  let handed :=
    Teleprompter.run
      [Teleprompter.RecordSettled (Teleprompter.Resolved (Some Examples.clip))]
      recorded in
  let stored :=
    Teleprompter.run [Teleprompter.SaveSettled (Teleprompter.Resolved tt)]
      handed in
  Teleprompter.recordingStatus Examples.ready = Teleprompter.idle
  /\ Teleprompter.recordingStatus recorded = Teleprompter.recording
  /\ Teleprompter.recordingDuration recorded = 60000%Z
  /\ Teleprompter.recordingStatus handed = Teleprompter.saving
  /\ Teleprompter.recordingStatus stored = Teleprompter.saved
  /\ Teleprompter.recordingStatus
       (Teleprompter.run [Teleprompter.Elapse 1999] stored)
     = Teleprompter.saved
  /\ Teleprompter.recordingStatus
       (Teleprompter.run [Teleprompter.Elapse 2000] stored)
     = Teleprompter.idle.
Proof. vm_compute. repeat split. Qed.

(** A recording started over a running tick: the tick of the earlier
    recording is out of reach of [stopRecordingTimer], stays in the table
    when the session enters saving and moves the elapsed time during the
    wait for the store. *)
Example recording_over_a_running_tick :
  Teleprompter.recordingStatus Examples.overlapping = Teleprompter.saving
  /\ Teleprompter.recordingTimerRef Examples.overlapping = None
  /\ Teleprompter.recordingTimers (Teleprompter.timers Examples.overlapping)
     <> []
  /\ Teleprompter.recordingDuration Examples.overlapping = 100%Z
  /\ Teleprompter.recordingDuration
       (Teleprompter.advance 100 Examples.overlapping) = 200%Z.
Proof. vm_compute. repeat split; discriminate. Qed.

(** The camera alone denied and the microphone alone denied are told to the
    user in the same words. *)
Lemma C1_counterexample :
  (Teleprompter.granted (Teleprompter.hasCameraPermission Examples.cameraDenied)
   = false
   /\ Teleprompter.granted
        (Teleprompter.hasAudioPermission Examples.cameraDenied) = true)
  /\ (Teleprompter.granted
        (Teleprompter.hasCameraPermission Examples.microphoneDenied) = true
      /\ Teleprompter.granted
           (Teleprompter.hasAudioPermission Examples.microphoneDenied) = false)
  /\ Teleprompter.alerts (fst (Teleprompter.startRecording Examples.cameraDenied))
     = Teleprompter.alerts
         (fst (Teleprompter.startRecording Examples.microphoneDenied)).
Proof. vm_compute. repeat split. Qed.

Lemma C1_witness :
  Teleprompter.attached (Teleprompter.cameraRef Examples.cameraDenied)
  && Teleprompter.granted (Teleprompter.hasCameraPermission Examples.cameraDenied)
  && Teleprompter.granted (Teleprompter.hasAudioPermission Examples.cameraDenied)
  && Teleprompter.granted
       (Teleprompter.hasMediaLibraryPermission Examples.cameraDenied)
  && Teleprompter.cameraReady Examples.cameraDenied = false
  /\ Teleprompter.startRecording Examples.cameraDenied
     = (Teleprompter.alert "Error" "Camera and microphone permissions required"
          Examples.cameraDenied,
        Teleprompter.Done).
Proof.
  split; [reflexivity|].
  destruct (C1_startRecording_fails_fast Examples.cameraDenied eq_refl)
    as [[H _] _].
  exact H.
Defined.

(** Focus gained while recording and scrolling: the scroll interval stays in
    the table and goes on moving the script; focus lost: the status is
    still recording. *)
Lemma C2_counterexample :
  Teleprompter.recordingStatus Examples.recordingAndScrolling
  = Teleprompter.recording
  /\ Teleprompter.scrollTimers
       (Teleprompter.timers
          (Teleprompter.onFocus Examples.recordingAndScrolling))
     <> []
  /\ Teleprompter.scrollOffset
       (Teleprompter.advance 50
          (Teleprompter.onFocus Examples.recordingAndScrolling))
     <> Teleprompter.scrollOffset
          (Teleprompter.onFocus Examples.recordingAndScrolling)
  /\ Teleprompter.recordingStatus
       (Teleprompter.onBlur Examples.recordingAndScrolling)
     = Teleprompter.recording.
Proof. vm_compute. repeat split; discriminate. Qed.

Lemma C2_witness :
  Teleprompter.render Examples.recordingAndScrolling = Teleprompter.MainView
  /\ Teleprompter.cameraRef
       (Teleprompter.handle_event Teleprompter.FocusGained
          Examples.recordingAndScrolling)
     = Some (Teleprompter.mkCameraView 2)
  /\ Teleprompter.cameraReady
       (Teleprompter.run
          [Teleprompter.FocusGained; Teleprompter.PressRecord;
           Teleprompter.Elapse 30]
          Examples.recordingAndScrolling)
     = false.
Proof.
  destruct (C2_focus_resets_recording Examples.recordingAndScrolling
              [Teleprompter.PressRecord; Teleprompter.Elapse 30])
    as [_ [_ [Hkey [Hready _]]]].
  split; [reflexivity|].
  split; [exact (Hkey eq_refl) | exact (Hready eq_refl)].
Defined.

(** The session enters saving with 200 ms on the elapsed-time cell. *)
Lemma C3_counterexample :
  Teleprompter.recordingStatus Examples.enteringSaving = Teleprompter.saving
  /\ Teleprompter.recordingDuration Examples.enteringSaving = 200%Z
  /\ Teleprompter.recordingDuration Examples.enteringSaving <> 0%Z.
Proof. vm_compute. repeat split; discriminate. Qed.

Lemma C3_witness :
  Teleprompter.isTerminal
    (Teleprompter.recordingStatus
       (Teleprompter.handle_event
          (Teleprompter.SaveSettled (Teleprompter.Resolved tt))
          Examples.enteringSaving)) = true
  /\ Teleprompter.recordingStatus
       (Teleprompter.handle_event
          (Teleprompter.SaveSettled (Teleprompter.Resolved tt))
          Examples.enteringSaving)
     <> Teleprompter.recordingStatus Examples.enteringSaving
  /\ Teleprompter.recordingStatus
       (Teleprompter.advance 2000
          (Teleprompter.handle_event
             (Teleprompter.SaveSettled (Teleprompter.Resolved tt))
             Examples.enteringSaving))
     = Teleprompter.idle
  /\ Teleprompter.canRecord Examples.ready = true
  /\ Teleprompter.recordingTimers (Teleprompter.timers Examples.ready) = []
  /\ Teleprompter.recordingTimers
       (Teleprompter.timers
          (Teleprompter.run [Teleprompter.PressSpeedUp; Teleprompter.Elapse 340]
             (Teleprompter.handle_event
                (Teleprompter.RecordSettled
                   (Teleprompter.Resolved (Some Examples.clip)))
                (Teleprompter.run
                   [Teleprompter.Elapse 250; Teleprompter.PressStop]
                   (Teleprompter.handle_event Teleprompter.PressRecord
                      Examples.ready))))) = []
  /\ Teleprompter.recordingDuration
       (Teleprompter.run [Teleprompter.PressSpeedUp; Teleprompter.Elapse 340]
          (Teleprompter.handle_event
             (Teleprompter.RecordSettled
                (Teleprompter.Resolved (Some Examples.clip)))
             (Teleprompter.run
                [Teleprompter.Elapse 250; Teleprompter.PressStop]
                (Teleprompter.handle_event Teleprompter.PressRecord
                   Examples.ready))))
     = 200%Z.
Proof.
  assert (Hterm : Teleprompter.isTerminal
                    (Teleprompter.recordingStatus
                       (Teleprompter.handle_event
                          (Teleprompter.SaveSettled (Teleprompter.Resolved tt))
                          Examples.enteringSaving)) = true)
    by (vm_compute; reflexivity).
  assert (Hinto : Teleprompter.recordingStatus
                    (Teleprompter.handle_event
                       (Teleprompter.SaveSettled (Teleprompter.Resolved tt))
                       Examples.enteringSaving)
                  <> Teleprompter.recordingStatus Examples.enteringSaving)
    by (vm_compute; discriminate).
  assert (Hcan : Teleprompter.canRecord Examples.ready = true)
    by (vm_compute; reflexivity).
  assert (Hnone : Teleprompter.recordingTimers
                    (Teleprompter.timers Examples.ready) = [])
    by (vm_compute; reflexivity).
  assert (Hlast : Teleprompter.recordingDuration
                    (Teleprompter.run
                       [Teleprompter.Elapse 250; Teleprompter.PressStop]
                       (Teleprompter.handle_event Teleprompter.PressRecord
                          Examples.ready))
                  = 200%Z)
    by (vm_compute; reflexivity).
  destruct C3_cooldown_then_idle as [Hevent Hrun].
  destruct (Hevent Examples.enteringSaving
              (Teleprompter.SaveSettled (Teleprompter.Resolved tt)))
    as [Harm _].
  destruct (Harm Hterm (or_introl Hinto)) as [_ [_ [Hidle _]]].
  destruct (Hrun Examples.ready
              [Teleprompter.Elapse 250; Teleprompter.PressStop]
              [Teleprompter.PressSpeedUp; Teleprompter.Elapse 340]
              Examples.clip Hcan Hnone eq_refl eq_refl eq_refl)
    as [_ [_ [_ [Hquiet [Hkept _]]]]].
  split; [exact Hterm|]. split; [exact Hinto|]. split; [exact Hidle|].
  split; [exact Hcan|]. split; [exact Hnone|]. split; [exact Hquiet|].
  etransitivity; [exact Hkept | exact Hlast].
Defined.

Lemma C4_witness :
  Teleprompter.recordingStatus
    (fst (Teleprompter.startRecording_saved (Teleprompter.Resolved tt)
            Examples.enteringSaving))
  = Teleprompter.saved.
Proof.
  destruct (C4_saving_outcome Examples.ready Examples.enteringSaving
              (Some Examples.clip) (Teleprompter.Resolved tt))
    as [_ [_ [_ [_ H]]]].
  apply H. exists tt. reflexivity.
Defined.

(** Pause and resume: the script, which stood at offset 6, is taken back to
    offset 2 by the first tick of the new run. *)
Lemma C5_counterexample :
  Teleprompter.scrollOffset Examples.paused = Some 6%Z
  /\ Teleprompter.scrollOffset
       (Teleprompter.run [Teleprompter.PressPlay; Teleprompter.Elapse 50]
          Examples.paused)
     = Some 2%Z.
Proof. vm_compute. split; reflexivity. Qed.

Lemma C5_witness :
  Teleprompter.wf Examples.ready = true
  /\ Teleprompter.mounted Examples.ready = true
  /\ Teleprompter.isScrolling Examples.ready = false
  /\ (0 <= Teleprompter.scrollSpeed Examples.ready)%Z
  /\ Teleprompter.scrollOffset
       (Teleprompter.advance 170
          (Teleprompter.startAutoScroll Examples.ready))
     = Some (Z.of_nat 170 / 50 * Teleprompter.scrollSpeed Examples.ready)%Z.
Proof.
  assert (Hv : (0 <= Teleprompter.scrollSpeed Examples.ready)%Z)
    by (vm_compute; discriminate).
  destruct (C5_scroll_within_one_run Examples.ready eq_refl eq_refl eq_refl Hv)
    as [_ [_ [H _]]].
  split; [reflexivity|]. split; [reflexivity|]. split; [reflexivity|].
  split; [exact Hv|].
  apply H. repeat constructor.
Defined.

Lemma C6_witness :
  Teleprompter.mounted Examples.recordingAndScrolling = true
  /\ Teleprompter.wf Examples.recordingAndScrolling = true
  /\ Teleprompter.scrollOffset
       (Teleprompter.resetScroll Examples.recordingAndScrolling)
     = Some 0%Z
  /\ Teleprompter.scrollOffset
       (Teleprompter.advance 500
          (Teleprompter.resetScroll Examples.recordingAndScrolling))
     = Teleprompter.scrollOffset
         (Teleprompter.resetScroll Examples.recordingAndScrolling).
Proof.
  assert (Hm : Teleprompter.mounted Examples.recordingAndScrolling = true)
    by (vm_compute; reflexivity).
  assert (Hwf : Teleprompter.wf Examples.recordingAndScrolling = true)
    by (vm_compute; reflexivity).
  destruct (C6_resetScroll Examples.recordingAndScrolling)
    as [_ [_ [_ [_ [Hzero Hstay]]]]].
  split; [exact Hm|]. split; [exact Hwf|].
  split; [exact (Hzero Hm)|].
  destruct (Hstay Hwf 500%nat) as [_ H]. exact H.
Defined.

Lemma C7_witness :
  Teleprompter.settingsInBounds (Teleprompter.initialState 0)
  /\ Teleprompter.settingsInBounds
       (Teleprompter.run
          [Teleprompter.PressSpeedDown; Teleprompter.PressSpeedDown;
           Teleprompter.PressFontUp; Teleprompter.Elapse 5]
          (Teleprompter.initialState 0)).
Proof.
  assert (H0 : Teleprompter.settingsInBounds (Teleprompter.initialState 0))
    by (unfold Teleprompter.settingsInBounds; simpl; lia).
  split; [exact H0|].
  destruct (C7_settings_stay_in_bounds (Teleprompter.initialState 0)
              [Teleprompter.PressSpeedDown; Teleprompter.PressSpeedDown;
               Teleprompter.PressFontUp; Teleprompter.Elapse 5] H0)
    as [H _].
  exact H.
Defined.

Lemma C8_witness :
  JS.truthy (JS.trim (ScriptsScreen.title Examples.editingStale)) = true
  /\ JS.truthy (JS.trim (ScriptsScreen.content Examples.editingStale)) = true
  /\ exists new,
       nth_error
         (ScriptsScreen.scripts
            (ScriptsScreen.saveScript [] 0 true Examples.editingStale)) 1
       = Some new
       /\ Script.content new = ScriptsScreen.content Examples.editingStale
       /\ Script.wordCount new = 4%Z.
Proof.
  split; [reflexivity|]. split; [reflexivity|].
  destruct (C8_wordCount_recomputed_at_save [] 0%N Examples.editingStale
              eq_refl eq_refl) as [_ [_ H]].
  exact (H 1%nat Examples.stale eq_refl eq_refl).
Defined.

Lemma C9_witness :
  Teleprompter.wf Examples.paused = true
  /\ Teleprompter.mounted Examples.paused = true
  /\ Teleprompter.isScrolling Examples.paused = false
  /\ Teleprompter.scrollOffset Examples.paused = Some 6%Z
  /\ Teleprompter.scrollSpeed
       (Teleprompter.run
          [Teleprompter.PressSpeedUp; Teleprompter.Elapse 70;
           Teleprompter.PressSpeedUp; Teleprompter.Elapse 30]
          (Teleprompter.handle_event Teleprompter.PressPlay Examples.paused))
     = 4%Z
  /\ Teleprompter.scrollOffset
       (Teleprompter.run
          [Teleprompter.PressSpeedUp; Teleprompter.Elapse 70;
           Teleprompter.PressSpeedUp; Teleprompter.Elapse 30]
          (Teleprompter.handle_event Teleprompter.PressPlay Examples.paused))
     = Some 4%Z.
Proof.
  assert (Hwf : Teleprompter.wf Examples.paused = true)
    by (vm_compute; reflexivity).
  assert (Hm : Teleprompter.mounted Examples.paused = true)
    by (vm_compute; reflexivity).
  assert (Hi : Teleprompter.isScrolling Examples.paused = false)
    by (vm_compute; reflexivity).
  split; [exact Hwf|]. split; [exact Hm|]. split; [exact Hi|].
  split; [vm_compute; reflexivity|].
  split; [vm_compute; reflexivity|].
  destruct (C9_speed_captured_at_start Examples.paused
              [Teleprompter.PressSpeedUp; Teleprompter.Elapse 70;
               Teleprompter.PressSpeedUp; Teleprompter.Elapse 30]
              Hwf Hm Hi eq_refl)
    as [_ [_ [_ H]]].
  etransitivity; [exact H|]. vm_compute. reflexivity.
Defined.

(** Two scripts created at one reading of the clock share the id 42: saving
    an edit of the second one rewrites the first one as well. *)
Lemma C10_counterexample :
  ScriptsScreen.scripts Examples.twins = [Examples.twinA; Examples.twinB]
  /\ ScriptsScreen.editingScript Examples.editingTwin = Some Examples.twinB
  /\ nth_error
       (ScriptsScreen.scripts
          (ScriptsScreen.saveScript [] 0 true Examples.editingTwin)) 0
     = Some (Script.mk (JS.lit "42") (JS.lit "B2") (JS.lit "second")
               (JS.lit "2024-04-04T00:00:00.000Z") 1)
  /\ nth_error
       (ScriptsScreen.scripts
          (ScriptsScreen.saveScript [] 0 true Examples.editingTwin)) 0
     <> Some Examples.twinA.
Proof. vm_compute. repeat split; discriminate. Qed.

Lemma C10_witness :
  ScriptsScreen.editingScript Examples.editingStale = Some Examples.stale
  /\ exists new,
       nth_error
         (ScriptsScreen.scripts
            (ScriptsScreen.saveScript [] 0 true Examples.editingStale)) 0
       = Some new
       /\ Script.id new = Script.id Examples.intro
       /\ Script.createdAt new = Script.createdAt Examples.intro
       /\ (Script.id Examples.intro <> Script.id Examples.stale ->
           new = Examples.intro).
Proof.
  split; [reflexivity|].
  destruct (C10_edit_preserves_identity_and_others [] 0%N true
              Examples.editingStale Examples.stale eq_refl)
    as [_ [_ [_ [H _]]]].
  exact (H 0%nat Examples.intro eq_refl).
Defined.

(** ** The script editor: the other handlers *)

Section ScriptsScreenMore.
Import JS ScriptsScreen.

Lemma trimStart_blank (s : jsstring) : blank s -> trimStart s = [].
Proof.
  intros H. induction H as [|c rest Hc _ IH]; simpl; [reflexivity|].
  rewrite Hc. exact IH.
Qed.

(** [s.trim()] is empty exactly for a blank text. *)
Lemma trim_blank (s : jsstring) : truthy (trim s) = false <-> blank s.
Proof.
  split.
  - intros H. destruct (trim s) eqn:E; [|discriminate]. unfold trim in E.
    destruct (trimEnd_split (trimStart s)) as [ws2 [H2 Hws2]].
    destruct (trimStart_split s) as [ws1 [H1 Hws1]].
    rewrite E in H2. simpl in H2. rewrite H1, H2.
    apply Forall_app. split; assumption.
  - intros H. unfold trim. rewrite (trimStart_blank s H). reflexivity.
Qed.

Lemma count_words_from_le (b : bool) (s : jsstring) :
  (count_words_from b s <= List.length s)%nat.
Proof.
  revert b. induction s as [|c rest IH]; intros b; simpl; [lia|].
  destruct (isWhiteSpace c).
  - specialize (IH true). lia.
  - specialize (IH false). destruct b; lia.
Qed.

Lemma split_from_nonempty (piece : jsstring) (b : bool) (s : jsstring) :
  (1 <= List.length (split_from piece b s))%nat.
Proof.
  revert piece b. induction s as [|c rest IH]; intros piece b; simpl; [lia|].
  destruct (isWhiteSpace c); [destruct b|]; simpl; try apply IH. lia.
Qed.

Lemma count_words_positive (s : jsstring) :
  truthy (trim s) = true -> (1 <= count_words s)%nat.
Proof.
  intros H. rewrite <- (split_trim_count_words s H).
  apply split_from_nonempty.
Qed.

Lemma digits_inj (d1 d2 : Decimal.uint) : digits d1 = digits d2 -> d1 = d2.
Proof.
  revert d2. induction d1; intros d2 H; destruct d2; simpl in H;
    try discriminate; try reflexivity;
    injection H as H; f_equal; apply IHd1; exact H.
Qed.

(** Different numbers print differently. *)
Lemma toString_inj (n m : N) : toString n = toString m -> n = m.
Proof.
  unfold toString. intros H. apply digits_inj in H.
  rewrite <- (DecimalN.Unsigned.of_to n), <- (DecimalN.Unsigned.of_to m), H.
  reflexivity.
Qed.

Lemma closeModal_scripts (s : State) :
  scripts (closeModal s) = scripts s
  /\ teleprompter_scripts (closeModal s) = teleprompter_scripts s.
Proof. split; reflexivity. Qed.

Lemma saveScript_unfold (nowISO : jsstring) (nowMs : N) (ok : bool) (s : State) :
  truthy (trim (title s)) = true ->
  truthy (trim (content s)) = true ->
  saveScript nowISO nowMs ok s
  = closeModal
      (saveScripts ok
         (match editingScript s with
          | Some editing =>
              map (fun script =>
                     if jsstring_eqb (Script.id script) (Script.id editing)
                     then withEdits script (title s) (content s)
                            (Z.of_nat (List.length (split_ws (trim (content s)))))
                     else script)
                  (scripts s)
          | None =>
              scripts s
              ++ [Script.mk (toString nowMs) (title s) (content s) nowISO
                    (Z.of_nat (List.length (split_ws (trim (content s)))))]
          end) s).
Proof.
  intros Ht Hc. unfold saveScript. rewrite Ht, Hc. simpl.
  destruct (editingScript s); reflexivity.
Qed.

Lemma saveScripts_alerts (ok : bool) (l : list Script.t) (s : State) :
  alerts (closeModal (saveScripts ok l s)) = alerts s.
Proof. destruct ok; reflexivity. Qed.

Lemma NoDup_map_of_injective {A B : Type} (f : A -> B) (l : list A) :
  (forall a b, f a = f b -> a = b) -> NoDup l -> NoDup (map f l).
Proof.
  intros Hinj Hnd. induction Hnd as [|a rest Hnotin _ IH]; simpl;
    constructor; [|exact IH].
  intros Hin. apply in_map_iff in Hin. destruct Hin as [b [Hb Hin]].
  apply Hinj in Hb. subst b. contradiction.
Qed.

End ScriptsScreenMore.

(** X1.  The save is refused exactly when the title or the content is blank
    (empty or white space only): it then shows the alert "Please enter both
    title and content" and leaves the list, the store, the editor and the
    typed text as they are. *)
Theorem blank_form_is_refused :
  forall (nowISO : JS.jsstring) (nowMs : N) (setItemOk : bool)
         (s : ScriptsScreen.State),
    ScriptsScreen.blank (ScriptsScreen.title s)
    \/ ScriptsScreen.blank (ScriptsScreen.content s)
    <-> ScriptsScreen.saveScript nowISO nowMs setItemOk s
        = ScriptsScreen.mkState (ScriptsScreen.scripts s)
            (ScriptsScreen.modalVisible s) (ScriptsScreen.editingScript s)
            (ScriptsScreen.title s) (ScriptsScreen.content s)
            (ScriptsScreen.teleprompter_scripts s)
            (ScriptsScreen.alerts s
             ++ [("Error", "Please enter both title and content")%string]).
Proof.
  intros nowISO nowMs ok s.
  destruct (JS.truthy (JS.trim (ScriptsScreen.title s))) eqn:Ht;
    [destruct (JS.truthy (JS.trim (ScriptsScreen.content s))) eqn:Hc|].
  - split.
    + intros [H | H]; apply trim_blank in H; congruence.
    + intros H. exfalso.
      apply (f_equal ScriptsScreen.alerts) in H.
      rewrite (saveScript_unfold nowISO nowMs ok s Ht Hc) in H.
      rewrite saveScripts_alerts in H. simpl in H.
      apply (f_equal (@List.length _)) in H. rewrite length_app in H.
      simpl in H. lia.
  - split; [intros _ | intros _; right; apply trim_blank; exact Hc].
    unfold ScriptsScreen.saveScript. rewrite Ht, Hc. reflexivity.
  - split; [intros _ | intros _; left; apply trim_blank; exact Ht].
    unfold ScriptsScreen.saveScript. rewrite Ht. reflexivity.
Qed.

(** X2.  When the store rejects the write of a save whose form is not blank,
    nothing is saved and nothing is shown, yet the editor closes and the
    typed title and content are cleared. *)
Theorem rejected_save_clears_the_form :
  forall (nowISO : JS.jsstring) (nowMs : N) (s : ScriptsScreen.State),
    ~ ScriptsScreen.blank (ScriptsScreen.title s) ->
    ~ ScriptsScreen.blank (ScriptsScreen.content s) ->
    ScriptsScreen.saveScript nowISO nowMs false s
    = ScriptsScreen.mkState (ScriptsScreen.scripts s) false None [] []
        (ScriptsScreen.teleprompter_scripts s) (ScriptsScreen.alerts s).
Proof.
  intros nowISO nowMs s Ht Hc.
  assert (Ht' : JS.truthy (JS.trim (ScriptsScreen.title s)) = true).
  { destruct (JS.truthy (JS.trim (ScriptsScreen.title s))) eqn:E;
      [reflexivity|]. exfalso. apply Ht, trim_blank, E. }
  assert (Hc' : JS.truthy (JS.trim (ScriptsScreen.content s)) = true).
  { destruct (JS.truthy (JS.trim (ScriptsScreen.content s))) eqn:E;
      [reflexivity|]. exfalso. apply Hc, trim_blank, E. }
  rewrite (saveScript_unfold nowISO nowMs false s Ht' Hc'). reflexivity.
Qed.

(** X3.  A confirmed delete that the store accepts leaves the scripts of any
    other id, in their order, and none of that id; the store holds the new
    list.  Deleting an id that is not in the list changes no script,
    deleting twice is deleting once, and a delete that the store rejects
    changes nothing.  The editor and the alerts are never touched. *)
Theorem deleteScript_removes_by_id :
  forall (scriptId : JS.jsstring) (s : ScriptsScreen.State),
    let s' := ScriptsScreen.deleteScript true scriptId s in
    (forall script,
        In script (ScriptsScreen.scripts s')
        <-> In script (ScriptsScreen.scripts s) /\ Script.id script <> scriptId)
    /\ ScriptsScreen.scripts s'
       = filter (fun script =>
                   negb (JS.jsstring_eqb (Script.id script) scriptId))
           (ScriptsScreen.scripts s)
    /\ ScriptsScreen.teleprompter_scripts s' = Some (ScriptsScreen.scripts s')
    /\ ((forall script, In script (ScriptsScreen.scripts s) ->
                        Script.id script <> scriptId) ->
        ScriptsScreen.scripts s' = ScriptsScreen.scripts s)
    /\ ScriptsScreen.deleteScript true scriptId s' = s'
    /\ ScriptsScreen.deleteScript false scriptId s = s
    /\ (ScriptsScreen.modalVisible s' = ScriptsScreen.modalVisible s
        /\ ScriptsScreen.editingScript s' = ScriptsScreen.editingScript s
        /\ ScriptsScreen.title s' = ScriptsScreen.title s
        /\ ScriptsScreen.content s' = ScriptsScreen.content s
        /\ ScriptsScreen.alerts s' = ScriptsScreen.alerts s).
Proof.
  intros scriptId s s'. subst s'.
  unfold ScriptsScreen.deleteScript, ScriptsScreen.saveScripts. simpl.
  assert (Hkeep : forall script,
             negb (JS.jsstring_eqb (Script.id script) scriptId) = true
             <-> Script.id script <> scriptId).
  { intros script. rewrite negb_true_iff.
    destruct (JS.jsstring_eqb (Script.id script) scriptId) eqn:E.
    - apply jsstring_eqb_eq in E. split; [discriminate | contradiction].
    - split; [|reflexivity]. intros _ H. apply jsstring_eqb_eq in H.
      congruence. }
  split; [| split; [| split; [| split; [| split; [| split]]]]];
    try reflexivity.
  - intros script. rewrite filter_In, Hkeep. reflexivity.
  - intros Hall. apply forallb_filter_id. apply forallb_forall.
    intros script Hin. apply Hkeep. apply Hall. exact Hin.
  - f_equal; [|f_equal];
      (apply forallb_filter_id; apply forallb_forall;
       intros script Hin; apply filter_In in Hin; apply Hin).
  - repeat split.
Qed.

(** ** The teleprompter: the handle discipline *)

Section TeleprompterDiscipline.
Import Teleprompter.
Local Open Scope Z_scope.

Lemma reschedule_handles (clock : Z) (ts : list Timer) (h : N) :
  In h (map handle (reschedule clock ts)) -> In h (map handle ts).
Proof.
  intros Hin. apply in_map_iff in Hin. destruct Hin as [t' [Hh Hin]].
  apply in_map_iff.
  destruct (reschedule_origin _ _ _ Hin) as [[H _] | [t [H [_ Ha]]]].
  - exists t'. auto.
  - exists t. split; [|exact H].
    destruct (afterFiring_callback _ _ Ha) as [Hh' _]. congruence.
Qed.

Lemma reschedule_NoDup (clock : Z) (ts : list Timer) :
  NoDup (map handle ts) -> NoDup (map handle (reschedule clock ts)).
Proof.
  induction ts as [|t rest IH]; simpl; intros Hnd; [constructor|].
  inversion Hnd as [|x l Hnotin Hrest]; subst.
  assert (Hfresh : forall t', handle t' = handle t ->
                     ~ In (handle t') (map handle (reschedule clock rest))).
  { intros t' Heq Hin. apply Hnotin. rewrite <- Heq.
    apply (reschedule_handles clock). exact Hin. }
  destruct (isDue clock t).
  - destruct (afterFiring t) as [t'|] eqn:Ha; [|auto].
    simpl. constructor; [|auto].
    apply Hfresh. apply (afterFiring_callback _ _ Ha).
  - simpl. constructor; [|auto]. apply Hfresh. reflexivity.
Qed.

Lemma reschedule_fired (clock : Z) (ts : list Timer) (t t' : Timer) :
  In t ts -> isDue clock t = true -> afterFiring t = Some t' ->
  In t' (reschedule clock ts).
Proof.
  intros Hin Hd Ha. induction ts as [|u rest IH]; simpl; [contradiction|].
  destruct Hin as [-> | Hin].
  - rewrite Hd, Ha. left. reflexivity.
  - destruct (isDue clock u); [destruct (afterFiring u)|]; simpl; auto.
Qed.

Lemma filter_map_NoDup {A B : Type} (f : A -> B) (g : A -> bool) (l : list A) :
  NoDup (map f l) -> NoDup (map f (filter g l)).
Proof.
  induction l as [|a rest IH]; simpl; intros Hnd; [constructor|].
  inversion Hnd as [|x l' Hnotin Hrest]; subst.
  destruct (g a); simpl; [|auto].
  constructor; [|auto].
  intros Hin. apply Hnotin. apply in_map_iff in Hin.
  destruct Hin as [b [Hb Hin]]. apply filter_In in Hin.
  apply in_map_iff. exists b. tauto.
Qed.

(** A change of cells that the discipline does not mention keeps it. *)
Lemma Disciplined_same (s s' : State) :
  timers s' = timers s ->
  nextHandle s' = nextHandle s ->
  scrollIntervalRef s' = scrollIntervalRef s ->
  recordingTimerRef s' = recordingTimerRef s ->
  isScrolling s' = isScrolling s ->
  Disciplined s -> Disciplined s'.
Proof.
  unfold Disciplined, wf, ownsScrollTimers.
  intros -> -> -> -> ->. auto.
Qed.

Lemma Disciplined_scrollTo (p : Z) (s : State) :
  Disciplined s -> Disciplined (scrollTo p s).
Proof.
  unfold scrollTo. destruct (scrollViewRef s); [|auto].
  apply Disciplined_same; reflexivity.
Qed.

Lemma Disciplined_commit (s : State) : Disciplined s -> Disciplined (commit s).
Proof. rewrite commit_refs. apply Disciplined_same; reflexivity. Qed.

(** A timer with a fresh handle that is not a scroll tick may be added. *)
Lemma Disciplined_add (s s' : State) (t : Timer) :
  timers s' = timers s ++ [t] ->
  handle t = nextHandle s ->
  nextHandle s' = (nextHandle s + 1)%N ->
  isScrollTick (callback t) = false ->
  scrollIntervalRef s' = scrollIntervalRef s ->
  isScrolling s' = isScrolling s ->
  (recordingTimerRef s' = recordingTimerRef s
   \/ (recordingTimerRef s' = Some (handle t)
       /\ callback t = RecordingTick)) ->
  Disciplined s -> Disciplined s'.
Proof.
  intros Hts Hh Hnext Hk Hsi Hscr Hrt [H1 [H2 [H3 [H4 [H5 H6]]]]].
  unfold Disciplined. rewrite Hts, Hnext, Hsi, Hscr.
  split; [| split; [| split; [| split; [| split]]]].
  - intros u Hin. apply in_app_or in Hin. destruct Hin as [Hin | [<- | []]].
    + specialize (H1 u Hin). lia.
    + lia.
  - rewrite map_app. simpl. apply NoDup_app; [exact H2 | |].
    + constructor; [intros [] | constructor].
    + intros a Hin [<- | []]. apply in_map_iff in Hin.
      destruct Hin as [u [Hu Hin]]. specialize (H1 u Hin). lia.
  - intros h Hs. destruct (H3 h Hs) as [d [p [v Hin]]].
    exists d, p, v. apply in_or_app. left. exact Hin.
  - intros h Hr. destruct Hrt as [Hrt | [Hrt Hcb]].
    + rewrite Hrt in Hr. destruct (H4 h Hr) as [Hlt Hall].
      split; [lia|]. intros u Hin Hu. apply in_app_or in Hin.
      destruct Hin as [Hin | [<- | []]]; [auto | lia].
    + rewrite Hrt in Hr. injection Hr as <-. split; [lia|].
      intros u Hin Hu. apply in_app_or in Hin.
      destruct Hin as [Hin | [<- | []]]; [|exact Hcb].
      specialize (H1 u Hin). lia.
  - apply wf_spec in H5. destruct H5 as [Hown Hidle].
    unfold wf, ownsScrollTimers. rewrite Hts, Hsi, Hscr.
    apply andb_true_iff. split.
    + rewrite forallb_app. apply andb_true_iff. split.
      * apply forallb_forall. intros u Hin.
        destruct (isScrollTick (callback u)) eqn:Hu; [|reflexivity].
        simpl. rewrite (Hown u Hin Hu). apply N.eqb_refl.
      * simpl. rewrite Hk. reflexivity.
    + rewrite H6. destruct (scrollIntervalRef s); reflexivity.
  - exact H6.
Qed.

Lemma Disciplined_setTimeout (ms : Z) (s : State) :
  Disciplined s -> Disciplined (setTimeout ResetStatus ms s).
Proof.
  apply (Disciplined_add s _ (mkTimer (nextHandle s) (now s + ms) None ResetStatus));
    try reflexivity.
  left. reflexivity.
Qed.

Lemma Disciplined_startRecordingTimer (s : State) :
  Disciplined s -> Disciplined (startRecordingTimer s).
Proof.
  apply (Disciplined_add s _
           (mkTimer (nextHandle s) (now s + 100) (Some 100) RecordingTick));
    try reflexivity.
  right. split; reflexivity.
Qed.

(** Clearing the recording timer removes no other timer. *)
Lemma stopRecordingTimer_timers (s : State) (t : Timer) :
  Disciplined s ->
  In t (timers s) -> callback t <> RecordingTick ->
  In t (timers (stopRecordingTimer s)).
Proof.
  intros [_ [_ [_ [H4 _]]]] Hin Hcb. unfold stopRecordingTimer.
  destruct (recordingTimerRef s) as [h|] eqn:E; [|exact Hin].
  simpl. apply filter_In. split; [exact Hin|].
  apply negb_true_iff, N.eqb_neq. intros Hh.
  destruct (H4 h eq_refl) as [_ Hall]. apply Hcb. apply Hall; assumption.
Qed.

Lemma Disciplined_stopRecordingTimer (s : State) :
  Disciplined s -> Disciplined (stopRecordingTimer s).
Proof.
  intros HD. pose proof HD as [H1 [H2 [H3 [H4 [H5 H6]]]]].
  unfold stopRecordingTimer.
  destruct (recordingTimerRef s) as [h|] eqn:E; [|exact HD].
  unfold Disciplined. simpl.
  split; [| split; [| split; [| split; [| split]]]].
  - intros t Hin. apply filter_In in Hin. apply H1, Hin.
  - apply filter_map_NoDup. exact H2.
  - intros hs Hs. destruct (H3 hs Hs) as [d [p [v Hin]]].
    exists d, p, v.
    assert (Hstill : In (mkTimer hs d (Some 50) (ScrollTick p v))
                       (timers (stopRecordingTimer s))).
    { apply stopRecordingTimer_timers; [exact HD | exact Hin | discriminate]. }
    unfold stopRecordingTimer in Hstill. rewrite E in Hstill. exact Hstill.
  - discriminate.
  - apply (wf_monotone s); try reflexivity; [exact H5|].
    intros t Hin. left. simpl in Hin. apply filter_In in Hin. apply Hin.
  - exact H6.
Qed.

Lemma Disciplined_startAutoScroll (s : State) :
  Disciplined s -> Disciplined (startAutoScroll s).
Proof.
  intros HD. pose proof HD as [H1 [H2 [H3 [H4 [H5 H6]]]]].
  pose proof (wf_startAutoScroll s H5) as Hwf.
  unfold startAutoScroll in *.
  destruct (negb (attached (selectedScript s)) || isScrolling s); [exact HD|].
  unfold Disciplined. split; [| split; [| split; [| split; [| split]]]];
    [| | | | exact Hwf | reflexivity]; simpl.
  - intros u Hin. apply in_app_or in Hin. destruct Hin as [Hin | [<- | []]].
    + specialize (H1 u Hin). lia.
    + simpl. lia.
  - rewrite map_app. apply NoDup_app; [exact H2 | |].
    + constructor; [intros [] | constructor].
    + intros a Hin [<- | []]. apply in_map_iff in Hin.
      destruct Hin as [u [Hu Hin]]. specialize (H1 u Hin). simpl in Hu. lia.
  - intros h Hs. injection Hs as <-.
    exists (now s + 50), 0, (scrollSpeed s). apply in_or_app. right. left.
    reflexivity.
  - intros h Hr. destruct (H4 h Hr) as [Hlt Hall]. split; [lia|].
    intros u Hin Hu. apply in_app_or in Hin.
    destruct Hin as [Hin | [<- | []]]; [auto | simpl in Hu; lia].
Qed.

Lemma Disciplined_stopAutoScroll (s : State) :
  Disciplined s -> Disciplined (stopAutoScroll s).
Proof.
  intros HD. pose proof HD as [H1 [H2 [H3 [H4 [H5 H6]]]]].
  pose proof (wf_stopAutoScroll s H5) as Hwf.
  unfold stopAutoScroll in *. simpl in *.
  destruct (scrollIntervalRef s) as [hs|] eqn:E.
  - unfold Disciplined. split; [| split; [| split; [| split; [| split]]]];
      [| | | | exact Hwf | reflexivity]; simpl.
    + intros t Hin. apply filter_In in Hin. apply H1, Hin.
    + apply filter_map_NoDup. exact H2.
    + discriminate.
    + intros h Hr. destruct (H4 h Hr) as [Hlt Hall]. split; [exact Hlt|].
      intros t Hin. apply filter_In in Hin. apply Hall, Hin.
  - unfold Disciplined. split; [| split; [| split; [| split; [| split]]]];
      [| | | | exact Hwf |]; simpl; try assumption.
    + rewrite E. discriminate.
    + rewrite E. reflexivity.
Qed.

Lemma afterFiring_RecordingTick (t t' : Timer) :
  afterFiring t = Some t' -> callback t = RecordingTick ->
  callback t' = RecordingTick.
Proof.
  unfold afterFiring. destruct (period t); [|discriminate].
  intros H Hcb. injection H as <-. simpl. rewrite Hcb. reflexivity.
Qed.

Lemma Disciplined_step_ms (s : State) :
  Disciplined s -> Disciplined (step_ms s).
Proof.
  intros [H1 [H2 [H3 [H4 [H5 H6]]]]].
  pose proof (wf_step_ms s H5) as Hwf.
  unfold Disciplined. rewrite step_ms_timed in *. simpl.
  split; [| split; [| split; [| split; [| split]]]];
    [| | | | exact Hwf | exact H6].
  - intros t' Hin.
    destruct (reschedule_origin _ _ _ Hin) as [[H _] | [t [H [_ Ha]]]].
    + auto.
    + destruct (afterFiring_callback _ _ Ha) as [Hh _]. rewrite Hh. auto.
  - apply reschedule_NoDup. exact H2.
  - intros h Hs. destruct (H3 h Hs) as [d [p [v Hin]]].
    destruct (isDue (now s + 1) (mkTimer h d (Some 50) (ScrollTick p v))) eqn:Hd.
    + exists (d + 50), (p + v), v.
      apply (reschedule_fired _ _ _ _ Hin Hd). reflexivity.
    + exists d, p, v. apply reschedule_keeps; assumption.
  - intros h Hr. destruct (H4 h Hr) as [Hlt Hall]. split; [exact Hlt|].
    intros t' Hin Hh.
    destruct (reschedule_origin _ _ _ Hin) as [[H _] | [t [H [_ Ha]]]].
    + auto.
    + destruct (afterFiring_callback _ _ Ha) as [Hh' _].
      apply (afterFiring_RecordingTick _ _ Ha). apply Hall; congruence.
Qed.

Lemma Disciplined_advance (n : nat) (s : State) :
  Disciplined s -> Disciplined (advance n s).
Proof.
  revert s. induction n as [|n IH]; intros s H; [exact H|].
  apply IH, Disciplined_step_ms, H.
Qed.

Lemma Disciplined_onFocus (s : State) :
  Disciplined s -> Disciplined (onFocus s).
Proof.
  intros HD.
  assert (E : onFocus s
              = stopRecordingTimer
                  (set_cameraKey (cameraKey s + 1)
                     (set_recordingDuration 0
                        (set_isRecording false
                           (set_recordingStatus idle
                              (set_cameraReady false s)))))) by reflexivity.
  rewrite E. apply Disciplined_stopRecordingTimer.
  revert HD. apply Disciplined_same; reflexivity.
Qed.

Ltac discipline :=
  repeat first
    [ assumption
    | apply Disciplined_setTimeout
    | apply Disciplined_startRecordingTimer
    | apply Disciplined_stopRecordingTimer
    | apply Disciplined_scrollTo
    | apply Disciplined_stopAutoScroll
    | match goal with
      | |- Disciplined (?f ?v ?x) =>
          apply (Disciplined_same x (f v x)); [reflexivity ..|]
      end ].

(** Every handler keeps the discipline. *)
Lemma Disciplined_react (e : Event) (s : State) :
  Disciplined s -> Disciplined (react e s).
Proof.
  intros HD. destruct e; simpl react.
  - apply Disciplined_onFocus, HD.
  - apply Disciplined_stopRecordingTimer, HD.
  - unfold requestPermissions_done. discipline.
  - unfold loadSelectedScript_done. destruct script; discipline.
  - unfold onCameraReady. discipline.
  - unfold startRecording, alert.
    repeat match goal with
           | |- context [if ?c then _ else _] => destruct c
           end; simpl fst; discipline.
  - unfold startRecording_recorded, startRecording_catch,
      startRecording_finish, alert.
    destruct r as [[v|]|]; [destruct (JS.truthy (uri v))| |];
      simpl fst; discipline.
  - unfold startRecording_saved, startRecording_finish, alert.
    destruct r; simpl fst; discipline.
  - unfold stopRecording. destruct (attached (cameraRef s) && isRecording s);
      exact HD.
  - unfold stopRecording_stopped. destruct r; discipline.
  - apply Disciplined_startAutoScroll, HD.
  - apply Disciplined_stopAutoScroll, HD.
  - unfold resetScroll. discipline.
  - unfold decreaseSpeed. discipline.
  - unfold increaseSpeed. discipline.
  - unfold decreaseFont. discipline.
  - unfold increaseFont. discipline.
  - apply Disciplined_advance, HD.
Qed.

Lemma Disciplined_run (es : list Event) (s : State) :
  Disciplined s -> Disciplined (run es s).
Proof.
  revert s. induction es as [|e rest IH]; intros s H; [exact H|].
  rewrite run_cons. apply IH. unfold handle_event.
  apply Disciplined_commit, Disciplined_react, H.
Qed.

Lemma Disciplined_initial (t0 : Z) : Disciplined (initialState t0).
Proof.
  unfold Disciplined. simpl.
  split; [intros t []|]. split; [constructor|].
  split; [discriminate|]. split; [discriminate|]. split; reflexivity.
Qed.

End TeleprompterDiscipline.
(** ** The script editor: writes in flight *)

Section ScriptsScreenInvariants.
Import JS.

Lemma Forall_remove_nth {A : Type} (P : A -> Prop) (i : nat) (l : list A) :
  Forall P l -> Forall P (ScriptsScreenAsync.remove_nth i l).
Proof.
  intros H. unfold ScriptsScreenAsync.remove_nth. apply Forall_app. split.
  - rewrite <- (firstn_skipn i l) in H. apply Forall_app in H. apply H.
  - rewrite <- (firstn_skipn (S i) l) in H. apply Forall_app in H. apply H.
Qed.

(** A handler whose write settles before anything else happens acts as the
    handler run to completion. *)
Lemma saveScript_settled_at_once (nowISO : jsstring) (nowMs : N) (ok : bool)
    (s : ScriptsScreen.State) :
  ScriptsScreenAsync.saveScripts_settled 0 ok
    (ScriptsScreenAsync.saveScript nowISO nowMs (ScriptsScreenAsync.settled s))
  = ScriptsScreenAsync.settled (ScriptsScreen.saveScript nowISO nowMs ok s).
Proof.
  unfold ScriptsScreenAsync.saveScript, ScriptsScreen.saveScript,
    ScriptsScreenAsync.settled. simpl.
  destruct (negb (truthy (trim (ScriptsScreen.title s)))
            || negb (truthy (trim (ScriptsScreen.content s))));
    [reflexivity|].
  destruct (ScriptsScreen.editingScript s); destruct ok; reflexivity.
Qed.

Lemma deleteScript_settled_at_once (scriptId : jsstring) (ok : bool)
    (s : ScriptsScreen.State) :
  ScriptsScreenAsync.saveScripts_settled 0 ok
    (ScriptsScreenAsync.deleteScript_confirmed 0
       (ScriptsScreenAsync.deleteScript scriptId
          (ScriptsScreenAsync.settled s)))
  = ScriptsScreenAsync.settled (ScriptsScreen.deleteScript ok scriptId s).
Proof.
  unfold ScriptsScreenAsync.settled, ScriptsScreen.deleteScript,
    ScriptsScreen.saveScripts.
  destruct ok; [reflexivity|]. destruct s; reflexivity.
Qed.

Lemma synced_react (e : ScriptsScreenAsync.Event) (a : ScriptsScreenAsync.State) :
  ScriptsScreen.synced (ScriptsScreenAsync.component a) ->
  ScriptsScreen.synced
    (ScriptsScreenAsync.component (ScriptsScreenAsync.react e a)).
Proof.
  unfold ScriptsScreen.synced. intros H.
  destruct e; simpl ScriptsScreenAsync.react; try exact H.
  - simpl. unfold ScriptsScreen.loadScripts_done.
    destruct getItemOk; [|exact H].
    destruct (ScriptsScreen.teleprompter_scripts (ScriptsScreenAsync.component a))
      eqn:E; simpl; [reflexivity|].
    rewrite E. exact H.
  - unfold ScriptsScreenAsync.saveScript.
    destruct (negb (truthy (trim (ScriptsScreen.title
                                    (ScriptsScreenAsync.component a))))
              || negb (truthy (trim (ScriptsScreen.content
                                       (ScriptsScreenAsync.component a)))));
      [exact H|].
    destruct (ScriptsScreen.editingScript (ScriptsScreenAsync.component a));
      exact H.
  - unfold ScriptsScreenAsync.deleteScript_confirmed.
    destruct (nth_error (ScriptsScreenAsync.confirmations a) i); exact H.
  - unfold ScriptsScreenAsync.saveScripts_settled.
    destruct (nth_error (ScriptsScreenAsync.writes a) i); [|exact H].
    destruct setItemOk; [reflexivity | exact H].
Qed.

Lemma synced_run (es : list ScriptsScreenAsync.Event)
    (a : ScriptsScreenAsync.State) :
  ScriptsScreen.synced (ScriptsScreenAsync.component a) ->
  ScriptsScreen.synced
    (ScriptsScreenAsync.component (ScriptsScreenAsync.run es a)).
Proof.
  revert a. induction es as [|e rest IH]; intros a H; [exact H|].
  simpl. apply IH, synced_react, H.
Qed.

Lemma counted_withEdits (script : Script.t) (s : ScriptsScreen.State) :
  truthy (trim (ScriptsScreen.title s)) = true ->
  truthy (trim (ScriptsScreen.content s)) = true ->
  ScriptsScreen.counted
    (ScriptsScreen.withEdits script (ScriptsScreen.title s)
       (ScriptsScreen.content s)
       (Z.of_nat (List.length (split_ws (trim (ScriptsScreen.content s)))))).
Proof.
  intros Ht Hc. unfold ScriptsScreen.counted. simpl.
  rewrite (split_trim_count_words _ Hc). auto.
Qed.

Lemma allCounted_react (e : ScriptsScreenAsync.Event)
    (a : ScriptsScreenAsync.State) :
  ScriptsScreenAsync.allCounted a ->
  ScriptsScreenAsync.allCounted (ScriptsScreenAsync.react e a).
Proof.
  intros [[Hl Hst] [Hw Hc]].
  destruct e; simpl ScriptsScreenAsync.react;
    try (split; [split; assumption | split; assumption]).
  - (* the stored scripts are read *)
    split; [| split; assumption]. simpl.
    unfold ScriptsScreen.loadScripts_done.
    destruct getItemOk; [|split; assumption].
    destruct (ScriptsScreen.teleprompter_scripts (ScriptsScreenAsync.component a))
      eqn:E.
    + split; simpl; [apply Hst; reflexivity | exact Hst].
    + split; [exact Hl|]. intros stored H. rewrite E in H. discriminate.
  - (* Save *)
    unfold ScriptsScreenAsync.saveScript.
    destruct (truthy (trim (ScriptsScreen.title (ScriptsScreenAsync.component a))))
      eqn:Ht; simpl;
      [| split; [split; assumption | split; assumption]].
    destruct (truthy (trim (ScriptsScreen.content (ScriptsScreenAsync.component a))))
      eqn:Hcn; simpl;
      [| split; [split; assumption | split; assumption]].
    destruct (ScriptsScreen.editingScript (ScriptsScreenAsync.component a))
      as [editing|]; simpl;
      (split; [split; assumption | split; [| exact Hc]]);
      apply Forall_app; (split; [exact Hw|]); constructor; try constructor.
    + apply Forall_map. apply Forall_forall. intros script Hin.
      destruct (jsstring_eqb (Script.id script) (Script.id editing)).
      * apply counted_withEdits; assumption.
      * rewrite Forall_forall in Hl. apply Hl. exact Hin.
    + apply Forall_app. split; [exact Hl|]. constructor; [|constructor].
      unfold ScriptsScreen.counted. simpl.
      rewrite (split_trim_count_words _ Hcn). auto.
  - (* the trash button *)
    split; [split; assumption | split; [exact Hw|]].
    simpl. apply Forall_app. split; [exact Hc|].
    constructor; [exact Hl | constructor].
  - (* Delete is confirmed *)
    unfold ScriptsScreenAsync.deleteScript_confirmed.
    destruct (nth_error (ScriptsScreenAsync.confirmations a) i) as [c|] eqn:E;
      [| split; [split; assumption | split; assumption]].
    simpl. split; [split; assumption | split].
    + apply Forall_app. split; [exact Hw|]. constructor; [|constructor].
      apply nth_error_In in E. rewrite Forall_forall in Hc.
      specialize (Hc c E). apply Forall_forall. intros script Hin.
      apply filter_In in Hin. rewrite Forall_forall in Hc. apply Hc, Hin.
    + apply Forall_remove_nth, Hc.
  - (* Delete is cancelled *)
    split; [split; assumption | split; [exact Hw|]].
    simpl. apply Forall_remove_nth, Hc.
  - (* a write settles *)
    unfold ScriptsScreenAsync.saveScripts_settled.
    destruct (nth_error (ScriptsScreenAsync.writes a) i) as [w|] eqn:E;
      [| split; [split; assumption | split; assumption]].
    apply nth_error_In in E.
    assert (Hnew : Forall ScriptsScreen.counted w)
      by (rewrite Forall_forall in Hw; apply Hw, E).
    simpl. split; [| split; [apply Forall_remove_nth, Hw | exact Hc]].
    destruct setItemOk; [|split; assumption].
    split; simpl; [exact Hnew | intros stored [= <-]; exact Hnew].
Qed.

Lemma allCounted_run (es : list ScriptsScreenAsync.Event)
    (a : ScriptsScreenAsync.State) :
  ScriptsScreenAsync.allCounted a ->
  ScriptsScreenAsync.allCounted (ScriptsScreenAsync.run es a).
Proof.
  revert a. induction es as [|e rest IH]; intros a H; [exact H|].
  simpl. apply IH, allCounted_react, H.
Qed.

End ScriptsScreenInvariants.

(** A press during a write in flight works on the list as it was before
    the write: when both writes have settled, in the order in which they
    were issued, the script that was created is gone from the screen and
    from the store.  Run to their end one after the other, the same two
    handlers keep it. *)
Example press_during_a_write_in_flight :
  let pending :=
    ScriptsScreenAsync.run Samples.overtaking
      (ScriptsScreenAsync.mount (Some [Examples.intro])) in
  let first := ScriptsScreenAsync.saveScripts_settled 0 true pending in
  let second := ScriptsScreenAsync.saveScripts_settled 0 true first in
  map Script.title
    (ScriptsScreen.scripts (ScriptsScreenAsync.component pending))
  = [JS.lit "Intro"]
  /\ map Script.title
       (ScriptsScreen.scripts (ScriptsScreenAsync.component first))
     = [JS.lit "Intro"; JS.lit "Outro"]
  /\ ScriptsScreen.scripts (ScriptsScreenAsync.component second)
     = [Examples.intro]
  /\ ScriptsScreen.teleprompter_scripts (ScriptsScreenAsync.component second)
     = Some [Examples.intro]
  /\ map Script.title
       (ScriptsScreen.scripts
          (ScriptsScreen.saveScript (JS.lit "2024-03-03T00:00:01.000Z")
             1709424001000 true
             (ScriptsScreen.editScript Examples.intro
                (ScriptsScreen.saveScript (JS.lit "2024-03-03T00:00:00.000Z")
                   1709424000000 true
                   (ScriptsScreen.setContent (JS.lit "Good evening")
                      (ScriptsScreen.setTitle (JS.lit "Outro")
                         (ScriptsScreen.createScript
                            (ScriptsScreen.loadScripts_done true
                               (ScriptsScreen.mount
                                  (Some [Examples.intro]))))))))))
     = [JS.lit "Intro"; JS.lit "Outro"].
Proof. vm_compute. repeat split. Qed.

(** X4.  Once the stored scripts have been read, the list on screen and the
    list in the store never differ, whatever is created, edited, deleted or
    cancelled afterwards, whichever presses fall between a write and its
    settling, in whichever order the writes settle and whether or not the
    store accepts them; the store is taken to change when the write
    settles. *)
Theorem list_and_store_stay_in_step :
  forall (stored : option (list Script.t))
         (es : list ScriptsScreenAsync.Event),
    ScriptsScreen.synced
      (ScriptsScreenAsync.component
         (ScriptsScreenAsync.run (ScriptsScreenAsync.ScriptsRead true :: es)
            (ScriptsScreenAsync.mount stored))).
Proof.
  intros stored es. simpl. apply synced_run.
  unfold ScriptsScreen.synced, ScriptsScreen.loadScripts_done,
    ScriptsScreenAsync.mount, ScriptsScreen.mount. simpl.
  destruct stored; reflexivity.
Qed.

(** X5.  Over a store whose scripts have a title and a content that are not
    blank and a word count equal to the number of words of the content,
    every script on screen stays so through all events, whichever presses
    fall between a write and its settling and in whichever order the writes
    settle; the count shown for a script is then at least one and at most
    the length of its content. *)
Theorem word_counts_stay_right :
  forall (stored : option (list Script.t))
         (es : list ScriptsScreenAsync.Event),
    (forall l, stored = Some l -> Forall ScriptsScreen.counted l) ->
    let a := ScriptsScreenAsync.run es (ScriptsScreenAsync.mount stored) in
    forall script,
      In script (ScriptsScreen.scripts (ScriptsScreenAsync.component a)) ->
      ScriptsScreen.counted script
      /\ (1 <= Script.wordCount script
          <= Z.of_nat (List.length (Script.content script)))%Z.
Proof.
  intros stored es Hstored a script Hin.
  assert (HA : ScriptsScreenAsync.allCounted a).
  { apply allCounted_run. split; [| split; constructor].
    split; [constructor | exact Hstored]. }
  destruct HA as [[Hl _] _]. rewrite Forall_forall in Hl.
  pose proof (Hl script Hin) as Hcounted.
  split; [exact Hcounted|].
  destruct Hcounted as [_ [Hc Hw]].
  rewrite Hw. pose proof (count_words_positive _ Hc).
  pose proof (count_words_from_le true (Script.content script)).
  unfold JS.count_words in *. lia.
Qed.

(** X6.  The ids of created scripts are the decimal readings of the clock, and
    different readings give different ids: a list whose ids print distinct
    clock readings keeps distinct ids when a script is created at a reading
    that is not among them, and through any edit or delete. *)
Theorem ids_stay_distinct :
  forall (nowISO : JS.jsstring) (nowMs : N) (setItemOk : bool)
         (scriptId : JS.jsstring) (readings : list N) (s : ScriptsScreen.State),
    map Script.id (ScriptsScreen.scripts s) = map JS.toString readings ->
    NoDup readings ->
    (ScriptsScreen.editingScript s = None -> ~ In nowMs readings) ->
    NoDup (map Script.id
             (ScriptsScreen.scripts
                (ScriptsScreen.saveScript nowISO nowMs setItemOk s)))
    /\ NoDup (map Script.id
                (ScriptsScreen.scripts
                   (ScriptsScreen.deleteScript setItemOk scriptId s))).
Proof.
  intros nowISO nowMs ok scriptId readings s Hids Hnd Hfresh.
  assert (Hnd0 : NoDup (map Script.id (ScriptsScreen.scripts s))).
  { rewrite Hids. apply NoDup_map_of_injective; [|exact Hnd].
    intros a b. apply toString_inj. }
  split.
  - destruct (ScriptsScreen.editingScript s) as [editing|] eqn:He.
    + destruct (saveScript_edit_pointwise nowISO nowMs ok s editing He) as [f [Hmap Hf]].
      rewrite Hmap, map_map.
      rewrite (map_ext _ Script.id); [exact Hnd0|]. intros a. apply (Hf a).
    + unfold ScriptsScreen.saveScript. rewrite He.
      destruct (negb (JS.truthy (JS.trim (ScriptsScreen.title s)))
                || negb (JS.truthy (JS.trim (ScriptsScreen.content s))));
        [exact Hnd0|].
      destruct ok; simpl; [|exact Hnd0].
      rewrite map_app. simpl. apply NoDup_app; [exact Hnd0 | |].
      * constructor; [intros [] | constructor].
      * intros a Hin [<- | []]. rewrite Hids in Hin.
        apply in_map_iff in Hin. destruct Hin as [m [Hm Hin]].
        apply toString_inj in Hm. subst m. exact (Hfresh eq_refl Hin).
  - unfold ScriptsScreen.deleteScript, ScriptsScreen.saveScripts.
    destruct ok; [|exact Hnd0]. simpl.
    apply filter_map_NoDup. exact Hnd0.
Qed.

Section TeleprompterTimersKept.
Import Teleprompter.
Local Open Scope Z_scope.

Lemma NoDup_map_inj {A B : Type} (f : A -> B) (l : list A) (x y : A) :
  NoDup (map f l) -> In x l -> In y l -> f x = f y -> x = y.
Proof.
  induction l as [|a rest IH]; simpl; intros Hnd Hx Hy Hf; [contradiction|].
  inversion Hnd as [|b l' Hnotin Hrest]; subst.
  destruct Hx as [-> | Hx]; destruct Hy as [-> | Hy]; auto.
  - exfalso. apply Hnotin. rewrite Hf. apply in_map. exact Hy.
  - exfalso. apply Hnotin. rewrite <- Hf. apply in_map. exact Hx.
Qed.

Lemma NoDup_of_map {A B : Type} (f : A -> B) (l : list A) :
  NoDup (map f l) -> NoDup l.
Proof.
  induction l as [|a rest IH]; simpl; intros Hnd; [constructor|].
  inversion Hnd as [|b l' Hnotin Hrest]; subst.
  constructor; [|auto]. intros Hin. apply Hnotin. apply in_map. exact Hin.
Qed.

Lemma NoDup_all_equal {A : Type} (a : A) (l : list A) :
  NoDup l -> In a l -> (forall x, In x l -> x = a) -> l = [a].
Proof.
  intros Hnd Hin Hall. destruct l as [|x rest]; [contradiction|].
  assert (x = a) by (apply Hall; left; reflexivity). subst x.
  f_equal. destruct rest as [|y rest']; [reflexivity|].
  assert (y = a) by (apply Hall; right; left; reflexivity). subst y.
  inversion Hnd as [|b l' Hnotin _]; subst. exfalso. apply Hnotin.
  left. reflexivity.
Qed.

(** Under the discipline, the timer that [scrollIntervalRef] holds is the
    one scroll tick of the table. *)
Lemma Disciplined_scrollTimers (s : State) (h : N) :
  Disciplined s -> scrollIntervalRef s = Some h ->
  exists due p v,
    scrollTimers (timers s) = [mkTimer h due (Some 50) (ScrollTick p v)].
Proof.
  intros [_ [H2 [H3 [_ [H5 _]]]]] Hs.
  destruct (H3 h Hs) as [d [p [v Hin]]]. exists d, p, v.
  apply wf_spec in H5. destruct H5 as [Hown _].
  apply NoDup_all_equal.
  - apply NoDup_filter. apply (NoDup_of_map handle). exact H2.
  - apply filter_In. split; [exact Hin | reflexivity].
  - intros u Hu. apply filter_In in Hu. destruct Hu as [Hu Hk].
    apply (NoDup_map_inj handle (timers s)); try assumption.
    specialize (Hown u Hu Hk). rewrite Hs in Hown. simpl. congruence.
Qed.

(** A handler removes a timer only by clearing the handle held by one of
    the two refs. *)
Lemma react_keeps_timers (e : Event) (s : State) (t : Timer) :
  (forall ms, e <> Elapse ms) ->
  In t (timers s) ->
  In t (timers (react e s))
  \/ recordingTimerRef s = Some (handle t)
  \/ scrollIntervalRef s = Some (handle t).
Proof.
  intros He Hin.
  destruct e; try (exfalso; eapply He; reflexivity); simpl react;
    unfold_handlers; simpl; break_match;
    try (left; exact Hin);
    try (left; apply in_or_app; left; exact Hin);
    repeat match goal with
           | |- context [filter (fun u => negb (handle u =? ?h)%N) _] =>
               destruct (N.eq_dec (handle t) h) as [Heq | Hne];
               [ subst; auto
               | left;
                 repeat (apply in_or_app; left);
                 repeat (apply filter_In; split;
                         [| apply negb_true_iff, N.eqb_neq; assumption]);
                 try exact Hin ]
           end.
Qed.

End TeleprompterTimersKept.

Section TeleprompterMore.
Import Teleprompter.
Local Open Scope Z_scope.

Lemma react_now (e : Event) (s : State) :
  isElapse e = false -> now (react e s) = now s.
Proof.
  intros He. destruct e; try discriminate; simpl react;
    unfold_handlers; simpl; break_match; reflexivity.
Qed.

Lemma run_app (es1 es2 : list Event) (s : State) :
  run (es1 ++ es2) s = run es2 (run es1 s).
Proof.
  revert s. induction es1 as [|e rest IH]; intros s; [reflexivity|].
  simpl app. rewrite !run_cons. apply IH.
Qed.

(** Under the discipline a handler removes no cool-down timer. *)
Lemma Disciplined_keeps_reset (e : Event) (s : State) (t : Timer) :
  Disciplined s -> isElapse e = false ->
  In t (timers s) -> callback t = ResetStatus ->
  In t (timers (handle_event e s)).
Proof.
  intros HD He Hin Hcb. unfold handle_event. rewrite commit_refs. simpl.
  assert (He' : forall ms, e <> Elapse ms) by (intros ms ->; discriminate).
  destruct (react_keeps_timers e s t He' Hin) as [H | [H | H]]; [exact H | |].
  - exfalso. destruct HD as [_ [_ [_ [H4 _]]]].
    destruct (H4 _ H) as [_ Hall]. rewrite (Hall t Hin eq_refl) in Hcb.
    discriminate.
  - exfalso. destruct (Disciplined_scrollTimers s _ HD H) as [d [p [v Hst]]].
    destruct HD as [_ [H2 [H3 _]]].
    destruct (H3 _ H) as [d' [p' [v' Hin']]].
    assert (t = mkTimer (handle t) d' (Some 50) (ScrollTick p' v')).
    { apply (NoDup_map_inj handle (timers s)); auto. }
    rewrite H0 in Hcb. discriminate.
Qed.

Lemma Disciplined_run_keeps_reset (es : list Event) (s : State) (t : Timer) :
  Disciplined s -> forallb (fun e => negb (isElapse e)) es = true ->
  In t (timers s) -> callback t = ResetStatus ->
  In t (timers (run es s)) /\ now (run es s) = now s.
Proof.
  revert s. induction es as [|e rest IH]; intros s HD Hes Hin Hcb;
    [split; [exact Hin | reflexivity]|].
  simpl in Hes. apply andb_true_iff in Hes. destruct Hes as [He Hrest].
  apply negb_true_iff in He. rewrite run_cons.
  destruct (IH (handle_event e s)) as [H1 H2]; try assumption.
  - unfold handle_event. apply Disciplined_commit, Disciplined_react, HD.
  - apply Disciplined_keeps_reset; assumption.
  - split; [exact H1|]. rewrite H2. unfold handle_event.
    rewrite commit_refs. simpl. apply react_now. exact He.
Qed.

End TeleprompterMore.

(** X7.  In every state reached from a fresh mount, auto-scroll is on
    exactly while one scroll tick of 50 ms runs, the one whose handle
    [scrollIntervalRef] holds; while it is off no scroll tick runs and no
    handle is held.  No sequence of events leaves a second tick, or a tick
    without its handle, behind. *)
Theorem scroll_interval_is_the_only_tick :
  forall (t0 : Z) (es : list Teleprompter.Event),
    let s := Teleprompter.run es (Teleprompter.initialState t0) in
    if Teleprompter.isScrolling s
    then exists h due p v,
        Teleprompter.scrollIntervalRef s = Some h
        /\ Teleprompter.scrollTimers (Teleprompter.timers s)
           = [Teleprompter.mkTimer h due (Some 50%Z)
                (Teleprompter.ScrollTick p v)]
    else Teleprompter.scrollIntervalRef s = None
         /\ Teleprompter.scrollTimers (Teleprompter.timers s) = [].
Proof.
  intros t0 es s.
  assert (HD : Teleprompter.Disciplined s)
    by (apply Disciplined_run, Disciplined_initial).
  pose proof HD as [_ [_ [_ [_ [Hwf H6]]]]].
  destruct (Teleprompter.isScrolling s) eqn:E.
  - destruct (Teleprompter.scrollIntervalRef s) as [h|] eqn:Hs;
      [|discriminate].
    destruct (Disciplined_scrollTimers s h HD Hs) as [d [p [v H]]].
    exists h, d, p, v. split; [reflexivity | exact H].
  - assert (Hnone : Teleprompter.scrollIntervalRef s = None)
      by (apply wf_idle_ref; assumption).
    split; [exact Hnone|]. apply wf_no_scrollTimers; assumption.
Qed.

(** X8.  A cool-down, once armed, is never cancelled: in a state reached
    from a fresh mount, whatever events follow without time passing (a
    focus change, a new recording), the timeout stays in the table, and
    when its time comes the status is set to idle. *)
Theorem cooldown_is_never_cancelled :
  forall (t0 : Z) (es es' : list Teleprompter.Event) (t : Teleprompter.Timer)
         (n : nat),
    let s := Teleprompter.run es (Teleprompter.initialState t0) in
    forallb (fun e => negb (Teleprompter.isElapse e)) es' = true ->
    In t (Teleprompter.timers s) ->
    Teleprompter.callback t = Teleprompter.ResetStatus ->
    Teleprompter.due t = (Teleprompter.now s + Z.of_nat (S n))%Z ->
    In t (Teleprompter.timers (Teleprompter.run es' s))
    /\ Teleprompter.recordingStatus
         (Teleprompter.advance (S n) (Teleprompter.run es' s))
       = Teleprompter.idle.
Proof.
  intros t0 es es' t n s Hes Hin Hcb Hdue.
  assert (HD : Teleprompter.Disciplined s)
    by (apply Disciplined_run, Disciplined_initial).
  destruct (Disciplined_run_keeps_reset es' s t HD Hes Hin Hcb) as [Hkept Hnow].
  split; [exact Hkept|].
  apply (reset_fires n _ t Hkept Hcb). rewrite Hnow. exact Hdue.
Qed.

(** ** The teleprompter: the elapsed time of a recording *)

Section TeleprompterElapsed.
Import Teleprompter.
Local Open Scope Z_scope.

Lemma Sampling_step (start : Z) (s : State) :
  Sampling start s -> Sampling start (step_ms s).
Proof.
  intros [Hstart [h [d [Hin [Hd Hdur]]]]]. unfold Sampling.
  rewrite step_ms_now, step_ms_timers, step_ms_duration.
  split; [rewrite step_ms_timed; exact Hstart|]. rewrite Hstart.
  destruct (Z.eq_dec d (now s + 1)) as [-> | Hne].
  - (* the tick fires *)
    exists h, (now s + 1 + 100). split; [| split; [lia|]].
    + apply (reschedule_fired _ _ (mkTimer h (now s + 1) (Some 100) RecordingTick));
        [exact Hin | apply Z.leb_le; simpl; lia | reflexivity].
    + assert (E : existsb
                    (fun t => isDue (now s + 1) t && isRecordingTick (callback t))
                    (timers s) = true).
      { apply existsb_exists. eexists. split; [exact Hin|].
        unfold isDue. simpl. rewrite andb_true_r. apply Z.leb_le. lia. }
      rewrite E. lia.
  - exists h, d. split; [| split; [lia|]].
    + apply reschedule_keeps; [exact Hin|]. apply Z.leb_gt. simpl. lia.
    + destruct (existsb _ (timers s)); lia.
Qed.

Lemma Sampling_advance (start : Z) (n : nat) (s : State) :
  Sampling start s -> Sampling start (advance n s).
Proof.
  revert s. induction n as [|n IH]; intros s H; [exact H|].
  apply IH, Sampling_step, H.
Qed.

Lemma startRecording_Sampling (s : State) :
  canRecord s = true -> Sampling (now s) (fst (startRecording s)).
Proof.
  intros H. rewrite (startRecording_starts s H). simpl fst.
  unfold Sampling, startRecordingTimer, setInterval. simpl.
  split; [reflexivity|].
  exists (nextHandle s), (now s + 100). split; [| split; lia].
  apply in_or_app. right. left. reflexivity.
Qed.

End TeleprompterElapsed.

(** X9.  While a recording runs and nothing but time passes, [isRecording]
    stays set and the elapsed time on screen is never ahead of the time
    that has passed since the start and is less than one tick of 100 ms
    behind it. *)
Theorem elapsed_time_lags_less_than_a_tick :
  forall (s : Teleprompter.State) (n : nat),
    Teleprompter.canRecord s = true ->
    let started := fst (Teleprompter.startRecording s) in
    Teleprompter.isRecording (Teleprompter.advance n started) = true
    /\ (Z.of_nat n - 100
        < Teleprompter.recordingDuration (Teleprompter.advance n started)
        <= Z.of_nat n)%Z.
Proof.
  intros s n Hcan started.
  pose proof (startRecording_Sampling s Hcan) as Hs. fold started in Hs.
  assert (Hnow : Teleprompter.now started = Teleprompter.now s).
  { subst started. rewrite (startRecording_starts s Hcan). reflexivity. }
  split.
  - rewrite advance_timed. subst started.
    rewrite (startRecording_starts s Hcan). reflexivity.
  - destruct (Sampling_advance _ n _ Hs) as [_ [h [d [_ [Hd Hdur]]]]].
    rewrite advance_now, Hnow in *. lia.
Qed.

(** ** The teleprompter: what the events leave alone *)

Section TeleprompterCells.
Import Teleprompter.
Local Open Scope Z_scope.

Lemma selectedScript_react (e : Event) (s : State) :
  selectedScript (react e s) = selectedScript s
  \/ exists sc, e = SelectedScriptRead (Some sc)
                /\ selectedScript (react e s) = Some sc.
Proof.
  destruct e; simpl react;
    try (left; rewrite advance_timed; reflexivity);
    try (left; unfold_handlers; simpl; break_match; reflexivity).
  destruct script as [sc|]; [right; exists sc; split; reflexivity|].
  left. reflexivity.
Qed.

Lemma selectedScript_commit (s : State) :
  selectedScript (commit s) = selectedScript s.
Proof. rewrite commit_refs. reflexivity. Qed.

Lemma cameraKey_react (e : Event) (s : State) :
  cameraKey (react e s) = cameraKey s + focusGains [e].
Proof.
  destruct e; simpl react; simpl focusGains;
    try (rewrite advance_timed; simpl; lia);
    try (unfold_handlers; simpl; break_match; simpl; lia).
Qed.

Lemma focusGains_cons (e : Event) (es : list Event) :
  focusGains (e :: es) = focusGains [e] + focusGains es.
Proof. destruct e; simpl; lia. Qed.

Lemma render_commit (s : State) : render (commit s) = render s.
Proof. rewrite commit_refs. reflexivity. Qed.

End TeleprompterCells.

(** X10.  Once a script is selected it stays selected: the selected script
    changes only when [loadSelectedScript] reads an entry from the store,
    and the read of a missing entry keeps the script that was there. *)
Theorem selected_script_is_never_unset :
  forall (s : Teleprompter.State) (es : list Teleprompter.Event),
    (Teleprompter.selectedScript (Teleprompter.run es s)
     = Teleprompter.selectedScript s
     \/ exists sc,
         In (Teleprompter.SelectedScriptRead (Some sc)) es
         /\ Teleprompter.selectedScript (Teleprompter.run es s) = Some sc)
    /\ (Teleprompter.attached (Teleprompter.selectedScript s) = true ->
        Teleprompter.attached
          (Teleprompter.selectedScript (Teleprompter.run es s)) = true).
Proof.
  intros s es.
  assert (H : Teleprompter.selectedScript (Teleprompter.run es s)
              = Teleprompter.selectedScript s
              \/ exists sc,
                  In (Teleprompter.SelectedScriptRead (Some sc)) es
                  /\ Teleprompter.selectedScript (Teleprompter.run es s)
                     = Some sc).
  { revert s. induction es as [|e rest IH]; intros s; [left; reflexivity|].
    rewrite run_cons.
    destruct (IH (Teleprompter.handle_event e s)) as [H | [sc [Hin H]]].
    - unfold Teleprompter.handle_event in H at 2.
      rewrite selectedScript_commit in H.
      destruct (selectedScript_react e s) as [H' | [sc [He H']]].
      + left. congruence.
      + right. exists sc. split; [left; congruence | congruence].
    - right. exists sc. split; [right; exact Hin | exact H]. }
  split; [exact H|]. intros Hatt.
  destruct H as [H | [sc [_ H]]]; rewrite H; [exact Hatt | reflexivity].
Qed.

(** X11.  The camera key counts the times the screen gained focus: after
    any sequence of events it is what it was plus the number of focus gains
    in the sequence, so no other event changes it. *)
Theorem cameraKey_counts_focus_gains :
  forall (s : Teleprompter.State) (es : list Teleprompter.Event),
    Teleprompter.cameraKey (Teleprompter.run es s)
    = (Teleprompter.cameraKey s + Teleprompter.focusGains es)%Z.
Proof.
  intros s es. revert s. induction es as [|e rest IH]; intros s.
  - simpl. lia.
  - rewrite run_cons, IH, focusGains_cons.
    unfold Teleprompter.handle_event. rewrite commit_refs.
    cbn [Teleprompter.cameraKey Teleprompter.set_scrollViewRef
         Teleprompter.set_cameraRef].
    rewrite cameraKey_react. lia.
Qed.

(** X12.  On the main view the camera view is mounted and the camera and the
    microphone are granted, so of the four refusals of [startRecording]
    only two can be met there: the media library that is not granted and
    the camera that is not ready.  Otherwise the recording starts. *)
Theorem main_view_refusals :
  forall (s0 : Teleprompter.State),
    let s := Teleprompter.commit s0 in
    Teleprompter.render s = Teleprompter.MainView ->
    Teleprompter.startRecording s
    = if negb (Teleprompter.granted (Teleprompter.hasMediaLibraryPermission s))
      then (Teleprompter.alert "Error" "Media library permission required" s,
            Teleprompter.Done)
      else if negb (Teleprompter.cameraReady s)
      then (Teleprompter.alert "Error"
              "Camera is not ready. Please wait a moment and try again." s,
            Teleprompter.Done)
      else (Teleprompter.startRecordingTimer
              (Teleprompter.set_recordingStatus Teleprompter.recording
                 (Teleprompter.set_isRecording true s)),
            Teleprompter.AwaitRecordAsync
              (Teleprompter.mkOptions "avc1" 60 (100 * 1024 * 1024))).
Proof.
  intros s0 s Hr.
  assert (Hr0 : Teleprompter.render s0 = Teleprompter.MainView)
    by (subst s; rewrite render_commit in Hr; exact Hr).
  assert (Hcam : Teleprompter.attached (Teleprompter.cameraRef s) = true).
  { subst s. rewrite (commit_cameraRef s0 Hr0). reflexivity. }
  assert (Hperm : Teleprompter.granted (Teleprompter.hasCameraPermission s) = true
                  /\ Teleprompter.granted (Teleprompter.hasAudioPermission s) = true).
  { unfold Teleprompter.render in Hr.
    destruct (Teleprompter.hasCameraPermission s) as [[|]|];
      destruct (Teleprompter.hasAudioPermission s) as [[|]|];
      try discriminate; split; reflexivity. }
  destruct Hperm as [Hc Hm].
  unfold Teleprompter.startRecording. rewrite Hcam, Hc, Hm. reflexivity.
Qed.

(** ** The teleprompter: outcomes and alerts *)

Section TeleprompterAlerts.
Import Teleprompter.
Local Open Scope string_scope.

Lemma prefix_append (p s : string) :
  prefix p s = true <-> exists b, s = p ++ b.
Proof.
  revert s. induction p as [|c p IH]; intros s.
  - split; [intros _; exists s; reflexivity | intros _].
    destruct s; reflexivity.
  - destruct s as [|d s].
    + split; [discriminate | intros [b H]; discriminate].
    + cbn [prefix]. destruct (ascii_dec c d) as [-> | Hne].
      * rewrite IH. split; intros [b H]; exists b; cbn [append] in *; congruence.
      * split; [discriminate | intros [b H]; cbn [append] in H; congruence].
Qed.

Lemma includes_cons (p : string) (c : ascii) (s : string) :
  includes p (String c s) = prefix p (String c s) || includes p s.
Proof.
  unfold includes.
  change (index 0 p (String c s))
    with (if prefix p (String c s) then Some 0%nat
          else match index 0 p s with
               | Some n => Some (S n)
               | None => None
               end).
  destruct (prefix p (String c s)); [reflexivity|].
  destruct (index 0 p s); reflexivity.
Qed.

(** [includes] tells whether the pattern occurs somewhere in the text. *)
Lemma includes_spec (p s : string) :
  includes p s = true <-> exists a b, s = a ++ p ++ b.
Proof.
  induction s as [|c s IH].
  - unfold includes. simpl. destruct p as [|d p]; split.
    + intros _. exists "", "". reflexivity.
    + reflexivity.
    + discriminate.
    + intros [a [b H]]. destruct a; discriminate.
  - rewrite includes_cons, orb_true_iff, prefix_append, IH. split.
    + intros [[b H] | [a [b H]]].
      * exists "", b. exact H.
      * exists (String c a), b. simpl. congruence.
    + intros [a [b H]]. destruct a as [|d a].
      * left. exists b. exact H.
      * right. exists a, b. simpl in H. congruence.
Qed.

End TeleprompterAlerts.

(** X13.  Whatever [recordAsync] rejects with, [startRecording] shows
    exactly one alert titled "Recording Error", clears [isRecording] and
    the elapsed time, and goes to error.  It stops the recording timer: the
    timers that carry the handle in [recordingTimerRef] are removed from the
    timer table, the cool-down is the one timer added, and the ref is
    cleared; when the recording ticks of the table are those of that
    handle, none is left and the elapsed time stays at zero as time passes.
    The alert blames the simulator exactly when the rejection is an [Error]
    whose message contains "stopped before any data"; every other
    rejection, also one that is not an [Error], gives "Failed to record
    video". *)
Theorem recording_failure_is_reported_once :
  forall (s : Teleprompter.State) (e : Teleprompter.Thrown),
    let s' :=
      fst (Teleprompter.startRecording_recorded (Teleprompter.Rejected e) s) in
    let simulator :=
      exists message a b,
        e = Teleprompter.ErrorObject message
        /\ message = (a ++ "stopped before any data" ++ b)%string in
    Teleprompter.recordingStatus s' = Teleprompter.error
    /\ Teleprompter.isRecording s' = false
    /\ Teleprompter.recordingDuration s' = 0%Z
    /\ Teleprompter.recordingTimerRef s' = None
    /\ (simulator ->
        Teleprompter.alerts s'
        = Teleprompter.alerts s
          ++ [("Recording Error",
               "Recording failed - this may be a simulator limitation. Try on a real device.")%string])
    /\ (~ simulator ->
        Teleprompter.alerts s'
        = Teleprompter.alerts s
          ++ [("Recording Error", "Failed to record video")%string])
    /\ Teleprompter.timers s'
       = match Teleprompter.recordingTimerRef s with
         | Some h =>
             filter (fun t => negb (Teleprompter.handle t =? h)%N)
               (Teleprompter.timers s)
         | None => Teleprompter.timers s
         end
         ++ [Teleprompter.mkTimer (Teleprompter.nextHandle s)
               (Teleprompter.now s + 2000) None Teleprompter.ResetStatus]
    /\ (Teleprompter.ownsRecordingTimers s = true ->
        Teleprompter.recordingTimers (Teleprompter.timers s') = []
        /\ forall n,
             Teleprompter.recordingDuration (Teleprompter.advance n s') = 0%Z).
Proof.
  intros s e s' simulator. subst s' simulator.
  unfold Teleprompter.startRecording_recorded, Teleprompter.startRecording_catch.
  cbn [fst].
  assert (Hcells : forall x,
             Teleprompter.recordingTimerRef (Teleprompter.stopRecordingTimer x)
             = None
             /\ Teleprompter.alerts (Teleprompter.stopRecordingTimer x)
                = Teleprompter.alerts x).
  { intros x. unfold Teleprompter.stopRecordingTimer.
    destruct (Teleprompter.recordingTimerRef x) eqn:E; simpl; auto. }
  destruct (Hcells s) as [Href Hal].
  split; [reflexivity|]. split; [reflexivity|]. split; [reflexivity|].
  split; [exact Href|].
  assert (Htimers :
            Teleprompter.timers
              (Teleprompter.setTimeout Teleprompter.ResetStatus 2000
                 (Teleprompter.set_recordingStatus Teleprompter.error
                    (Teleprompter.set_recordingDuration 0
                       (Teleprompter.set_isRecording false
                          (Teleprompter.alert "Recording Error"
                             (if Teleprompter.includes "stopped before any data"
                                   match e with
                                   | Teleprompter.ErrorObject message => message
                                   | Teleprompter.OtherValue =>
                                       "Unknown error occurred"%string
                                   end
                              then "Recording failed - this may be a simulator limitation. Try on a real device."%string
                              else "Failed to record video"%string)
                             (Teleprompter.stopRecordingTimer s))))))
            = Teleprompter.timers (Teleprompter.stopRecordingTimer s)
              ++ [Teleprompter.mkTimer (Teleprompter.nextHandle s)
                    (Teleprompter.now s + 2000) None Teleprompter.ResetStatus]).
  { unfold Teleprompter.stopRecordingTimer.
    destruct (Teleprompter.recordingTimerRef s); reflexivity. }
  split; [| split; [| split]].
  3: { rewrite Htimers. unfold Teleprompter.stopRecordingTimer.
       destruct (Teleprompter.recordingTimerRef s); reflexivity. }
  3: { intros Hown.
       assert (Hnone : Teleprompter.recordingTimers
                         (Teleprompter.timers
                            (Teleprompter.stopRecordingTimer s)
                          ++ [Teleprompter.mkTimer (Teleprompter.nextHandle s)
                                (Teleprompter.now s + 2000) None
                                Teleprompter.ResetStatus]) = []).
       { rewrite recordingTimers_app.
         rewrite (proj1 (stopRecordingTimer_stops s Hown)). reflexivity. }
       rewrite <- Htimers in Hnone. split; [exact Hnone|].
       intros n. rewrite (advance_duration_kept n _ Hnone). reflexivity. }
  all: simpl; rewrite Hal.
  - intros [message [a [b [-> Hm]]]].
    assert (E : Teleprompter.includes "stopped before any data" message = true)
      by (apply includes_spec; exists a, b; exact Hm).
    rewrite E. reflexivity.
  - intros Hno.
    destruct e as [message|].
    + destruct (Teleprompter.includes "stopped before any data" message) eqn:E;
        [|reflexivity].
      exfalso. apply Hno. apply includes_spec in E.
      destruct E as [a [b Hm]]. exists message, a, b. auto.
    + reflexivity.
Qed.

(** X14.  An event that takes the session to saved shows the one alert
    "Success"; an event that takes it to error shows one alert titled
    "Error" or "Recording Error", except the rejection of the camera's
    [stopRecording], which goes to error without any alert. *)
Theorem outcome_alerts :
  forall (s : Teleprompter.State) (e : Teleprompter.Event),
    Teleprompter.isTerminal (Teleprompter.recordingStatus s) = false ->
    let s' := Teleprompter.handle_event e s in
    match Teleprompter.recordingStatus s' with
    | Teleprompter.saved =>
        Teleprompter.alerts s'
        = Teleprompter.alerts s ++ [("Success", "Video saved to gallery!")%string]
    | Teleprompter.error =>
        (exists r,
            e = Teleprompter.StopSettled (Teleprompter.Rejected r)
            /\ Teleprompter.alerts s' = Teleprompter.alerts s)
        \/ (exists title message,
               Teleprompter.alerts s'
               = Teleprompter.alerts s ++ [(title, message)]
               /\ (title = "Error"%string \/ title = "Recording Error"%string))
    | _ => True
    end.
Proof.
  intros s e Hnon s'. subst s'. unfold Teleprompter.handle_event.
  rewrite commit_refs.
  cbn [Teleprompter.recordingStatus Teleprompter.alerts
       Teleprompter.set_scrollViewRef Teleprompter.set_cameraRef].
  destruct e; simpl Teleprompter.react;
    try (destruct (advance_status_cases ms s) as [H | H]; rewrite H;
         [destruct (Teleprompter.recordingStatus s); try exact I; discriminate
         | exact I]);
    unfold_handlers; simpl;
    repeat match goal with
           | |- context [match ?x with _ => _ end] =>
               lazymatch x with
               | Teleprompter.recordingStatus _ => fail
               | _ => destruct x eqn:?; simpl
               end
           end;
    try exact I;
    try (destruct (Teleprompter.recordingStatus s); try exact I; discriminate);
    try reflexivity;
    try (right; eexists; eexists; split; [reflexivity | auto]; fail);
    try (left; eexists; split; reflexivity).
Qed.

(** ** The teleprompter: the offset of the script *)

Section TeleprompterOffset.
Import Teleprompter.
Local Open Scope Z_scope.

Lemma ScrollSane_weaken (s s' : State) :
  (forall t, In t (timers s') ->
             In t (timers s) \/ isScrollTick (callback t) = false) ->
  (scrollViewRef s' = scrollViewRef s
   \/ scrollViewRef s' = Some (mkScrollView 0)
   \/ scrollViewRef s' = None) ->
  ScrollSane s -> ScrollSane s'.
Proof.
  intros Hts Hsv [H1 H2]. split.
  - intros t p v Hin Hcb. destruct (Hts t Hin) as [H | H].
    + eapply H1; eassumption.
    + rewrite Hcb in H. discriminate.
  - intros sv Hs. destruct Hsv as [E | [E | E]]; rewrite E in Hs.
    + auto.
    + injection Hs as <-. simpl. lia.
    + discriminate.
Qed.

Lemma fireDue_scrollViewRef_cases (clock : Z) (ts : list Timer) (s : State) :
  scrollViewRef (fireDue clock ts s) = scrollViewRef s
  \/ exists t p v,
       In t ts /\ callback t = ScrollTick p v
       /\ scrollViewRef (fireDue clock ts s) = Some (mkScrollView (p + v)).
Proof.
  revert s. induction ts as [|t rest IH]; intros s; simpl; [left; reflexivity|].
  destruct (IH (if isDue clock t then runCallback (callback t) s else s))
    as [H | [u [p [v [Hin [Hcb H]]]]]].
  - rewrite H. destruct (isDue clock t); [|left; reflexivity].
    destruct (callback t) as [p v| |] eqn:Hcb; simpl;
      try (left; reflexivity).
    unfold scrollTo. destruct (scrollViewRef s) eqn:E; simpl.
    + right. exists t, p, v. rewrite Hcb. auto.
    + left. congruence.
  - right. exists u, p, v. auto.
Qed.

Lemma ScrollSane_step_ms (s : State) :
  ScrollSane s -> ScrollSane (step_ms s).
Proof.
  intros [H1 H2]. split.
  - intros t' p' v' Hin Hcb. rewrite step_ms_timers in Hin.
    destruct (reschedule_origin _ _ _ Hin) as [[H _] | [t [H [_ Ha]]]].
    + eapply H1; eassumption.
    + unfold afterFiring in Ha. destruct (period t); [|discriminate].
      injection Ha as <-. simpl in Hcb.
      destruct (callback t) as [p v| |] eqn:Hcb'; try discriminate.
      injection Hcb as <- <-. destruct (H1 t p v H Hcb'). lia.
  - intros sv Hs. unfold step_ms in Hs. simpl in Hs.
    destruct (fireDue_scrollViewRef_cases (now s + 1) (timers s)
                (set_now (now s + 1) s))
      as [E | [t [p [v [Hin [Hcb E]]]]]]; rewrite E in Hs.
    + apply H2. exact Hs.
    + injection Hs as <-. simpl. destruct (H1 t p v Hin Hcb). lia.
Qed.

Lemma ScrollSane_advance (n : nat) (s : State) :
  ScrollSane s -> ScrollSane (advance n s).
Proof.
  revert s. induction n as [|n IH]; intros s H; [exact H|].
  apply IH, ScrollSane_step_ms, H.
Qed.

Lemma ScrollSane_startAutoScroll (s : State) :
  settingsInBounds s -> ScrollSane s -> ScrollSane (startAutoScroll s).
Proof.
  intros [Hb _] [H1 H2]. unfold startAutoScroll.
  destruct (negb (attached (selectedScript s)) || isScrolling s);
    [split; assumption|].
  split; simpl.
  - intros t p v Hin Hcb. apply in_app_or in Hin.
    destruct Hin as [Hin | [<- | []]].
    + eapply H1; eassumption.
    + simpl in Hcb. injection Hcb as <- <-. lia.
  - exact H2.
Qed.

Lemma ScrollSane_react (e : Event) (s : State) :
  settingsInBounds s -> ScrollSane s -> ScrollSane (react e s).
Proof.
  intros Hb HS.
  destruct e; simpl react;
    try (apply ScrollSane_advance; exact HS);
    try (apply ScrollSane_startAutoScroll; assumption);
    try (apply (ScrollSane_weaken s _);
         [ unfold_handlers; simpl; break_match;
           intros tm Hin; simpl in Hin;
           repeat (apply in_app_or in Hin; destruct Hin as [Hin | Hin]);
           try (apply filter_In in Hin; destruct Hin as [Hin _]);
           try (left; exact Hin);
           try (destruct Hin as [<- | []]; right; reflexivity)
         | unfold_handlers; simpl; break_match; auto
         | exact HS ]).
Qed.

Lemma ScrollSane_commit (s : State) : ScrollSane s -> ScrollSane (commit s).
Proof.
  apply ScrollSane_weaken.
  - intros t Hin. left. rewrite commit_refs in Hin. exact Hin.
  - unfold commit. destruct (render s); simpl; auto.
    destruct (scrollViewRef s) eqn:E; simpl; auto.
Qed.

Lemma ScrollSane_run (es : list Event) (s : State) :
  settingsInBounds s -> ScrollSane s -> ScrollSane (run es s).
Proof.
  revert s. induction es as [|e rest IH]; intros s Hb HS; [exact HS|].
  rewrite run_cons. apply IH.
  - apply settingsInBounds_commit, settingsInBounds_react, Hb.
  - apply ScrollSane_commit, ScrollSane_react; assumption.
Qed.

End TeleprompterOffset.

(** X15.  In every state reached from a fresh mount the script on screen is at an
    offset that is not negative, and every scroll tick in the table starts
    from a position that is not negative and adds a speed between 1 and 10:
    auto-scroll only ever moves the script down. *)
Theorem offset_is_never_negative :
  forall (t0 : Z) (es : list Teleprompter.Event),
    let s := Teleprompter.run es (Teleprompter.initialState t0) in
    (forall y, Teleprompter.scrollOffset s = Some y -> (0 <= y)%Z)
    /\ (forall t p v,
           In t (Teleprompter.timers s) ->
           Teleprompter.callback t = Teleprompter.ScrollTick p v ->
           (0 <= p)%Z /\ (1 <= v <= 10)%Z).
Proof.
  intros t0 es s.
  assert (HS : Teleprompter.ScrollSane s).
  { apply ScrollSane_run; [apply settingsInBounds_initial|].
    split; [intros t p v [] | discriminate]. }
  destruct HS as [H1 H2]. split.
  - intros y Hy. unfold Teleprompter.scrollOffset in Hy.
    destruct (Teleprompter.scrollViewRef s) as [sv|] eqn:E; [|discriminate].
    injection Hy as <-. apply H2. reflexivity.
  - exact H1.
Qed.

(** ** The recordings browser and the earlier teleprompter *)

(** X16.  A confirmed delete that the library accepts sets the list to the
    recordings that were on screen when the trash button was pressed,
    filtered of those of the deleted id, in their order: a refresh that
    landed in between is discarded.  When the deleted recording was the one
    playing, [playingVideo] keeps its id and no remaining item shows as
    playing.  A delete that the library rejects keeps the list and shows
    one alert. *)
Theorem deleteRecording_uses_the_list_at_the_press :
  forall (recordingId : JS.jsstring) (s later : RecordingsScreen.State),
    let c := RecordingsScreen.deleteRecording recordingId s in
    let s' := RecordingsScreen.deleteRecording_confirmed c true later in
    RecordingsScreen.recordings s'
    = filter (fun r => negb (JS.jsstring_eqb (RecordingsScreen.id r)
                               recordingId))
        (RecordingsScreen.recordings s)
    /\ (forall r, In r (RecordingsScreen.recordings s')
               <-> In r (RecordingsScreen.recordings s)
                   /\ RecordingsScreen.id r <> recordingId)
    /\ RecordingsScreen.playingVideo s' = RecordingsScreen.playingVideo later
    /\ RecordingsScreen.alerts s' = RecordingsScreen.alerts later
    /\ (RecordingsScreen.playingVideo later = Some recordingId ->
        forall r, In r (RecordingsScreen.recordings s') ->
                  RecordingsScreen.isPlaying r s' = false)
    /\ RecordingsScreen.deleteRecording_confirmed c false later
       = RecordingsScreen.mkState (RecordingsScreen.recordings later)
           (RecordingsScreen.hasPermission later)
           (RecordingsScreen.playingVideo later)
           (RecordingsScreen.alerts later
            ++ [("Error", "Failed to delete recording")%string]).
Proof.
  intros recordingId s later c s'. subst c s'.
  unfold RecordingsScreen.deleteRecording,
    RecordingsScreen.deleteRecording_confirmed. simpl.
  assert (Hkeep : forall r,
             negb (JS.jsstring_eqb (RecordingsScreen.id r) recordingId) = true
             <-> RecordingsScreen.id r <> recordingId).
  { intros r. rewrite negb_true_iff.
    destruct (JS.jsstring_eqb (RecordingsScreen.id r) recordingId) eqn:E.
    - apply jsstring_eqb_eq in E. split; [discriminate | contradiction].
    - split; [|reflexivity]. intros _ H. apply jsstring_eqb_eq in H.
      congruence. }
  split; [reflexivity|].
  split; [| split; [| split; [| split]]]; try reflexivity.
  - intros r. rewrite filter_In, Hkeep. reflexivity.
  - intros Hplay r Hin. apply filter_In in Hin. destruct Hin as [_ Hne].
    unfold RecordingsScreen.isPlaying. simpl. rewrite Hplay.
    apply negb_true_iff in Hne.
    destruct (JS.jsstring_eqb recordingId (RecordingsScreen.id r)) eqn:E;
      [|reflexivity].
    apply jsstring_eqb_eq in E. rewrite <- E in Hne.
    assert (Hrefl : JS.jsstring_eqb recordingId recordingId = true)
      by (apply jsstring_eqb_eq; reflexivity).
    congruence.
Qed.

(** X17.  The earlier [startRecording], run to its end with the camera
    view mounted, always leaves [isRecording] false.  It alerts "Success" only
    when a video came back, the media library was granted when the handler
    was called, and the save resolved; it alerts "Failed to record video"
    when the recording or the save rejected; and it drops the video without
    any alert when the media library was not granted or no video came
    back.  Without a camera view it does nothing. *)
Theorem earlier_startRecording_outcomes :
  forall (recorded : Teleprompter.Settled (option Teleprompter.Video))
         (stored : Teleprompter.Settled unit) (s : Teleprompter.State),
    let s' := TeleprompterV1.startRecording_run recorded stored s in
    (Teleprompter.attached (Teleprompter.cameraRef s) = false -> s' = s)
    /\ (Teleprompter.attached (Teleprompter.cameraRef s) = true ->
        Teleprompter.isRecording s' = false
        /\ Teleprompter.alerts s'
           = Teleprompter.alerts s
             ++ match recorded with
                | Teleprompter.Rejected _ =>
                    [("Error", "Failed to record video")%string]
                | Teleprompter.Resolved None => []
                | Teleprompter.Resolved (Some _) =>
                    if Teleprompter.granted
                         (Teleprompter.hasMediaLibraryPermission s)
                    then match stored with
                         | Teleprompter.Resolved _ =>
                             [("Success", "Video saved to gallery!")%string]
                         | Teleprompter.Rejected _ =>
                             [("Error", "Failed to record video")%string]
                         end
                    else []
                end).
Proof.
  intros recorded stored s s'. subst s'.
  unfold TeleprompterV1.startRecording_run, TeleprompterV1.startRecording.
  destruct (Teleprompter.attached (Teleprompter.cameraRef s)); simpl.
  - split; [discriminate|]. intros _.
    destruct recorded as [[v|]|e]; simpl.
    + destruct (Teleprompter.granted (Teleprompter.hasMediaLibraryPermission s));
        simpl.
      * destruct stored; split; reflexivity.
      * split; [reflexivity | rewrite app_nil_r; reflexivity].
    + split; [reflexivity | rewrite app_nil_r; reflexivity].
    + split; reflexivity.
  - split; [reflexivity | discriminate].
Qed.

(** X18.  Opening a script of the list for editing and saving it without
    typing changes no script, when the ids of the list are distinct and the
    script is counted (its title and content are not blank and its word
    count is that of its content). *)
Theorem edit_without_changes_is_neutral :
  forall (nowISO : JS.jsstring) (nowMs : N) (setItemOk : bool)
         (s : ScriptsScreen.State) (script : Script.t),
    NoDup (map Script.id (ScriptsScreen.scripts s)) ->
    In script (ScriptsScreen.scripts s) ->
    ScriptsScreen.counted script ->
    ScriptsScreen.scripts
      (ScriptsScreen.saveScript nowISO nowMs setItemOk
         (ScriptsScreen.editScript script s))
    = ScriptsScreen.scripts s.
Proof.
  intros nowISO nowMs ok s script Hnd Hin [Ht [Hc Hw]].
  rewrite saveScript_unfold by assumption.
  destruct ok; [|reflexivity]. simpl.
  rewrite <- (map_id (ScriptsScreen.scripts s)) at 2.
  apply map_ext_in. intros other Hother.
  destruct (JS.jsstring_eqb (Script.id other) (Script.id script)) eqn:E;
    [|reflexivity].
  apply jsstring_eqb_eq in E.
  assert (other = script)
    by (apply (NoDup_map_inj Script.id (ScriptsScreen.scripts s)); assumption).
  subst other. unfold ScriptsScreen.withEdits.
  rewrite (split_trim_count_words _ Hc), <- Hw. destruct script; reflexivity.
Qed.

(** ** The properties at sample sessions *)

Lemma blank_form_is_refused_witness :
  ScriptsScreen.blank (ScriptsScreen.title Samples.untitled)
  /\ ScriptsScreen.alerts
       (ScriptsScreen.saveScript [] 0 true Samples.untitled)
     = [("Error", "Please enter both title and content")%string]
  /\ ScriptsScreen.scripts
       (ScriptsScreen.saveScript [] 0 true Samples.untitled)
     = [Examples.intro; Examples.stale].
Proof.
  assert (Hblank : ScriptsScreen.blank (ScriptsScreen.title Samples.untitled))
    by (repeat constructor).
  split; [exact Hblank|].
  pose proof (proj1 (blank_form_is_refused [] 0%N true Samples.untitled)
                (or_introl Hblank)) as H.
  split.
  - etransitivity;
      [exact (f_equal ScriptsScreen.alerts H) | vm_compute; reflexivity].
  - etransitivity;
      [exact (f_equal ScriptsScreen.scripts H) | vm_compute; reflexivity].
Defined.

Lemma rejected_save_clears_the_form_witness :
  ~ ScriptsScreen.blank (ScriptsScreen.title Samples.typing)
  /\ ~ ScriptsScreen.blank (ScriptsScreen.content Samples.typing)
  /\ ScriptsScreen.saveScript [] 0 false Samples.typing = Samples.listed.
Proof.
  assert (Ht : ~ ScriptsScreen.blank (ScriptsScreen.title Samples.typing))
    by (intros H; inversion H; discriminate).
  assert (Hc : ~ ScriptsScreen.blank (ScriptsScreen.content Samples.typing))
    by (intros H; inversion H; discriminate).
  split; [exact Ht|]. split; [exact Hc|].
  etransitivity;
    [exact (rejected_save_clears_the_form [] 0%N Samples.typing Ht Hc)
    | vm_compute; reflexivity].
Defined.

Lemma deleteScript_removes_by_id_witness :
  (forall script, In script (ScriptsScreen.scripts Samples.listed) ->
                  Script.id script <> JS.lit "99")
  /\ ScriptsScreen.scripts
       (ScriptsScreen.deleteScript true (JS.lit "99") Samples.listed)
     = ScriptsScreen.scripts Samples.listed.
Proof.
  assert (H : forall script,
             In script (ScriptsScreen.scripts Samples.listed) ->
             Script.id script <> JS.lit "99").
  { intros script [E | [E | []]]; subst script; discriminate. }
  split; [exact H|].
  destruct (deleteScript_removes_by_id (JS.lit "99") Samples.listed)
    as [_ [_ [_ [Hsame _]]]].
  exact (Hsame H).
Defined.

Lemma word_counts_stay_right_witness :
  (forall l, Some [Examples.intro] = Some l -> Forall ScriptsScreen.counted l)
  /\ In Samples.outro
       (ScriptsScreen.scripts
          (ScriptsScreenAsync.component
             (ScriptsScreenAsync.run Samples.creating
                (ScriptsScreenAsync.mount (Some [Examples.intro])))))
  /\ ScriptsScreen.counted Samples.outro
  /\ (1 <= Script.wordCount Samples.outro
      <= Z.of_nat (List.length (Script.content Samples.outro)))%Z.
Proof.
  assert (H : forall l, Some [Examples.intro] = Some l ->
                        Forall ScriptsScreen.counted l).
  { intros l E. injection E as <-. constructor; [|constructor].
    split; [reflexivity|]. split; reflexivity. }
  assert (Hin : In Samples.outro
                  (ScriptsScreen.scripts
                     (ScriptsScreenAsync.component
                        (ScriptsScreenAsync.run Samples.creating
                           (ScriptsScreenAsync.mount (Some [Examples.intro]))))))
    by (vm_compute; right; left; reflexivity).
  split; [exact H|]. split; [exact Hin|].
  exact (word_counts_stay_right (Some [Examples.intro]) Samples.creating H
           Samples.outro Hin).
Defined.

Lemma ids_stay_distinct_witness :
  map Script.id (ScriptsScreen.scripts Samples.typing)
  = map JS.toString [1; 17]%N
  /\ NoDup [1; 17]%N
  /\ ~ In 1709424000000%N [1; 17]%N
  /\ NoDup (map Script.id
              (ScriptsScreen.scripts
                 (ScriptsScreen.saveScript [] 1709424000000 true
                    Samples.typing)))
  /\ NoDup (map Script.id
              (ScriptsScreen.scripts
                 (ScriptsScreen.deleteScript true (JS.lit "17")
                    Samples.typing))).
Proof.
  assert (Hids : map Script.id (ScriptsScreen.scripts Samples.typing)
                 = map JS.toString [1; 17]%N)
    by (vm_compute; reflexivity).
  assert (Hnd : NoDup [1; 17]%N).
  { constructor.
    - intros [E | []]; discriminate.
    - constructor; [intros [] | constructor]. }
  assert (Hnew : ~ In 1709424000000%N [1; 17]%N)
    by (intros [E | [E | []]]; discriminate).
  split; [exact Hids|]. split; [exact Hnd|]. split; [exact Hnew|].
  exact (ids_stay_distinct [] 1709424000000%N true (JS.lit "17") [1; 17]%N
           Samples.typing Hids Hnd (fun _ => Hnew)).
Defined.

Lemma edit_without_changes_is_neutral_witness :
  NoDup (map Script.id (ScriptsScreen.scripts Samples.listed))
  /\ In Examples.intro (ScriptsScreen.scripts Samples.listed)
  /\ ScriptsScreen.counted Examples.intro
  /\ ScriptsScreen.scripts
       (ScriptsScreen.saveScript [] 0 true
          (ScriptsScreen.editScript Examples.intro Samples.listed))
     = ScriptsScreen.scripts Samples.listed.
Proof.
  assert (Hnd : NoDup (map Script.id (ScriptsScreen.scripts Samples.listed))).
  { constructor.
    - intros [E | []]; discriminate.
    - constructor; [intros [] | constructor]. }
  assert (Hin : In Examples.intro (ScriptsScreen.scripts Samples.listed))
    by (left; reflexivity).
  assert (Hc : ScriptsScreen.counted Examples.intro)
    by (split; [reflexivity | split; reflexivity]).
  split; [exact Hnd|]. split; [exact Hin|]. split; [exact Hc|].
  exact (edit_without_changes_is_neutral [] 0%N true Samples.listed
           Examples.intro Hnd Hin Hc).
Defined.

Lemma cooldown_is_never_cancelled_witness :
  In Samples.coolDown
    (Teleprompter.timers
       (Teleprompter.run Samples.takeOne (Teleprompter.initialState 0)))
  /\ In Samples.coolDown
       (Teleprompter.timers
          (Teleprompter.run Samples.takeTwo
             (Teleprompter.run Samples.takeOne (Teleprompter.initialState 0))))
  /\ Teleprompter.recordingStatus
       (Teleprompter.advance 2000
          (Teleprompter.run Samples.takeTwo
             (Teleprompter.run Samples.takeOne (Teleprompter.initialState 0))))
     = Teleprompter.idle.
Proof.
  assert (Hnone : forallb (fun e => negb (Teleprompter.isElapse e))
                    Samples.takeTwo = true)
    by (vm_compute; reflexivity).
  assert (Hin : In Samples.coolDown
                  (Teleprompter.timers
                     (Teleprompter.run Samples.takeOne
                        (Teleprompter.initialState 0))))
    by (vm_compute; left; reflexivity).
  assert (Hdue : Teleprompter.due Samples.coolDown
                 = (Teleprompter.now
                      (Teleprompter.run Samples.takeOne
                         (Teleprompter.initialState 0))
                    + Z.of_nat 2000)%Z)
    by (vm_compute; reflexivity).
  split; [exact Hin|].
  exact (cooldown_is_never_cancelled 0 Samples.takeOne Samples.takeTwo
           Samples.coolDown 1999 Hnone Hin eq_refl Hdue).
Defined.

Lemma elapsed_time_lags_less_than_a_tick_witness :
  Teleprompter.canRecord Examples.ready = true
  /\ Teleprompter.isRecording
       (Teleprompter.advance 250
          (fst (Teleprompter.startRecording Examples.ready))) = true
  /\ (Z.of_nat 250 - 100
      < Teleprompter.recordingDuration
          (Teleprompter.advance 250
             (fst (Teleprompter.startRecording Examples.ready)))
      <= Z.of_nat 250)%Z.
Proof.
  assert (H : Teleprompter.canRecord Examples.ready = true)
    by (vm_compute; reflexivity).
  split; [exact H|].
  exact (elapsed_time_lags_less_than_a_tick Examples.ready 250 H).
Defined.

Lemma selected_script_is_never_unset_witness :
  Teleprompter.attached (Teleprompter.selectedScript Examples.ready) = true
  /\ Teleprompter.attached
       (Teleprompter.selectedScript
          (Teleprompter.run
             [Teleprompter.SelectedScriptRead None; Teleprompter.FocusLost;
              Teleprompter.FocusGained]
             Examples.ready)) = true.
Proof.
  assert (H : Teleprompter.attached
                (Teleprompter.selectedScript Examples.ready) = true)
    by (vm_compute; reflexivity).
  split; [exact H|].
  exact (proj2 (selected_script_is_never_unset Examples.ready
                  [Teleprompter.SelectedScriptRead None;
                   Teleprompter.FocusLost; Teleprompter.FocusGained]) H).
Defined.

Lemma main_view_refusals_witness :
  Teleprompter.render (Teleprompter.commit Examples.ready)
  = Teleprompter.MainView
  /\ snd (Teleprompter.startRecording (Teleprompter.commit Examples.ready))
     = Teleprompter.AwaitRecordAsync
         (Teleprompter.mkOptions "avc1" 60 (100 * 1024 * 1024)).
Proof.
  assert (H : Teleprompter.render (Teleprompter.commit Examples.ready)
              = Teleprompter.MainView)
    by (vm_compute; reflexivity).
  split; [exact H|].
  etransitivity;
    [exact (f_equal snd (main_view_refusals Examples.ready H))
    | vm_compute; reflexivity].
Defined.

Lemma recording_failure_is_reported_once_witness :
  (exists message a b,
      Samples.simulatorError = Teleprompter.ErrorObject message
      /\ message = (a ++ "stopped before any data" ++ b)%string)
  /\ Teleprompter.alerts
       (fst (Teleprompter.startRecording_recorded
               (Teleprompter.Rejected Samples.simulatorError)
               Examples.recordingAndScrolling))
     = Teleprompter.alerts Examples.recordingAndScrolling
       ++ [("Recording Error",
            "Recording failed - this may be a simulator limitation. Try on a real device.")%string]
  /\ Teleprompter.ownsRecordingTimers Examples.recordingAndScrolling = true
  /\ Teleprompter.recordingTimers
       (Teleprompter.timers
          (fst (Teleprompter.startRecording_recorded
                  (Teleprompter.Rejected Samples.simulatorError)
                  Examples.recordingAndScrolling))) = []
  /\ Teleprompter.recordingDuration
       (Teleprompter.advance 300
          (fst (Teleprompter.startRecording_recorded
                  (Teleprompter.Rejected Samples.simulatorError)
                  Examples.recordingAndScrolling))) = 0%Z.
Proof.
  assert (H : exists message a b,
             Samples.simulatorError = Teleprompter.ErrorObject message
             /\ message = (a ++ "stopped before any data" ++ b)%string).
  { exists "Recording was stopped before any data could be produced."%string,
      "Recording was "%string, " could be produced."%string.
    split; reflexivity. }
  assert (Hown : Teleprompter.ownsRecordingTimers
                   Examples.recordingAndScrolling = true)
    by (vm_compute; reflexivity).
  split; [exact H|].
  destruct (recording_failure_is_reported_once Examples.recordingAndScrolling
              Samples.simulatorError)
    as [_ [_ [_ [_ [Hsim [_ [_ Hstop]]]]]]].
  destruct (Hstop Hown) as [Hnone Hzero].
  split; [exact (Hsim H)|]. split; [exact Hown|]. split; [exact Hnone|].
  exact (Hzero 300%nat).
Defined.

Lemma outcome_alerts_witness :
  Teleprompter.isTerminal
    (Teleprompter.recordingStatus Examples.enteringSaving) = false
  /\ Teleprompter.alerts
       (Teleprompter.handle_event
          (Teleprompter.SaveSettled (Teleprompter.Resolved tt))
          Examples.enteringSaving)
     = Teleprompter.alerts Examples.enteringSaving
       ++ [("Success", "Video saved to gallery!")%string].
Proof.
  assert (H : Teleprompter.isTerminal
                (Teleprompter.recordingStatus Examples.enteringSaving) = false)
    by (vm_compute; reflexivity).
  assert (Hsaved : Teleprompter.recordingStatus
                     (Teleprompter.handle_event
                        (Teleprompter.SaveSettled (Teleprompter.Resolved tt))
                        Examples.enteringSaving)
                   = Teleprompter.saved)
    by (vm_compute; reflexivity).
  split; [exact H|].
  pose proof (outcome_alerts Examples.enteringSaving
                (Teleprompter.SaveSettled (Teleprompter.Resolved tt)) H) as P.
  cbv zeta in P. rewrite Hsaved in P. exact P.
Defined.

Lemma offset_is_never_negative_witness :
  Teleprompter.scrollOffset
    (Teleprompter.run Samples.scrolling (Teleprompter.initialState 0))
  = Some 6%Z
  /\ (0 <= 6)%Z.
Proof.
  assert (H : Teleprompter.scrollOffset
                (Teleprompter.run Samples.scrolling
                   (Teleprompter.initialState 0))
              = Some 6%Z)
    by (vm_compute; reflexivity).
  split; [exact H|].
  exact (proj1 (offset_is_never_negative 0 Samples.scrolling) 6%Z H).
Defined.

Lemma deleteRecording_uses_the_list_at_the_press_witness :
  RecordingsScreen.playingVideo Samples.browsing = Some (JS.lit "A1")
  /\ In Samples.secondTake
       (RecordingsScreen.recordings
          (RecordingsScreen.deleteRecording_confirmed
             (RecordingsScreen.deleteRecording (JS.lit "A1") Samples.browsing)
             true Samples.browsing))
  /\ RecordingsScreen.isPlaying Samples.secondTake
       (RecordingsScreen.deleteRecording_confirmed
          (RecordingsScreen.deleteRecording (JS.lit "A1") Samples.browsing)
          true Samples.browsing)
     = false.
Proof.
  assert (Hplay : RecordingsScreen.playingVideo Samples.browsing
                  = Some (JS.lit "A1"))
    by reflexivity.
  assert (Hin : In Samples.secondTake
                  (RecordingsScreen.recordings
                     (RecordingsScreen.deleteRecording_confirmed
                        (RecordingsScreen.deleteRecording (JS.lit "A1")
                           Samples.browsing)
                        true Samples.browsing)))
    by (left; reflexivity).
  split; [exact Hplay|]. split; [exact Hin|].
  destruct (deleteRecording_uses_the_list_at_the_press (JS.lit "A1")
              Samples.browsing Samples.browsing)
    as [_ [_ [_ [_ [Hnone _]]]]].
  exact (Hnone Hplay Samples.secondTake Hin).
Defined.

Lemma earlier_startRecording_outcomes_witness :
  Teleprompter.attached (Teleprompter.cameraRef Examples.ready) = true
  /\ Teleprompter.isRecording
       (TeleprompterV1.startRecording_run
          (Teleprompter.Resolved (Some Examples.clip))
          (Teleprompter.Resolved tt) Examples.ready) = false
  /\ Teleprompter.alerts
       (TeleprompterV1.startRecording_run
          (Teleprompter.Resolved (Some Examples.clip))
          (Teleprompter.Resolved tt) Examples.ready)
     = Teleprompter.alerts Examples.ready
       ++ [("Success", "Video saved to gallery!")%string].
Proof.
  assert (H : Teleprompter.attached (Teleprompter.cameraRef Examples.ready)
              = true)
    by (vm_compute; reflexivity).
  split; [exact H|].
  destruct (proj2 (earlier_startRecording_outcomes
                     (Teleprompter.Resolved (Some Examples.clip))
                     (Teleprompter.Resolved tt) Examples.ready) H)
    as [Hrec Halerts].
  split; [exact Hrec|].
  etransitivity; [exact Halerts | vm_compute; reflexivity].
Defined.
